(** * WebSentinel: trace normalisation and compliance analysis

    A shallow embedding of the execution-trace pipeline of
    [api_server.py]: the text classifiers of [BrowserExecutor], the
    thought correlation of [enhance_step_with_thoughts], the step loop of
    [save_execution_results], the manual screenshots of [execute_task],
    the compliance analysis of [analyze_results_direct], the fallback
    narrative of [analyze_results_endpoint], and the thought log written
    by [AgentLogger] and read by [load_agent_thoughts].

    Conventions.
    - A Python [str] is a [string], the bytes of its UTF-8 form. Length,
      slicing and [strip] go by code point: a byte [10xxxxxx] continues
      the code point before it, and the white space is that of
      [str.isspace]. Substring tests are the same on bytes as on code
      points. [str.lower] folds [A-Z] and leaves every other byte alone,
      which is what it does on ASCII text.
    - A Python [dict] with a fixed set of keys is a record; a key that may
      be missing is an [option].
    - Code that may raise returns [Exc A]: [Ok a] or [Raise msg].
    - The clock and the file system are explicit arguments. *)

From Stdlib Require Import String Ascii List Bool Arith PeanoNat Lia.
Import ListNotations.
Local Open Scope list_scope.
Local Open Scope string_scope.
Local Open Scope nat_scope.

(** ** Python string primitives *)

Module Py.

(** [bool(s)] for a string: non-empty. *)
Definition truthy (s : string) : bool :=
  match s with
  | EmptyString => false
  | String _ _ => true
  end.

Definition is_upper (c : ascii) : bool :=
  (65 <=? nat_of_ascii c) && (nat_of_ascii c <=? 90).

Definition lower_char (c : ascii) : ascii :=
  if is_upper c then ascii_of_nat (nat_of_ascii c + 32) else c.

(** [s.lower()] *)
Fixpoint lower (s : string) : string :=
  match s with
  | EmptyString => EmptyString
  | String c r => String (lower_char c) (lower r)
  end.

(** [s.startswith(p)] *)
Definition startswith (s p : string) : bool := String.prefix p s.

(** [needle in hay] *)
Fixpoint contains (needle hay : string) : bool :=
  String.prefix needle hay ||
  match hay with
  | EmptyString => false
  | String _ r => contains needle r
  end.

(** [any(word in s for word in words)] *)
Definition any_in (words : list string) (s : string) : bool :=
  existsb (fun w => contains w s) words.

(** [s.rstrip(chars)] for ASCII characters, given as a predicate. *)
Fixpoint rstrip_by (p : ascii -> bool) (s : string) : string :=
  match s with
  | EmptyString => EmptyString
  | String c r =>
      match rstrip_by p r with
      | EmptyString => if p c then EmptyString else String c EmptyString
      | r' => String c r'
      end
  end.

(** A byte [10xxxxxx]: it continues the code point the bytes before it
    began. *)
Definition is_cont (c : ascii) : bool :=
  (128 <=? nat_of_ascii c) && (nat_of_ascii c <? 192).

(** [len(s)]: one for every byte that begins a code point. *)
Fixpoint len (s : string) : nat :=
  match s with
  | EmptyString => 0
  | String c r => if is_cont c then len r else S (len r)
  end.

(** The code points of [s], each as its bytes. *)
Fixpoint chars (s : string) : list string :=
  match s with
  | EmptyString => []
  | String c r =>
      match chars r with
      | String d t :: rest =>
          if is_cont d then String c (String d t) :: rest
          else String c EmptyString :: String d t :: rest
      | rest => String c EmptyString :: rest
      end
  end.

Definition flatten (chunks : list string) : string :=
  fold_right String.append EmptyString chunks.

Definition bytes (codes : list nat) : string :=
  string_of_list_ascii (map ascii_of_nat codes).

(** The code points [str.isspace] holds of: U+0009 to U+000D, U+001C to
    U+0020, U+0085, U+00A0, U+1680, U+2000 to U+200A, U+2028, U+2029,
    U+202F, U+205F and U+3000. *)
Definition spaces : list string :=
  map bytes
      [[9]; [10]; [11]; [12]; [13]; [28]; [29]; [30]; [31]; [32];
       [194; 133]; [194; 160]; [225; 154; 128];
       [226; 128; 128]; [226; 128; 129]; [226; 128; 130]; [226; 128; 131];
       [226; 128; 132]; [226; 128; 133]; [226; 128; 134]; [226; 128; 135];
       [226; 128; 136]; [226; 128; 137]; [226; 128; 138];
       [226; 128; 168]; [226; 128; 169]; [226; 128; 175];
       [226; 129; 159]; [227; 128; 128]].

Definition is_space (ch : string) : bool := existsb (String.eqb ch) spaces.

Fixpoint lstrip_list {A : Type} (p : A -> bool) (l : list A) : list A :=
  match l with
  | [] => []
  | x :: r => if p x then lstrip_list p r else l
  end.

Fixpoint rstrip_list {A : Type} (p : A -> bool) (l : list A) : list A :=
  match l with
  | [] => []
  | x :: r =>
      match rstrip_list p r with
      | [] => if p x then [] else [x]
      | r' => x :: r'
      end
  end.

(** [s.strip()] *)
Definition strip (s : string) : string :=
  flatten (rstrip_list is_space (lstrip_list is_space (chars s))).

Definition is_slash (c : ascii) : bool := Ascii.eqb c "/"%char.

(** [s.rstrip("/")] *)
Definition rstrip_slash (s : string) : string := rstrip_by is_slash s.

(** [s.split('\n')[0]] *)
Fixpoint first_line (s : string) : string :=
  match s with
  | EmptyString => EmptyString
  | String c r =>
      if Ascii.eqb c "010"%char then EmptyString else String c (first_line r)
  end.

(** [s[:n]]: the first [n] code points. *)
Fixpoint take (n : nat) (s : string) : string :=
  match s with
  | EmptyString => EmptyString
  | String c r =>
      if is_cont c then String c (take n r)
      else match n with
           | 0 => EmptyString
           | S k => String c (take k r)
           end
  end.

Fixpoint skip_cont (s : string) : string :=
  match s with
  | EmptyString => EmptyString
  | String c r => if is_cont c then skip_cont r else s
  end.

(** [s[n:]]: all but the first [n] code points. A byte below 128 is a
    code point of its own; any other first byte takes the bytes that
    continue it along. *)
Fixpoint drop (n : nat) (s : string) : string :=
  match n with
  | 0 => s
  | S k =>
      match s with
      | EmptyString => EmptyString
      | String c r => drop k (if nat_of_ascii c <? 128 then r else skip_cont r)
      end
  end.

Definition digit (n : nat) : ascii := ascii_of_nat (48 + n).

Fixpoint str_nat_fuel (fuel n : nat) (acc : string) : string :=
  match fuel with
  | 0 => acc
  | S f =>
      let acc' := String (digit (n mod 10)) acc in
      if n / 10 =? 0 then acc' else str_nat_fuel f (n / 10) acc'
  end.

(** [str(n)] for a non-negative integer. *)
Definition str_nat (n : nat) : string := str_nat_fuel (S n) n EmptyString.

(** [sep.join(xs)] *)
Definition join (sep : string) (xs : list string) : string :=
  String.concat sep xs.

End Py.

(** ** Text classification ([BrowserExecutor]) *)

Definition success_words : list string := ["success"; "completed"; "done"; "found"].
Definition failure_words : list string :=
  ["failed"; "error"; "exception"; "timeout"; "not found"].

(** [if not data or data == "N/A"] *)
Definition absent (data : string) : bool :=
  negb (Py.truthy data) || String.eqb data "N/A".

Definition determine_success_status (result_data : string) : string :=
  if absent result_data then "unknown"
  else
    let result_lower := Py.lower result_data in
    if Py.any_in success_words result_lower then "success"
    else if Py.any_in failure_words result_lower then "failed"
    else if Py.contains "[]" result_data
            || Py.contains "empty" result_lower
            || Py.contains "none" result_lower then "empty"
    else if 0 <? Py.len (Py.strip result_data) then "completed"
    else "unknown".

Definition truncate60 (first_line : string) : string :=
  if 60 <? Py.len first_line
  then Py.take 60 first_line ++ "..."
  else first_line.

Definition extract_action_summary (action_data : string) : string :=
  if absent action_data then "No action specified"
  else
    let first_line := Py.strip (Py.first_line action_data) in
    let l := Py.lower first_line in
    if Py.contains "navigate" l || Py.contains "goto" l then "Navigating to webpage"
    else if Py.contains "click" l then "Clicking element"
    else if Py.contains "type" l || Py.contains "input" l then "Entering text"
    else if Py.contains "scroll" l then "Scrolling page"
    else if Py.contains "wait" l then "Waiting for element"
    else if Py.contains "screenshot" l then "Taking screenshot"
    else if Py.contains "search" l then "Searching"
    else truncate60 first_line.

Definition extract_result_summary (result_data : string) : string :=
  if absent result_data then "No result available"
  else
    let first_line := Py.strip (Py.first_line result_data) in
    let l := Py.lower first_line in
    if Py.contains "success" l then "Action completed successfully"
    else if Py.contains "failed" l || Py.contains "error" l then "Action failed"
    else if Py.contains "found" l then "Element found"
    else if Py.contains "loaded" l then "Page loaded"
    else if Py.contains "clicked" l then "Click performed"
    else if Py.contains "typed" l then "Text entered"
    else if Py.contains "[]" first_line || Py.contains "empty" l then "No results returned"
    else truncate60 first_line.

Definition classify_action_type (action_data : string) : string :=
  if absent action_data then "unknown"
  else
    let action_lower := Py.lower action_data in
    if Py.any_in ["navigate"; "goto"; "visit"] action_lower then "navigation"
    else if Py.any_in ["click"; "tap"; "press"] action_lower then "interaction"
    else if Py.any_in ["type"; "input"; "enter"; "fill"] action_lower then "input"
    else if Py.any_in ["scroll"; "swipe"] action_lower then "scroll"
    else if Py.any_in ["wait"; "pause"; "sleep"] action_lower then "wait"
    else if Py.any_in ["screenshot"; "capture"; "image"] action_lower then "capture"
    else if Py.any_in ["search"; "find"; "locate"] action_lower then "search"
    else if Py.any_in ["extract"; "get"; "read"] action_lower then "extraction"
    else "other".

(** ** Exceptions

    [Raise msg] stands for a raised Python exception whose [str(e)] is
    [msg]. *)

Inductive Exc (A : Type) : Type :=
| Ok (a : A)
| Raise (msg : string).
Arguments Ok {A} a.
Arguments Raise {A} msg.

Definition bind {A B : Type} (c : Exc A) (k : A -> Exc B) : Exc B :=
  match c with
  | Ok a => k a
  | Raise msg => Raise msg
  end.

Notation "x <- c ;; k" := (bind c (fun x => k))
  (at level 61, c at next level, right associativity).

(** [obj.name] on an object of class [cls] that may lack the
    attribute. *)
Definition getattr {A : Type} (cls name : string) (v : option A) : Exc A :=
  match v with
  | Some a => Ok a
  | None => Raise ("'" ++ cls ++ "' object has no attribute '" ++ name ++ "'")
  end.

(** [for x in xs: ys.append(f(x))], stopping at the first exception. *)
Fixpoint mapM {A B : Type} (f : A -> Exc B) (xs : list A) : Exc (list B) :=
  match xs with
  | [] => Ok []
  | x :: rest =>
      y <- f x ;;
      ys <- mapM f rest ;;
      Ok (y :: ys)
  end.

(** [xs[a:b]] for [0 <= a], [0 <= b]. *)
Definition slice {A : Type} (xs : list A) (a b : nat) : list A :=
  firstn (b - a) (skipn a xs).

(** ** Data model *)

(** The [details] mapping of an action: the keys the normaliser writes,
    each present or not. *)
Record Details := mkDetails {
  d_url : option string;
  d_text : option string;
  d_index : option nat;
  d_message : option string;
  d_success : option bool;
  d_goal : option string;
  d_description : option string
}.

Definition no_details : Details := mkDetails None None None None None None None.

(** [{"type": ..., "details": ...}] *)
Record Action := mkAction {
  a_type : string;
  a_details : Details
}.

(** [{"content", "is_done", "success", "error"}]; the content is a
    string or [None], and so are the other three values. *)
Record ActionResult := mkActionResult {
  r_content : option string;
  r_is_done : option bool;
  r_success : option bool;
  r_error : option string
}.

(** One line of the thought log, as [load_agent_thoughts] parses it. *)
Record Thought := mkThought {
  t_timestamp : string;
  t_type : string;
  t_message : string
}.

Record StepThoughts := mkStepThoughts {
  th_actions : list string;
  th_observations : list string;
  th_decisions : list string
}.

(** [step_info]. The clock and reflection fields ([timestamp],
    [raw_step_type], [step_attributes], [duration], [brain_state]) are
    left out. *)
Record StepInfo := mkStepInfo {
  si_step_number : nat;
  si_action : string;
  si_result : string;
  si_screenshot : option string;
  si_screenshot_url : option string;
  si_action_type : string;
  si_success : bool;
  si_actions : option (list Action);
  si_results : option (list ActionResult);
  si_thoughts : option StepThoughts
}.

(** [enhanced_step["action_details"]]: [{}] is every field [None]. Of
    what [parse_action_details] returns the raw text and the error flag
    are kept. *)
Record ActionDetails := mkActionDetails {
  ad_actions : option (list Action);
  ad_raw_action : option string;
  ad_contains_errors : option bool;
  ad_thoughts : option StepThoughts
}.

(** [enhanced_step["result_details"]], in the same way. *)
Record ResultDetails := mkResultDetails {
  rd_results : option (list ActionResult);
  rd_raw_result : option string;
  rd_contains_errors : option bool
}.

(** [enhanced_step], the normalised step. *)
Record EnhancedStep := mkEnhancedStep {
  es_step_number : nat;
  es_action_summary : string;
  es_action_details : ActionDetails;
  es_result_summary : string;
  es_result_details : ResultDetails;
  es_action_type : string;
  es_success_status : string;
  es_screenshot_url : option string;
  es_errors : list string;
  es_thoughts : option StepThoughts
}.

(** *** Raw steps *)

(** The parameter object of one action ([action.go_to_url],
    [action.done], ...): the name of its class, and for every attribute
    whether it is there. *)
Record Params := mkParams {
  class_name : string;
  url : option string;
  text : option string;
  index : option nat;
  message : option string;
  success : option bool;
  goal : option string;
  description : option string
}.

(** One item of [model_output.action]. A field is [Some p] when the
    attribute exists and is truthy. *)
Record RawAction := mkRawAction {
  go_to_url : option Params;
  input_text : option Params;
  click_element_by_index : option Params;
  log_action : option Params;
  log_observation : option Params;
  log_decision : option Params;
  done : option Params;
  extract_content : option Params;
  take_screenshot_now : option Params
}.

(** One item of [step.result]: [extracted_content] when the item has
    the attribute (a string or [None]), [is_done] likewise (a boolean
    or [None]), the other two read with [getattr] and the default
    [None]. *)
Record RawResult := mkRawResult {
  extracted_content : option (option string);
  is_done : option (option bool);
  result_success : option bool;
  result_error : option string
}.

(** A screenshot value found on a step: [bytes], an object with a
    [save] method, a string, or a truthy object that is none of these
    and not bytes-like; for the objects the name of the class. *)
Inductive Shot :=
| ShotBytes (data : string)
| ShotImage (cls : string)
| ShotStr (s : string)
| ShotOther (cls : string).

Definition shot_truthy (s : Shot) : bool :=
  match s with
  | ShotBytes d => Py.truthy d
  | ShotStr d => Py.truthy d
  | ShotImage _ | ShotOther _ => true
  end.

(** One element of a tuple step: [bool(item)], [str(item)] and
    [item.screenshot]. *)
Record TupleItem := mkTupleItem {
  item_truthy : bool;
  item_str : string;
  item_screenshot : option Shot
}.

(** Which of [model_output], [result] an object of the third shape has:
    with both it would be of the first shape. The payload is
    [str(value)] when the value is truthy. *)
Inductive Primary :=
| NoPrimary
| OnlyModelOutput (v : option string)
| OnlyResult (v : option string).

(** An object of the third shape: for every probed attribute
    [Some (str value)] when it exists and is truthy. *)
Record Loose := mkLoose {
  lo_primary : Primary;
  lo_action : option string;
  lo_input : option string;
  lo_query : option string;
  lo_tool_calls : option string;
  lo_output : option string;
  lo_response : option string;
  lo_content : option string;
  lo_screenshot : option Shot;
  lo_image : option Shot;
  lo_screen_capture : option Shot;
  lo_page_screenshot : option Shot
}.

Inductive RawStep :=
| AgentHistory (actions : list RawAction) (result : list RawResult)
               (state_screenshot : option Shot)
| TupleStep (items : list TupleItem)
| LooseStep (o : Loose).

(** The clock reading and the outcome of every file operation of one
    run; a file operation yields [Some msg] when it raises. *)
Record Env := mkEnv {
  timestamp : string;
  save_b64 : string -> string -> option string;
  write_bytes : string -> string -> option string;
  image_save : string -> option string;
  path_exists : string -> bool;
  copy2 : string -> string -> option string;
  dump_log : option string
}.

(** [results], the dictionary [save_execution_results] fills and
    returns ([timestamp], [task_details] and [debug_info] left out; of a
    [full_conversation] entry the step number and the text are kept). *)
Record Results := mkResults {
  res_task_id : string;
  execution_steps : list StepInfo;
  screenshots : list string;
  screenshot_urls : list string;
  res_success : bool;
  res_error : option string;
  enhanced_steps : list EnhancedStep;
  res_agent_thoughts : list Thought;
  log_file : option string;
  full_conversation : list (nat * string)
}.

(** ** Thought correlation ([enhance_step_with_thoughts]) *)

Definition thoughts_per_step (agent_thoughts : list Thought) (step_number : nat) : nat :=
  match agent_thoughts with
  | [] => 0
  | _ :: _ => Nat.max 1 (length agent_thoughts / Nat.max 1 step_number)
  end.

Definition start_idx (agent_thoughts : list Thought) (step_number : nat) : nat :=
  (step_number - 1) * thoughts_per_step agent_thoughts step_number.

Definition end_idx (agent_thoughts : list Thought) (step_number : nat) : nat :=
  Nat.min (length agent_thoughts)
          (start_idx agent_thoughts step_number
           + thoughts_per_step agent_thoughts step_number + 2).

(** [agent_thoughts[start_idx:end_idx]] *)
Definition thought_window (agent_thoughts : list Thought) (step_number : nat) : list Thought :=
  slice agent_thoughts (start_idx agent_thoughts step_number)
        (end_idx agent_thoughts step_number).

Definition messages_of (type : string) (window : list Thought) : list string :=
  map t_message (filter (fun t => String.eqb (t_type t) type) window).

(** The non-empty messages of the actions of type [type]. *)
Definition logged (type : string) (actions : list Action) : list string :=
  flat_map (fun a =>
              if String.eqb (a_type a) type
              then match d_message (a_details a) with
                   | Some m => if Py.truthy m then [m] else []
                   | None => []
                   end
              else [])
           actions.

Definition is_log_type (type : string) : bool :=
  existsb (String.eqb type) ["log_action"; "log_observation"; "log_decision"].

Definition step_label (step_number : nat) (types : list string) : string :=
  "Step " ++ Py.str_nat step_number ++ ": " ++ Py.join ", " types.

Definition enhance_step_with_thoughts
    (step_info : StepInfo) (enhanced_step : EnhancedStep) (step_number : nat)
    (agent_thoughts : list Thought) (actions : option (list Action))
  : StepInfo * EnhancedStep :=
  let window := thought_window agent_thoughts step_number in
  let acts := match actions with Some l => l | None => [] end in
  let step_thoughts :=
    mkStepThoughts
      (messages_of "action" window ++ logged "log_action" acts)%list
      (messages_of "observation" window ++ logged "log_observation" acts)%list
      (messages_of "decision" window ++ logged "log_decision" acts)%list in
  let action_summary :=
    match th_actions step_thoughts with
    | a :: _ => a
    | [] =>
        match th_decisions step_thoughts with
        | d :: _ => "Decision: " ++ d
        | [] =>
            match th_observations step_thoughts with
            | o :: _ => "Observation: " ++ o
            | [] =>
                match acts with
                | _ :: _ =>
                    match filter (fun t => negb (is_log_type t)) (map a_type acts) with
                    | (_ :: _) as technical_actions => step_label step_number technical_actions
                    | [] => step_label step_number (map a_type acts)
                    end
                | [] =>
                    (* step_info.get("action", "Unknown action"): the key
                       is always there *)
                    si_action step_info
                end
            end
        end
    end in
  let ad := es_action_details enhanced_step in
  (mkStepInfo (si_step_number step_info) action_summary (si_result step_info)
              (si_screenshot step_info) (si_screenshot_url step_info)
              (si_action_type step_info) (si_success step_info)
              (si_actions step_info) (si_results step_info)
              (Some step_thoughts),
   mkEnhancedStep (es_step_number enhanced_step) action_summary
                  (mkActionDetails (ad_actions ad) (ad_raw_action ad)
                                   (ad_contains_errors ad) (Some step_thoughts))
                  (es_result_summary enhanced_step)
                  (es_result_details enhanced_step)
                  (es_action_type enhanced_step)
                  (es_success_status enhanced_step)
                  (es_screenshot_url enhanced_step)
                  (es_errors enhanced_step)
                  (Some step_thoughts)).

(** ** Trace normalisation ([save_execution_results]) *)

Definition error_words : list string := ["error"; "failed"; "exception"; "timeout"].

Definition parse_action_details (action_data : string) : ActionDetails :=
  if absent action_data then mkActionDetails None None None None
  else mkActionDetails None (Some action_data)
                       (Some (Py.any_in error_words (Py.lower action_data))) None.

Definition parse_result_details (result_data : string) : ResultDetails :=
  if absent result_data then mkResultDetails None None None
  else mkResultDetails None (Some result_data)
                       (Some (Py.any_in error_words (Py.lower result_data))).

(** The [if]/[elif] chain over the recognised attributes of one action. *)
Definition extract_action (action : RawAction) : Exc Action :=
  match go_to_url action with
  | Some p =>
      u <- getattr (class_name p) "url" (url p) ;;
      Ok (mkAction "navigate" (mkDetails (Some u) None None None None None None))
  | None =>
  match input_text action with
  | Some p =>
      t <- getattr (class_name p) "text" (text p) ;;
      i <- getattr (class_name p) "index" (index p) ;;
      Ok (mkAction "input" (mkDetails None (Some t) (Some i) None None None None))
  | None =>
  match click_element_by_index action with
  | Some p =>
      i <- getattr (class_name p) "index" (index p) ;;
      Ok (mkAction "click" (mkDetails None None (Some i) None None None None))
  | None =>
  match log_action action with
  | Some p =>
      m <- getattr (class_name p) "message" (message p) ;;
      Ok (mkAction "log_action" (mkDetails None None None (Some m) None None None))
  | None =>
  match log_observation action with
  | Some p =>
      m <- getattr (class_name p) "message" (message p) ;;
      Ok (mkAction "log_observation" (mkDetails None None None (Some m) None None None))
  | None =>
  match log_decision action with
  | Some p =>
      m <- getattr (class_name p) "message" (message p) ;;
      Ok (mkAction "log_decision" (mkDetails None None None (Some m) None None None))
  | None =>
  match done action with
  | Some p =>
      t <- getattr (class_name p) "text" (text p) ;;
      s <- getattr (class_name p) "success" (success p) ;;
      Ok (mkAction "done" (mkDetails None (Some t) None None (Some s) None None))
  | None =>
  match extract_content action with
  | Some p =>
      g <- getattr (class_name p) "goal" (goal p) ;;
      Ok (mkAction "extract_content" (mkDetails None None None None None (Some g) None))
  | None =>
  match take_screenshot_now action with
  | Some p =>
      d <- getattr (class_name p) "description" (description p) ;;
      Ok (mkAction "screenshot" (mkDetails None None None None None None (Some d)))
  | None => Ok (mkAction "unknown" no_details)
  end end end end end end end end end.

(** The items of [result] that have an [extracted_content] attribute,
    its value kept as it is; [getattr(action_result, 'is_done', False)]
    gives [False] only when the attribute is missing. *)
Definition extract_results (result : list RawResult) : list ActionResult :=
  flat_map (fun r =>
              match extracted_content r with
              | Some c =>
                  [mkActionResult c
                                  (match is_done r with Some v => v | None => Some false end)
                                  (result_success r) (result_error r)]
              | None => []
              end)
           result.

(** [all(r.get('success', True) for r in results_data) if results_data
    else True]: the key is always there, and [None] is falsy. *)
Definition all_success (results_data : list ActionResult) : bool :=
  forallb (fun r => match r_success r with Some b => b | None => false end)
          results_data.

Definition first_type (actions : list Action) : string :=
  match actions with
  | a :: _ => a_type a
  | [] => "unknown"
  end.

Definition screenshot_filename (env : Env) (task_id : string) (step_number : nat) : string :=
  task_id ++ "_step_" ++ Py.str_nat step_number ++ "_" ++ timestamp env ++ ".png".

Definition screenshot_path (filename : string) : string :=
  "operation_logs/screenshots/" ++ filename.

Definition screenshot_url (filename : string) : string :=
  "/screenshots/" ++ filename.

(** The state one step works on: its two dictionaries and [results]. *)
Definition Work : Type := StepInfo * EnhancedStep * Results.

(** The five statements that follow a screenshot write that did not
    raise. *)
Definition attach_screenshot (filename : string) (w : Work) : Work :=
  let '(si, es, rs) := w in
  (mkStepInfo (si_step_number si) (si_action si) (si_result si)
              (Some (screenshot_path filename)) (Some (screenshot_url filename))
              (si_action_type si) (si_success si) (si_actions si) (si_results si)
              (si_thoughts si),
   mkEnhancedStep (es_step_number es) (es_action_summary es) (es_action_details es)
                  (es_result_summary es) (es_result_details es) (es_action_type es)
                  (es_success_status es) (Some (screenshot_url filename))
                  (es_errors es) (es_thoughts es),
   mkResults (res_task_id rs) (execution_steps rs)
             (screenshots rs ++ [screenshot_path filename])%list
             (screenshot_urls rs ++ [screenshot_url filename])%list
             (res_success rs) (res_error rs) (enhanced_steps rs)
             (res_agent_thoughts rs) (log_file rs)
             (full_conversation rs)).

(** [enhanced_step["errors"].append(msg)] *)
Definition add_error (msg : string) (w : Work) : Work :=
  let '(si, es, rs) := w in
  (si,
   mkEnhancedStep (es_step_number es) (es_action_summary es) (es_action_details es)
                  (es_result_summary es) (es_result_details es) (es_action_type es)
                  (es_success_status es) (es_screenshot_url es)
                  (es_errors es ++ [msg])%list (es_thoughts es),
   rs).

(** First shape: [base64.b64decode(screenshot_data)] and the write. *)
Definition save_state_screenshot (env : Env) (path : string) (shot : Shot) : option string :=
  match shot with
  | ShotBytes d => save_b64 env path d
  | ShotStr d => save_b64 env path d
  | ShotImage cls | ShotOther cls =>
      Some ("argument should be a bytes-like object or ASCII string, not '" ++ cls ++ "'")
  end.

(** Second shape: bytes are written, an image saves itself, anything
    else is left alone. *)
Definition save_item_screenshot (env : Env) (path : string) (shot : Shot) : option string :=
  match shot with
  | ShotBytes d => write_bytes env path d
  | ShotImage _ => image_save env path
  | ShotStr _ | ShotOther _ => None
  end.

(** [s.split(',', 1)[1]], when there is a comma. *)
Fixpoint after_comma (s : string) : option string :=
  match s with
  | EmptyString => None
  | String c r => if Ascii.eqb c ","%char then Some r else after_comma r
  end.

(** Third shape: as the second, and a string is decoded when it is a
    data URI, copied when it is an existing absolute path. *)
Definition save_attr_screenshot (env : Env) (path : string) (shot : Shot) : option string :=
  match shot with
  | ShotBytes d => write_bytes env path d
  | ShotImage _ => image_save env path
  | ShotStr s =>
      if Py.startswith s "http" || Py.startswith s "/" || Py.startswith s "data:"
      then
        if Py.startswith s "data:image"
        then match after_comma s with
             | Some data => save_b64 env path data
             | None => Some "not enough values to unpack (expected 2, got 1)"
             end
        else if Py.startswith s "/" && path_exists env s
             then copy2 env s path
             else None
      else None
  | ShotOther _ => None
  end.

(** [for j, item in enumerate(step)]: the first item whose screenshot is
    saved ends the loop; a failed save is noted and the loop goes on. *)
Fixpoint tuple_screenshots (env : Env) (filename : string)
    (items : list TupleItem) (w : Work) : Work :=
  match items with
  | [] => w
  | item :: rest =>
      match item_screenshot item with
      | Some shot =>
          if shot_truthy shot
          then match save_item_screenshot env (screenshot_path filename) shot with
               | None => attach_screenshot filename w
               | Some e =>
                   tuple_screenshots env filename rest
                     (add_error ("Screenshot save error: " ++ e) w)
               end
          else tuple_screenshots env filename rest w
      | None => tuple_screenshots env filename rest w
      end
  end.

(** [for attr in screenshot_attrs] *)
Fixpoint attr_screenshots (env : Env) (filename : string)
    (attrs : list (option Shot)) (w : Work) : Work :=
  match attrs with
  | [] => w
  | attr :: rest =>
      match attr with
      | Some shot =>
          if shot_truthy shot
          then match save_attr_screenshot env (screenshot_path filename) shot with
               | None => attach_screenshot filename w
               | Some e =>
                   attr_screenshots env filename rest
                     (add_error ("Screenshot processing error: " ++ e) w)
               end
          else attr_screenshots env filename rest w
      | None => attr_screenshots env filename rest w
      end
  end.

(** [for attr in attrs: if hasattr(step, attr) and getattr(step, attr)] *)
Fixpoint first_present (attrs : list (option string)) : option string :=
  match attrs with
  | [] => None
  | Some v :: _ => Some v
  | None :: rest => first_present rest
  end.

Definition action_attrs (o : Loose) : list (option string) :=
  [match lo_primary o with OnlyModelOutput v => v | _ => None end;
   lo_action o; lo_input o; lo_query o; lo_tool_calls o].

Definition result_attrs (o : Loose) : list (option string) :=
  [match lo_primary o with OnlyResult v => v | _ => None end;
   lo_output o; lo_response o; lo_content o].

Definition screenshot_attrs (o : Loose) : list (option Shot) :=
  [lo_screenshot o; lo_image o; lo_screen_capture o; lo_page_screenshot o].

Definition init_step_info (step_number : nat) : StepInfo :=
  mkStepInfo step_number "N/A" "N/A" None None "unknown" false None None None.

Definition init_enhanced_step (step_number : nat) : EnhancedStep :=
  mkEnhancedStep step_number "Unknown action" (mkActionDetails None None None None)
                 "No result available" (mkResultDetails None None None)
                 "unknown" "unknown" None [] None.

(** First shape: an object with [model_output] and [result]. *)
Definition process_agent_history (env : Env) (agent_thoughts : list Thought)
    (step_number : nat) (raw_actions : list RawAction) (result : list RawResult)
    (state_screenshot : option Shot) (rs : Results) : Exc Work :=
  actions <- mapM extract_action raw_actions ;;
  let results_data := extract_results result in
  let si_success' := all_success results_data in
  let label := step_label step_number (map a_type actions) in
  let step_info :=
    mkStepInfo step_number label
               ("Results: " ++ Py.str_nat (length results_data) ++ " actions completed")
               None None (first_type actions) si_success'
               (Some actions) (Some results_data) None in
  let enhanced_step :=
    mkEnhancedStep step_number label
                   (mkActionDetails (Some actions) None None None)
                   ("Completed " ++ Py.str_nat (length results_data) ++ " actions")
                   (mkResultDetails (Some results_data) None None)
                   (first_type actions)
                   (if si_success' then "success" else "failed")
                   None [] None in
  let filename := screenshot_filename env (res_task_id rs) step_number in
  let '(step_info, enhanced_step, rs) :=
    match state_screenshot with
    | Some shot =>
        if shot_truthy shot
        then match save_state_screenshot env (screenshot_path filename) shot with
             | None => attach_screenshot filename (step_info, enhanced_step, rs)
             | Some e =>
                 add_error ("Screenshot save error: " ++ e) (step_info, enhanced_step, rs)
             end
        else (step_info, enhanced_step, rs)
    | None => (step_info, enhanced_step, rs)
    end in
  let '(step_info, enhanced_step) :=
    enhance_step_with_thoughts step_info enhanced_step step_number agent_thoughts
                               (Some actions) in
  Ok (step_info, enhanced_step, rs).

Definition item_text (item : TupleItem) : string :=
  if item_truthy item then item_str item else "N/A".

(** Second shape: a tuple. *)
Definition process_tuple (env : Env) (agent_thoughts : list Thought)
    (step_number : nat) (items : list TupleItem) (rs : Results) : Work :=
  let step_info := init_step_info step_number in
  let enhanced_step := init_enhanced_step step_number in
  let '(step_info, enhanced_step) :=
    match items with
    | item0 :: item1 :: _ =>
        let action_data := item_text item0 in
        let result_data := item_text item1 in
        enhance_step_with_thoughts
          (mkStepInfo step_number action_data result_data None None "unknown" false
                      None None None)
          (mkEnhancedStep step_number
                          (extract_action_summary action_data)
                          (parse_action_details action_data)
                          (extract_result_summary result_data)
                          (parse_result_details result_data)
                          (classify_action_type action_data)
                          (determine_success_status result_data)
                          None [] None)
          step_number agent_thoughts None
    | _ => (step_info, enhanced_step)
    end in
  tuple_screenshots env (screenshot_filename env (res_task_id rs) step_number) items
                    (step_info, enhanced_step, rs).

(** Third shape: any other object, probed by attribute name. *)
Definition process_loose (env : Env) (step_number : nat) (o : Loose) (rs : Results) : Work :=
  let step_info := init_step_info step_number in
  let enhanced_step := init_enhanced_step step_number in
  let '(step_info, enhanced_step) :=
    match first_present (action_attrs o) with
    | Some action_data =>
        (mkStepInfo step_number action_data (si_result step_info) None None
                    "unknown" false None None None,
         mkEnhancedStep step_number
                        (extract_action_summary action_data)
                        (parse_action_details action_data)
                        (es_result_summary enhanced_step)
                        (es_result_details enhanced_step)
                        (classify_action_type action_data)
                        (es_success_status enhanced_step)
                        None [] None)
    | None => (step_info, enhanced_step)
    end in
  let '(step_info, enhanced_step) :=
    match first_present (result_attrs o) with
    | Some result_data =>
        (mkStepInfo step_number (si_action step_info) result_data None None
                    "unknown" false None None None,
         mkEnhancedStep step_number
                        (es_action_summary enhanced_step)
                        (es_action_details enhanced_step)
                        (extract_result_summary result_data)
                        (parse_result_details result_data)
                        (es_action_type enhanced_step)
                        (determine_success_status result_data)
                        None [] None)
    | None => (step_info, enhanced_step)
    end in
  attr_screenshots env (screenshot_filename env (res_task_id rs) step_number)
                   (screenshot_attrs o) (step_info, enhanced_step, rs).

(** The body of [for i, step in enumerate(history_list)], with
    [step_number = i + 1]. *)
Definition process_step (env : Env) (agent_thoughts : list Thought)
    (step_number : nat) (step : RawStep) (rs : Results) : Exc Results :=
  w <- match step with
       | AgentHistory raw_actions result state_screenshot =>
           process_agent_history env agent_thoughts step_number raw_actions result
                                 state_screenshot rs
       | TupleStep items => Ok (process_tuple env agent_thoughts step_number items rs)
       | LooseStep o => Ok (process_loose env step_number o rs)
       end ;;
  let '(step_info, enhanced_step, rs) := w in
  let '(step_info, enhanced_step) :=
    enhance_step_with_thoughts step_info enhanced_step step_number agent_thoughts None in
  Ok (mkResults (res_task_id rs)
                (execution_steps rs ++ [step_info])%list
                (screenshots rs) (screenshot_urls rs)
                (res_success rs) (res_error rs)
                (enhanced_steps rs ++ [enhanced_step])%list
                (res_agent_thoughts rs) (log_file rs)
                (if String.eqb (si_action step_info) "N/A"
                 then full_conversation rs
                 else (full_conversation rs
                       ++ [(step_number, si_action step_info)])%list)).

(** The loop from step [step_number] on: the state reached and the
    exception that stopped it, if any. *)
Fixpoint process_steps (env : Env) (agent_thoughts : list Thought)
    (step_number : nat) (steps : list RawStep) (rs : Results)
  : Results * option string :=
  match steps with
  | [] => (rs, None)
  | step :: rest =>
      match process_step env agent_thoughts step_number step rs with
      | Ok rs' => process_steps env agent_thoughts (S step_number) rest rs'
      | Raise msg => (rs, Some msg)
      end
  end.

Definition new_results (task_id : string) (agent_thoughts : list Thought) : Results :=
  mkResults task_id [] [] [] false None [] agent_thoughts None [].

Definition log_file_name (env : Env) (task_id : string) : string :=
  "operation_logs/browser_execution_" ++ task_id ++ "_" ++ timestamp env ++ ".json".

(** [save_execution_results], [history_list] and the loaded thoughts
    given. *)
Definition save_execution_results (env : Env) (agent_thoughts : list Thought)
    (history_list : list RawStep) (task_id : string) : Results :=
  let results := new_results task_id agent_thoughts in
  let '(rs, raised) := process_steps env agent_thoughts 1 history_list results in
  let succeeded :=
    match history_list, raised with
    | _ :: _, None => true
    | _, _ => false
    end in
  match dump_log env with
  | None =>
      mkResults task_id (execution_steps rs) (screenshots rs) (screenshot_urls rs)
                succeeded raised (enhanced_steps rs) agent_thoughts
                (Some (log_file_name env task_id)) (full_conversation rs)
  | Some e =>
      mkResults task_id (execution_steps rs) (screenshots rs) (screenshot_urls rs)
                succeeded (Some ("Error saving results: " ++ e))
                (enhanced_steps rs) agent_thoughts None (full_conversation rs)
  end.

(** The part of [execute_task] after the run: the two manual
    screenshots, each a [(path, url)] pair or [(None, None)], are added
    to what [save_execution_results] returned. *)
Definition add_manual (shot : option (string * string)) (rs : Results) : Results :=
  match shot with
  | Some (path, url) =>
      if Py.truthy path
      then mkResults (res_task_id rs) (execution_steps rs)
                     (screenshots rs ++ [path])%list
                     (screenshot_urls rs ++ [url])%list
                     (res_success rs) (res_error rs) (enhanced_steps rs)
                     (res_agent_thoughts rs) (log_file rs) (full_conversation rs)
      else rs
  | None => rs
  end.

Definition execute_task_results (env : Env) (agent_thoughts : list Thought)
    (history_list : list RawStep) (task_id : string)
    (initial_screenshot final_screenshot : option (string * string)) : Results :=
  add_manual final_screenshot
    (add_manual initial_screenshot
       (save_execution_results env agent_thoughts history_list task_id)).

(** ** Compliance analysis ([analyze_results_direct]) *)

(** A step as the analyser reads it: the keys it looks up, [None] for
    a missing key. *)
Record StepView := mkStepView {
  sv_actions : option (list Action);
  sv_results : option (list ActionResult);
  sv_action : option string;
  sv_result : option string
}.

(** [execution_results]: [task_id] and [success] may be missing, the
    other keys are read with an empty default. *)
Record ExecutionResults := mkExecutionResults {
  er_task_id : option string;
  er_success_key : option bool;
  er_execution_steps : list StepView;
  er_enhanced_steps : list StepView;
  er_screenshots : list string;
  er_error : option string;
  er_full_conversation : nat
}.

(** [execution_results.get("success", False)] *)
Definition er_success (er : ExecutionResults) : bool :=
  match er_success_key er with
  | Some b => b
  | None => false
  end.

(** [original_instructions] *)
Record Instructions := mkInstructions {
  target_url : string;
  task_description : string;
  screenshot_instructions : list (string * string)
}.

Record ExecutionSummary := mkExecutionSummary {
  sum_success : bool;
  steps_completed : nat;
  sum_screenshots_captured : nat;
  sum_error : option string
}.

Record ScreenshotCompliance := mkScreenshotCompliance {
  required : nat;
  captured : nat;
  meets_requirements : bool
}.

Record ComplianceCheck := mkComplianceCheck {
  target_url_accessed : bool;
  screenshots_captured : ScreenshotCompliance
}.

(** [review_report] *)
Record ReviewReport := mkReviewReport {
  rr_task_id : string;
  rr_timestamp : string;
  original_instructions : Instructions;
  execution_summary : ExecutionSummary;
  conversation_length : nat;
  screenshot_analysis : string;
  recommendations : list string;
  compliance_check : ComplianceCheck;
  review_file : option string;
  rr_error : option string
}.

(** What one call of the analyser meets outside its arguments: the two
    clock readings, and whether creating the log directory and writing
    the report raise. *)
Record AnalysisEnv := mkAnalysisEnv {
  clock_stamp : string;
  clock_iso : string;
  mkdir_logs : option string;
  dump_report : option string
}.

(** How the analyser reads the normaliser's output. *)
Definition view_step_info (si : StepInfo) : StepView :=
  mkStepView (si_actions si) (si_results si) (Some (si_action si)) (Some (si_result si)).

Definition view_enhanced_step (es : EnhancedStep) : StepView :=
  mkStepView None None None None.

Definition view_results (rs : Results) : ExecutionResults :=
  mkExecutionResults (Some (res_task_id rs)) (Some (res_success rs))
                     (map view_step_info (execution_steps rs))
                     (map view_enhanced_step (enhanced_steps rs))
                     (screenshots rs) (res_error rs)
                     (length (full_conversation rs)).

Definition get_text (v : option string) : string :=
  match v with
  | Some s => s
  | None => ""
  end.

(** [action.get("type") == "navigate" and
    action.get("details", {}).get("url", "").startswith(target_url.rstrip("/"))] *)
Definition navigates_to (target_url : string) (action : Action) : bool :=
  String.eqb (a_type action) "navigate"
  && Py.startswith (get_text (d_url (a_details action))) (Py.rstrip_slash target_url).

Definition has_navigation (target_url : string) (step : StepView) : bool :=
  match sv_actions step with
  | Some actions => existsb (navigates_to target_url) actions
  | None => false
  end.

(** Methods 1 and 2 *)
Definition method_actions (target_url : string) (steps : list StepView) : bool :=
  existsb (has_navigation target_url) steps.

(** [for x in xs: if test(x): found = True; break], where the test may
    raise. *)
Fixpoint any_exc {A : Type} (test : A -> Exc bool) (xs : list A) : Exc bool :=
  match xs with
  | [] => Ok false
  | x :: rest =>
      found <- test x ;;
      if found then Ok true else any_exc test rest
  end.

(** Method 3. [content.lower()] raises on a content that is [None]. *)
Definition result_mentions (target_url : string) (r : ActionResult) : Exc bool :=
  match r_content r with
  | Some content =>
      Ok (Py.contains "navigated to" (Py.lower content)
          && Py.contains (Py.lower target_url) (Py.lower content))
  | None => Raise "'NoneType' object has no attribute 'lower'"
  end.

Definition method_results (target_url : string) (steps : list StepView) : Exc bool :=
  any_exc (fun step =>
             match sv_results step with
             | Some results_data => any_exc (result_mentions target_url) results_data
             | None => Ok false
             end)
          steps.

(** Method 4 *)
Definition method_text (target_url : string) (steps : list StepView) : bool :=
  existsb (fun step =>
             let action_text := Py.lower (get_text (sv_action step)) in
             let result_text := Py.lower (get_text (sv_result step)) in
             Py.contains "navigate" action_text
             || Py.contains "goto" action_text
             || Py.contains (Py.lower target_url) action_text
             || Py.contains "navigated to" result_text
             || Py.contains (Py.lower target_url) result_text)
          steps.

Definition step_text (step : StepView) : string :=
  Py.lower (get_text (sv_action step) ++ " " ++ get_text (sv_result step)).

Section Analysis.

(** [urlparse(url).netloc], which may raise [ValueError]. *)
Variable urlparse_netloc : string -> Exc string.

(** Method 5 *)
Definition method_domain (target_url : string) (steps : list StepView) : bool :=
  Py.truthy target_url
  && match urlparse_netloc target_url with
     | Ok netloc => existsb (fun step => Py.contains (Py.lower netloc) (step_text step)) steps
     | Raise _ => false
     end.

(** The five methods in turn, each run only when those before it found
    nothing. *)
Definition url_accessed (er : ExecutionResults) (oi : Instructions) : Exc bool :=
  if method_actions (target_url oi) (er_enhanced_steps er)
     || method_actions (target_url oi) (er_execution_steps er)
  then Ok true
  else
    found <- method_results (target_url oi) (er_execution_steps er) ;;
    Ok (found
        || method_text (target_url oi) (er_execution_steps er)
        || method_domain (target_url oi) (er_execution_steps er)).

Definition check_screenshots (er : ExecutionResults) (oi : Instructions)
  : ScreenshotCompliance :=
  let required_screenshots := screenshot_instructions oi in
  let captured_screenshots := er_screenshots er in
  mkScreenshotCompliance
    (length required_screenshots)
    (length captured_screenshots)
    (match required_screenshots with
     | _ :: _ => length required_screenshots <=? length captured_screenshots
     | [] => true
     end).

Definition rec_failed : string := "Task execution failed - check error logs".
Definition rec_not_accessed (target_url : string) : string :=
  "Target URL " ++ target_url ++ " may not have been properly accessed".
Definition rec_missing_screenshots : string :=
  "Not all required screenshots were captured".
Definition rec_completed : string := "Task appears to have completed successfully".
Definition rec_accessed (target_url : string) : string :=
  "Target URL " ++ target_url ++ " was successfully accessed".
Definition rec_captured (n : nat) : string :=
  "Successfully captured " ++ Py.str_nat n ++ " screenshots".
Definition rec_steps (n : nat) : string :=
  "Completed " ++ Py.str_nat n ++ " execution steps".

Definition when (b : bool) (xs : list string) : list string :=
  if b then xs else [].

(** The appends to [review_report["recommendations"]], in order. *)
Definition build_recommendations (success accessed : bool) (target_url : string)
    (required captured steps_count : nat) : list string :=
  (when (negb success) [rec_failed]
   ++ when (negb accessed) [rec_not_accessed target_url]
   ++ when ((0 <? required) && (captured <? required)) [rec_missing_screenshots]
   ++ when success
        (when accessed [rec_completed; rec_accessed target_url]
         ++ when (0 <? captured) [rec_captured captured]
         ++ when (0 <? steps_count) [rec_steps steps_count]))%list.

Definition review_file_name (env : AnalysisEnv) (task_id : string) : string :=
  "operation_logs/review_report_" ++ task_id ++ "_" ++ clock_stamp env ++ ".json".

Definition analyze_results_direct (env : AnalysisEnv) (er : ExecutionResults)
    (oi : Instructions) : Exc ReviewReport :=
  let task_id := match er_task_id er with Some t => t | None => "unknown" end in
  match mkdir_logs env with
  | Some e => Raise e
  | None =>
      accessed <- url_accessed er oi ;;
      let shots := check_screenshots er oi in
      Ok (mkReviewReport
            task_id
            (clock_iso env)
            oi
            (mkExecutionSummary (er_success er)
                                (length (er_execution_steps er))
                                (length (er_screenshots er))
                                (er_error er))
            (er_full_conversation er)
            (match er_screenshots er with
             | _ :: _ => "Screenshots captured at key moments"
             | [] => "No screenshots captured"
             end)
            (build_recommendations (er_success er) accessed (target_url oi)
                                   (required shots) (captured shots)
                                   (length (er_execution_steps er)))
            (mkComplianceCheck accessed shots)
            (match dump_report env with
             | None => Some (review_file_name env task_id)
             | Some _ => None
             end)
            (match dump_report env with
             | None => None
             | Some e => Some ("Error saving review report: " ++ e)
             end))
  end.

(** ** Narrative fallback ([analyze_results_endpoint]) *)

Definition fallback_recommendations (recommendations : list string) : string :=
  match recommendations with
  | _ :: _ => Py.join "
" (map (fun rec => "• " ++ rec) recommendations)
  | [] => "• Review execution logs for detailed information
• Check screenshots for visual confirmation
• Verify task completion manually if needed"
  end.

(** The templated narrative of the [except Exception as portia_error]
    clause. *)
Definition fallback_narrative (task_success : bool) (steps_count screenshots_count : nat)
    (accessed : bool) (recommendations : list string) : string :=
  "**AI Analysis Report**

**Executive Summary:**
The browser automation task "
  ++ (if task_success then "completed successfully" else "encountered issues")
  ++ " with " ++ Py.str_nat steps_count ++ " execution steps and "
  ++ Py.str_nat screenshots_count ++ " screenshots captured. "
  ++ (if accessed then "The target URL was accessed properly"
      else "There may have been issues accessing the target URL")
  ++ ".

**Key Findings:**
• Task Status: " ++ (if task_success then "Success" else "Failed") ++ "
• Execution Steps: " ++ Py.str_nat steps_count ++ " completed
• Visual Documentation: " ++ Py.str_nat screenshots_count ++ " screenshots captured
• Target URL Access: " ++ (if accessed then "Successful" else "Failed or incomplete") ++ "
• Error Status: "
  ++ (if task_success then "No errors detected" else "Errors occurred during execution")
  ++ "

**Recommendations:**
" ++ fallback_recommendations recommendations ++ "

**Compliance Status:**
• Overall Assessment: " ++ (if task_success && accessed then "PASS" else "NEEDS REVIEW") ++ "
• Target URL Compliance: " ++ (if accessed then "PASS" else "FAIL") ++ "
• Task Execution: " ++ (if task_success then "PASS" else "FAIL") ++ "

---
*Note: This analysis was generated using fallback mode due to AI analysis system limitations. The task execution results above are still accurate.*".

(** The narrative of the outer handler. *)
Definition emergency_narrative (task_id : string) (er : ExecutionResults)
    (oi : Instructions) : string :=
  "**Analysis Report (Fallback Mode)**

**Executive Summary:**
Basic analysis completed for task " ++ task_id
  ++ ". The system encountered technical difficulties with the advanced AI analysis but was able to extract basic information.

**Key Findings:**
- Task Status: "
  ++ match er_success_key er with
     | Some true => "True"
     | Some false => "False"
     | None => "Unknown"
     end ++ "
- Steps Executed: " ++ Py.str_nat (length (er_execution_steps er)) ++ "
- Screenshots: " ++ Py.str_nat (length (er_screenshots er)) ++ "
- Target URL: " ++ target_url oi ++ "

**Recommendations:**
- Review the detailed execution logs for more information
- Check system configuration if analysis continues to fail
- Contact support if issues persist

**Compliance Status:**
Unable to perform full compliance check due to technical issues.".

(** [analysis_result] *)
Record AnalysisResult := mkAnalysisResult {
  ar_task_id : string;
  analysis_content : string;
  detailed_analysis : option ReviewReport;
  ar_timestamp : string;
  analysis_method : string
}.

(** The names bound in the frame of the endpoint that matter for the
    provenance tag. *)
Definition Locals : Type := list string.

Definition bind_name (name : string) (locals : Locals) : Locals := name :: locals.

(** [del name] *)
Definition del_name (name : string) (locals : Locals) : Locals :=
  filter (fun n => negb (String.eqb n name)) locals.

(** [name in locals()] *)
Definition in_locals (name : string) (locals : Locals) : bool :=
  existsb (String.eqb name) locals.

(** The inner [try] statement. [portia] is what the call of the
    language model and the extraction cascade after it come to: an
    exception, or the extracted text if any. A text must keep five
    characters after [strip()], else the block raises itself. The
    handler binds [portia_error] for its body only: the name is
    deleted again when the [except] clause ends. *)
Definition inner_try (portia : Exc (option string)) (fallback : string)
    (locals : Locals) : string * Locals :=
  let attempt :=
    a <- portia ;;
    match a with
    | Some ai_analysis =>
        if Py.truthy ai_analysis && (5 <=? Py.len (Py.strip ai_analysis))
        then Ok ai_analysis
        else Raise "Portia returned insufficient analysis content"
    | None => Raise "Portia returned insufficient analysis content"
    end in
  match attempt with
  | Ok ai_analysis => (ai_analysis, locals)
  | Raise e =>
      let locals := bind_name "portia_error" locals in
      let ai_analysis := fallback in
      (ai_analysis, del_name "portia_error" locals)
  end.

(** [analyze_results_endpoint] for a completed task, from the outer
    [try] on; [clock] is the reading of [datetime.now()] for the
    result. *)
Definition analyze_results_endpoint (env : AnalysisEnv) (clock : string)
    (task_id : string) (execution_results : ExecutionResults)
    (original_instructions : Instructions) (portia : Exc (option string))
  : AnalysisResult :=
  match analyze_results_direct env execution_results original_instructions with
  | Ok analysis_result_data =>
      let task_success := er_success execution_results in
      let steps_count := length (er_execution_steps execution_results) in
      let screenshots_count := length (er_screenshots execution_results) in
      let accessed := target_url_accessed (compliance_check analysis_result_data) in
      let recs := recommendations analysis_result_data in
      let '(ai_analysis, locals) :=
        inner_try portia
                  (fallback_narrative task_success steps_count screenshots_count
                                      accessed recs)
                  [] in
      mkAnalysisResult task_id ai_analysis (Some analysis_result_data) clock
                       (if negb (in_locals "portia_error" locals)
                        then "portia" else "fallback")
  | Raise _ =>
      mkAnalysisResult task_id
                       (emergency_narrative task_id execution_results
                                            original_instructions)
                       None clock "emergency_fallback"
  end.

End Analysis.

(** A model of [urlparse(url).netloc] for URLs of visible ASCII
    characters (no blank, no control character) without brackets: a
    scheme, when the text before the first colon is a letter followed by
    letters, digits, [+], [-] and [.], is split off; what then follows a
    leading [//], up to the next [/], [?] or [#], is the host. *)
Fixpoint until_delim (s : string) : string :=
  match s with
  | EmptyString => EmptyString
  | String c r =>
      if Ascii.eqb c "/"%char || Ascii.eqb c "?"%char || Ascii.eqb c "#"%char
      then EmptyString
      else String c (until_delim r)
  end.

Definition is_letter (c : ascii) : bool :=
  let n := nat_of_ascii c in
  ((65 <=? n) && (n <=? 90)) || ((97 <=? n) && (n <=? 122)).

Definition is_scheme_char (c : ascii) : bool :=
  let n := nat_of_ascii c in
  is_letter c || ((48 <=? n) && (n <=? 57))
  || Ascii.eqb c "+"%char || Ascii.eqb c "-"%char || Ascii.eqb c "."%char.

(** What follows the colon that ends a run of scheme characters. *)
Fixpoint after_scheme_chars (s : string) : option string :=
  match s with
  | EmptyString => None
  | String c r =>
      if Ascii.eqb c ":"%char then Some r
      else if is_scheme_char c then after_scheme_chars r
      else None
  end.

Definition after_scheme (u : string) : string :=
  match u with
  | String c r =>
      if is_letter c
      then match after_scheme_chars r with
           | Some rest => rest
           | None => u
           end
      else u
  | EmptyString => u
  end.

Definition plain_netloc (u : string) : Exc string :=
  match after_scheme u with
  | String "/" (String "/" r) => Ok (until_delim r)
  | _ => Ok ""
  end.

(** ** Reading the loop *)

(** The exception a step makes the loop body raise, if any: only the
    extraction of the actions can raise outside the screenshot
    handlers. *)
Definition step_raises (step : RawStep) : option string :=
  match step with
  | AgentHistory raw_actions _ _ =>
      match mapM extract_action raw_actions with
      | Ok _ => None
      | Raise msg => Some msg
      end
  | TupleStep _ | LooseStep _ => None
  end.

(** The steps before the first one that raises. *)
Fixpoint ok_prefix (history : list RawStep) : list RawStep :=
  match history with
  | [] => []
  | step :: rest =>
      match step_raises step with
      | None => step :: ok_prefix rest
      | Some _ => []
      end
  end.

(** The first exception of a history. *)
Fixpoint first_raise (history : list RawStep) : option string :=
  match history with
  | [] => None
  | step :: rest =>
      match step_raises step with
      | None => first_raise rest
      | Some msg => Some msg
      end
  end.

(** An object none of whose probed attributes is there: it matches no
    branch of the cascade. *)
Definition unrecognised : Loose :=
  mkLoose NoPrimary None None None None None None None None None None None.

(** The two screenshot lists have one entry each per saved file. *)
Definition lockstep (rs : Results) : Prop :=
  length (screenshots rs) = length (screenshot_urls rs).

(** [rs'] is [rs] with nothing or one file [filename] added to both
    screenshot lists, all else the same. *)
Definition shot_added (filename : string) (rs rs' : Results) : Prop :=
  res_task_id rs' = res_task_id rs
  /\ execution_steps rs' = execution_steps rs
  /\ enhanced_steps rs' = enhanced_steps rs
  /\ full_conversation rs' = full_conversation rs
  /\ ((screenshots rs' = screenshots rs /\ screenshot_urls rs' = screenshot_urls rs)
      \/ (screenshots rs' = (screenshots rs ++ [screenshot_path filename])%list
          /\ screenshot_urls rs' = (screenshot_urls rs ++ [screenshot_url filename])%list)).

(** A piece of work for step [step_number]: both dictionaries carry the
    number, and the results are those the step started from but for a
    screenshot. *)
Definition produces (step_number : nat) (filename : string) (rs : Results) (w : Work) : Prop :=
  si_step_number (fst (fst w)) = step_number
  /\ es_step_number (snd (fst w)) = step_number
  /\ shot_added filename rs (snd w).

(** One turn of the loop: one step appended to each step list, both
    numbered [step_number], and at most one screenshot. *)
Definition stepped (env : Env) (step_number : nat) (rs rs' : Results) : Prop :=
  exists si es,
    execution_steps rs' = (execution_steps rs ++ [si])%list
    /\ enhanced_steps rs' = (enhanced_steps rs ++ [es])%list
    /\ si_step_number si = step_number
    /\ es_step_number es = step_number
    /\ res_task_id rs' = res_task_id rs
    /\ (lockstep rs -> lockstep rs').

(** *** The screenshots of a step, read off the raw step

    A branch tries the screenshot values of its step in order: the one
    state screenshot of the first shape, the items of a tuple, the four
    probed attributes of another object. An attempt is what saving one
    truthy value comes to: [None] when nothing is raised, the exception
    text otherwise. *)
Definition attempts_of (save : Shot -> option string) (shots : list (option Shot))
  : list (option string) :=
  flat_map (fun candidate =>
              match candidate with
              | Some shot => if shot_truthy shot then [save shot] else []
              | None => []
              end)
           shots.

Definition step_attempts (env : Env) (path : string) (step : RawStep)
  : list (option string) :=
  match step with
  | AgentHistory _ _ state_screenshot =>
      attempts_of (save_state_screenshot env path) [state_screenshot]
  | TupleStep items =>
      attempts_of (save_item_screenshot env path) (map item_screenshot items)
  | LooseStep o =>
      attempts_of (save_attr_screenshot env path) (screenshot_attrs o)
  end.

(** The exceptions of the attempts before the first one that raises
    nothing. *)
Fixpoint failures (attempts : list (option string)) : list string :=
  match attempts with
  | Some e :: rest => e :: failures rest
  | None :: _ | [] => []
  end.

(** Some attempt raises nothing. *)
Definition saved (attempts : list (option string)) : bool :=
  existsb (fun a => match a with None => true | Some _ => false end) attempts.

Definition error_label (step : RawStep) : string :=
  match step with
  | LooseStep _ => "Screenshot processing error: "
  | AgentHistory _ _ _ | TupleStep _ => "Screenshot save error: "
  end.

(** The files of the steps one of whose screenshots is saved, the steps
    numbered from [k] on. *)
Fixpoint saved_files (env : Env) (task_id : string) (k : nat) (steps : list RawStep)
  : list string :=
  match steps with
  | [] => []
  | step :: rest =>
      let filename := screenshot_filename env task_id k in
      ((if saved (step_attempts env (screenshot_path filename) step)
        then [filename] else [])
       ++ saved_files env task_id (S k) rest)%list
  end.

(** What a manual screenshot adds to the two lists. *)
Definition manual_path (shot : option (string * string)) : list string :=
  match shot with
  | Some (path, _) => if Py.truthy path then [path] else []
  | None => []
  end.

Definition manual_url (shot : option (string * string)) : list string :=
  match shot with
  | Some (path, url) => if Py.truthy path then [url] else []
  | None => []
  end.

(** What [execute_task] returns when the run raises. *)
Definition error_result (task_id e : string) : Results :=
  mkResults task_id [] [] [] false (Some e) [] [] None [].

(** ** Sample inputs *)

Module Sample.

Definition env : AnalysisEnv :=
  mkAnalysisEnv "20250823_024037" "2025-08-23T02:40:37" None None.


Definition text_step (action result : string) : StepView :=
  mkStepView None None (Some action) (Some result).

Definition instructions (target : string) (n : nat) : Instructions :=
  mkInstructions target "open the page"
                 (repeat ("homepage", "home.png") n).

(** One step that clicks, nothing captured. *)
Definition one_click : ExecutionResults :=
  mkExecutionResults (Some "task_1") (Some true)
                     [text_step "Clicking element" "ok"] [] [] None 1.

(** A successful run without steps. *)
Definition no_steps : ExecutionResults :=
  mkExecutionResults (Some "task_2") (Some true) [] [] [] None 0.

Definition shots (n : nat) : list string := repeat "shot.png" n.

(** A successful run that navigated to the target and captured [n]
    screenshots. *)
Definition visited (n : nat) : ExecutionResults :=
  mkExecutionResults (Some "task_3") (Some true)
                     [text_step "Navigating to https://x.com/" "Page loaded"]
                     [] (shots n) None 1.

(** A file system on which every write succeeds. *)
Definition fs : Env :=
  mkEnv "20250823_024037" (fun _ _ => None) (fun _ _ => None) (fun _ => None)
        (fun _ => false) (fun _ _ => None) None.




Definition no_action : RawAction :=
  mkRawAction None None None None None None None None None.

Definition navigate (u : string) : RawAction :=
  mkRawAction (Some (mkParams "GoToUrlAction" (Some u) None None None None None None))
              None None None None None None None None.

(** A [done] action of a library version whose parameters have no
    [success] field. *)
Definition done_without_success : RawAction :=
  mkRawAction None None None None None None
              (Some (mkParams "DoneAction" None (Some "finished") None None None None None))
              None None.

Definition navigated (u : string) : RawResult :=
  mkRawResult (Some (Some ("Navigated to " ++ u))) None (Some true) None.

Definition thoughts (n : nat) : list Thought :=
  repeat (mkThought "2025-08-23 02:40:37" "action" "I am typing the query") n.

Definition blank_steps (n : nat) : list RawStep := repeat (LooseStep unrecognised) n.

End Sample.

(** ** The thought log ([AgentLogger], [load_agent_thoughts]) *)

(** What is left of [s] after its first [n] bytes. *)
Fixpoint drop_chars (n : nat) (s : string) : string :=
  match n, s with
  | S k, String _ r => drop_chars k r
  | _, _ => s
  end.

(** [s.split(sep, 1)] for a separator that is not empty: the text before
    and after its first occurrence, [None] when there is none (the list
    then has one element). *)
Fixpoint split_once (sep s : string) : option (string * string) :=
  if String.prefix sep s
  then Some ("", drop_chars (String.length sep) s)
  else match s with
       | EmptyString => None
       | String c r =>
           match split_once sep r with
           | Some (before, after) => Some (String c before, after)
           | None => None
           end
       end.

Definition thought_markers : list string :=
  ["] ACTION:"; "] OBSERVATION:"; "] DECISION:"].

(** The body of [for line in f] in [load_agent_thoughts]: the thought a
    line of the log gives, if any. *)
Definition parse_thought_line (line : string) : option Thought :=
  let line := Py.strip line in
  if Py.truthy line && Py.any_in thought_markers line
  then match split_once "] " line with
       | Some (head, content_part) =>
           let timestamp_part := Py.drop 1 head in
           match split_once ": " content_part with
           | Some (action_type, message) =>
               Some (mkThought timestamp_part (Py.lower action_type) message)
           | None => None
           end
       | None => None
       end
  else None.

(** [load_agent_thoughts], given the lines of the log file, [None] when
    the file does not exist. *)
Definition load_agent_thoughts (file : option (list string)) : list Thought :=
  match file with
  | Some lines =>
      flat_map (fun line => match parse_thought_line line with
                            | Some t => [t]
                            | None => []
                            end)
               lines
  | None => []
  end.

(** The counters of an [AgentLogger] and what it has appended to its
    log file, after the header. *)
Record AgentLogger := mkAgentLogger {
  screenshot_count : nat;
  action_count : nat;
  observation_count : nat;
  decision_count : nat;
  error_count : nat;
  success_count : nat;
  written : list string
}.

Definition new_logger : AgentLogger := mkAgentLogger 0 0 0 0 0 0 [].

(** The icon [log_thought] picks for a message. *)
Definition icon_of (message : string) : string :=
  if Py.contains "ACTION:" message then "⚡"
  else if Py.contains "OBSERVATION:" message then "👁️"
  else if Py.contains "DECISION:" message then "🧭"
  else if Py.contains "ERROR:" message || Py.contains "❌" message then "❌"
  else if Py.contains "SUCCESS:" message || Py.contains "✅" message then "✅"
  else "💭".

(** [log_entry], the line written for a message. *)
Definition log_entry (timestamp message : string) : string :=
  "[" ++ timestamp ++ "] " ++ icon_of message ++ " " ++ message ++ "
".

(** [log_thought], the clock reading given. *)
Definition log_thought (timestamp message : string) (lg : AgentLogger) : AgentLogger :=
  let entry := log_entry timestamp message in
  let out := (written lg ++ [entry])%list in
  if Py.contains "ACTION:" message
  then mkAgentLogger (screenshot_count lg) (S (action_count lg)) (observation_count lg)
                     (decision_count lg) (error_count lg) (success_count lg) out
  else if Py.contains "OBSERVATION:" message
  then mkAgentLogger (screenshot_count lg) (action_count lg) (S (observation_count lg))
                     (decision_count lg) (error_count lg) (success_count lg) out
  else if Py.contains "DECISION:" message
  then mkAgentLogger (screenshot_count lg) (action_count lg) (observation_count lg)
                     (S (decision_count lg)) (error_count lg) (success_count lg) out
  else if Py.contains "ERROR:" message || Py.contains "❌" message
  then mkAgentLogger (screenshot_count lg) (action_count lg) (observation_count lg)
                     (decision_count lg) (S (error_count lg)) (success_count lg) out
  else if Py.contains "SUCCESS:" message || Py.contains "✅" message
  then mkAgentLogger (screenshot_count lg) (action_count lg) (observation_count lg)
                     (decision_count lg) (error_count lg) (S (success_count lg)) out
  else mkAgentLogger (screenshot_count lg) (action_count lg) (observation_count lg)
                     (decision_count lg) (error_count lg) (success_count lg) out.

Definition log_navigation (timestamp url : string) (success : bool) (lg : AgentLogger)
  : AgentLogger :=
  let status := if success then "✅ Successfully navigated to"
                else "❌ Failed to navigate to" in
  log_thought timestamp ("NAVIGATION: " ++ status ++ " " ++ url) lg.

Definition log_interaction (timestamp element action : string) (success : bool)
    (lg : AgentLogger) : AgentLogger :=
  let status := if success then "✅" else "❌" in
  log_thought timestamp
              ("INTERACTION: " ++ status ++ " " ++ action ++ " on '" ++ element ++ "'") lg.

(** [content[:100] + "..." if len(content) > 100 else content] *)
Definition content_preview (content : string) : string :=
  if 100 <? Py.len content then Py.take 100 content ++ "..." else content.

Definition log_extraction (timestamp data_type content : string) (success : bool)
    (lg : AgentLogger) : AgentLogger :=
  let status := if success then "✅" else "❌" in
  log_thought timestamp
              ("EXTRACTION: " ++ status ++ " Extracted " ++ data_type ++ ": "
               ++ content_preview content) lg.

Definition log_error (timestamp error_type error_message : string) (lg : AgentLogger)
  : AgentLogger :=
  log_thought timestamp ("ERROR: " ++ error_type ++ " - " ++ error_message) lg.

(** The three logging actions of the controller in
    [create_browser_agent]. *)
Definition controller_log_action (timestamp message : string) (lg : AgentLogger)
  : AgentLogger :=
  log_thought timestamp ("ACTION: " ++ message) lg.

Definition controller_log_observation (timestamp message : string) (lg : AgentLogger)
  : AgentLogger :=
  log_thought timestamp ("OBSERVATION: " ++ message) lg.

Definition controller_log_decision (timestamp message : string) (lg : AgentLogger)
  : AgentLogger :=
  log_thought timestamp ("DECISION: " ++ message) lg.

(** ** Reading the results *)

(** The two records of one step say the same: number, summary,
    screenshot and thoughts. *)
Definition agree (si : StepInfo) (es : EnhancedStep) : Prop :=
  si_step_number si = es_step_number es
  /\ si_action si = es_action_summary es
  /\ si_screenshot_url si = es_screenshot_url es
  /\ si_thoughts si = es_thoughts es.

(** The conversation entries a list of steps gives: one for each step
    whose action is not the ["N/A"] mark. *)
Definition conversation_of (sis : list StepInfo) : list (nat * string) :=
  flat_map (fun si => if String.eqb (si_action si) "N/A"
                      then []
                      else [(si_step_number si, si_action si)])
           sis.

(** The file of the screenshot of step [k]. *)
Definition step_file (env : Env) (task_id : string) (k : nat) : string :=
  screenshot_filename env task_id k.

(** The two records of a piece of work name the same screenshot. *)
Definition tidy (w : Work) : Prop :=
  si_screenshot_url (fst (fst w)) = es_screenshot_url (snd (fst w)).




(** * Properties *)

(** ** Strings *)

Lemma prefix_empty (s : string) : String.prefix "" s = true.
Proof. destruct s; reflexivity. Qed.

Lemma contains_empty (s : string) : Py.contains "" s = true.
Proof. destruct s; reflexivity. Qed.




(** ** Success classification *)




(** The failure keywords decide only when no success keyword occurs. *)
Lemma failure_second (result_data : string) :
  absent result_data = false ->
  Py.any_in success_words (Py.lower result_data) = false ->
  Py.any_in failure_words (Py.lower result_data) = true ->
  determine_success_status result_data = "failed".
Proof.
  intros Ha Hs Hf. unfold determine_success_status.
  rewrite Ha. cbv zeta. now rewrite Hs, Hf.
Qed.



(** ** Lists *)

Lemma existsb_pointwise {A : Type} (f g : A -> bool) (l : list A) :
  (forall x, f x = g x) -> existsb f l = existsb g l.
Proof.
  intros E. induction l as [|x l IH]; simpl; [reflexivity|]. now rewrite E, IH.
Qed.

(** ** Compliance analysis *)

(** Runs the analyser of a goal [exists r, run = Ok r /\ _] on its
    closed input, and leaves what is said of the report. *)
Ltac run_analysis r E :=
  match goal with
  | |- exists _, ?run = Ok _ /\ _ =>
      destruct run as [r|] eqn:E;
      [exists r; split; [reflexivity|] | vm_compute in E; discriminate E]
  end.

Section AnalysisFacts.

Variable urlparse_netloc : string -> Exc string.


(** What the five methods come to when none raises: methods 1 and 2
    decide alone, else method 3 has to return. *)
Lemma url_accessed_inv er oi accessed :
  url_accessed urlparse_netloc er oi = Ok accessed ->
  (method_actions (target_url oi) (er_enhanced_steps er)
   || method_actions (target_url oi) (er_execution_steps er) = true
   /\ accessed = true)
  \/ (method_actions (target_url oi) (er_enhanced_steps er)
      || method_actions (target_url oi) (er_execution_steps er) = false
      /\ exists found,
           method_results (target_url oi) (er_execution_steps er) = Ok found
           /\ accessed = found
                         || method_text (target_url oi) (er_execution_steps er)
                         || method_domain urlparse_netloc (target_url oi)
                                          (er_execution_steps er)).
Proof.
  unfold url_accessed.
  destruct (method_actions (target_url oi) (er_enhanced_steps er)
            || method_actions (target_url oi) (er_execution_steps er)).
  - intros [= <-]. now left.
  - destruct (method_results (target_url oi) (er_execution_steps er)) as [found|e];
      [|discriminate].
    cbn [bind]. intros [= <-]. right. split; [reflexivity|]. now exists found.
Qed.

Lemma url_accessed_by_actions er oi :
  method_actions (target_url oi) (er_enhanced_steps er)
  || method_actions (target_url oi) (er_execution_steps er) = true ->
  url_accessed urlparse_netloc er oi = Ok true.
Proof. intros H. unfold url_accessed. now rewrite H. Qed.

Lemma analyze_ok_inv env er oi r :
  analyze_results_direct urlparse_netloc env er oi = Ok r ->
  exists accessed,
    url_accessed urlparse_netloc er oi = Ok accessed
    /\ compliance_check r = mkComplianceCheck accessed (check_screenshots er oi)
    /\ execution_summary r
       = mkExecutionSummary (er_success er) (length (er_execution_steps er))
                            (length (er_screenshots er)) (er_error er)
    /\ recommendations r
       = build_recommendations (er_success er) accessed
           (target_url oi) (length (screenshot_instructions oi))
           (length (er_screenshots er)) (length (er_execution_steps er))
    /\ original_instructions r = oi.
Proof.
  unfold analyze_results_direct. destruct (mkdir_logs env); [discriminate|].
  destruct (url_accessed urlparse_netloc er oi) as [accessed|e]; [|discriminate].
  cbn [bind]. intros [= <-]. exists accessed. simpl. auto.
Qed.

(** The analyser raises when the log directory cannot be made, and
    when the URL detection raises. *)
Lemma analyze_raises_iff env er oi e :
  analyze_results_direct urlparse_netloc env er oi = Raise e
  <-> mkdir_logs env = Some e
      \/ (mkdir_logs env = None /\ url_accessed urlparse_netloc er oi = Raise e).
Proof.
  unfold analyze_results_direct. destruct (mkdir_logs env) as [m|].
  - split; [intros [= ->]; now left | intros [[= ->]|[? _]]; congruence].
  - destruct (url_accessed urlparse_netloc er oi) as [accessed|m]; cbn [bind].
    + split; [discriminate | intros [?|[_ ?]]; discriminate].
    + split; [intros [= ->]; now right | intros [?|[_ [= ->]]]; [discriminate|reflexivity]].
Qed.

Lemma rstrip_slash_empty : Py.rstrip_slash "" = "".
Proof. reflexivity. Qed.

(** With an empty target every execution step matches method 4. *)
Lemma method_text_empty_target steps :
  method_text "" steps = negb (Nat.eqb (length steps) 0).
Proof.
  destruct steps as [|s rest]; [reflexivity|].
  simpl. rewrite contains_empty. now rewrite !orb_true_r.
Qed.

(** The empty target: heuristics 1-4 run with an empty pattern, the
    domain fallback is skipped. *)
Lemma url_accessed_empty_target er oi accessed :
  target_url oi = "" ->
  url_accessed urlparse_netloc er oi = Ok accessed ->
  accessed
  = method_actions "" (er_enhanced_steps er) || negb (Nat.eqb (length (er_execution_steps er)) 0).
Proof.
  intros E H. apply url_accessed_inv in H. rewrite E in H.
  destruct H as [(M & ->)|(M & found & F & ->)].
  - destruct (er_execution_steps er) as [|s rest].
    + cbn in M |- *. now rewrite orb_false_r in M |- *.
    + cbn [length Nat.eqb negb]. now rewrite orb_true_r.
  - apply orb_false_iff in M as (M1 & M2). rewrite M1, method_text_empty_target.
    destruct (er_execution_steps er) as [|s rest].
    + cbn in F. injection F as <-. reflexivity.
    + cbn [length Nat.eqb negb]. now rewrite !orb_true_r.
Qed.

End AnalysisFacts.

(** C7. The screenshot verdict of a report: [required] and [captured]
    are the two list lengths, and [meets_requirements] is
    [captured >= required] when something is required, true when
    nothing is; so it is true for [required = 0] whatever was captured,
    false for 3 required and 2 captured, true for 3 and 3. *)
Theorem screenshot_compliance_rule
    (urlparse_netloc : string -> Exc string) (env : AnalysisEnv)
    (er : ExecutionResults) (oi : Instructions) (r : ReviewReport) :
  analyze_results_direct urlparse_netloc env er oi = Ok r ->
  let sc := screenshots_captured (compliance_check r) in
  required sc = length (screenshot_instructions oi)
  /\ captured sc = length (er_screenshots er)
  /\ meets_requirements sc
     = (if 0 <? required sc then required sc <=? captured sc else true)
  /\ (required sc = 0 -> meets_requirements sc = true)
  /\ (required sc = 3 -> captured sc = 2 -> meets_requirements sc = false)
  /\ (required sc = 3 -> captured sc = 3 -> meets_requirements sc = true).
Proof.
  intros H. apply analyze_ok_inv in H as (accessed & _ & Hc & _). rewrite Hc. cbn.
  assert (M : (match screenshot_instructions oi with
               | [] => true
               | _ :: _ => length (screenshot_instructions oi) <=? length (er_screenshots er)
               end)
              = (if 0 <? length (screenshot_instructions oi)
                 then length (screenshot_instructions oi) <=? length (er_screenshots er)
                 else true))
    by (destruct (screenshot_instructions oi); reflexivity).
  rewrite M. repeat split.
  - intros ->. reflexivity.
  - intros -> ->. reflexivity.
  - intros -> ->. reflexivity.
Qed.

Lemma screenshot_compliance_rule_witness :
  exists r,
    analyze_results_direct plain_netloc Sample.env (Sample.visited 2)
                           (Sample.instructions "https://x.com" 3) = Ok r
    /\ required (screenshots_captured (compliance_check r)) = 3
    /\ captured (screenshots_captured (compliance_check r)) = 2
    /\ meets_requirements (screenshots_captured (compliance_check r)) = false.
Proof.
  eexists. split; [reflexivity|].
  pose proof (screenshot_compliance_rule plain_netloc Sample.env (Sample.visited 2)
                (Sample.instructions "https://x.com" 3) _ eq_refl) as H.
  cbv zeta in H. destruct H as (Hr & Hc & _ & _ & Hf & _).
  split; [exact Hr|]. split; [exact Hc|]. apply Hf; reflexivity.
Defined.

Lemma navigates_to_empty (a : Action) :
  navigates_to "" a = String.eqb (a_type a) "navigate".
Proof.
  unfold navigates_to, Py.startswith. rewrite rstrip_slash_empty, prefix_empty.
  apply andb_true_r.
Qed.

(** C3: the code does not do this. Of the five heuristics only the
    domain fallback tests that the target is not empty ([and
    target_url]); heuristics 1 to 4 run against the empty string, which
    every text starts with and contains. With an empty target URL a
    report therefore says [target_url_accessed = true] as soon as there
    is one execution step, or an enhanced step that lists a [navigate]
    action, and [false] only when there is neither. *)
Theorem empty_target_url_verdict
    (urlparse_netloc : string -> Exc string) (env : AnalysisEnv)
    (er : ExecutionResults) (oi : Instructions) (r : ReviewReport) :
  analyze_results_direct urlparse_netloc env er oi = Ok r ->
  target_url oi = "" ->
  target_url_accessed (compliance_check r)
  = existsb (fun step =>
               match sv_actions step with
               | Some actions =>
                   existsb (fun a => String.eqb (a_type a) "navigate") actions
               | None => false
               end)
            (er_enhanced_steps er)
    || negb (length (er_execution_steps er) =? 0).
Proof.
  intros H E. apply analyze_ok_inv in H as (accessed & Ha & Hc & _). rewrite Hc. cbn.
  rewrite (url_accessed_empty_target urlparse_netloc er oi accessed E Ha). f_equal.
  unfold method_actions. apply existsb_pointwise. intros step.
  unfold has_navigation. destruct (sv_actions step); [|reflexivity].
  apply existsb_pointwise. intros a. apply navigates_to_empty.
Qed.

(** One step that only clicks, and an empty target URL. *)
Lemma empty_target_url_verdict_witness :
  exists r,
    analyze_results_direct plain_netloc Sample.env Sample.one_click
                           (Sample.instructions "" 0) = Ok r
    /\ target_url (Sample.instructions "" 0) = ""
    /\ target_url_accessed (compliance_check r) = true.
Proof.
  eexists. split; [reflexivity|]. split; [reflexivity|].
  rewrite (empty_target_url_verdict plain_netloc Sample.env Sample.one_click
             (Sample.instructions "" 0) _ eq_refl eq_refl).
  reflexivity.
Defined.

Lemma append_inv_head (s a b : string) : s ++ a = s ++ b -> a = b.
Proof. induction s as [|c s IH]; simpl; intros H; [exact H | injection H; auto]. Qed.

Lemma accessed_not_the_warning (u : string) :
  rec_accessed u <> rec_not_accessed u.
Proof.
  unfold rec_accessed, rec_not_accessed. intros H.
  apply (append_inv_head "Target URL ") in H.
  apply (append_inv_head u) in H. discriminate H.
Qed.

(** C5, as the code has it. The recommendations are appended in a fixed
    order: the failure message when the run did not succeed, the warning
    that the target URL may not have been accessed, the missing
    screenshots message; then, for a successful run, the confirmation
    and the URL message together, both only when the URL was accessed,
    the screenshot count when something was captured and the step count
    when a step ran. A successful run that accessed the URL and captured
    5 screenshots with none required starts with three positive entries
    and has none of the three negative ones. *)
Theorem recommendations_order
    (urlparse_netloc : string -> Exc string) (env : AnalysisEnv)
    (er : ExecutionResults) (oi : Instructions) (r : ReviewReport) :
  analyze_results_direct urlparse_netloc env er oi = Ok r ->
  let ok := sum_success (execution_summary r) in
  let accessed := target_url_accessed (compliance_check r) in
  let sc := screenshots_captured (compliance_check r) in
  let steps := steps_completed (execution_summary r) in
  recommendations r
  = ((if ok then [] else ["Task execution failed - check error logs"])
     ++ (if accessed then []
         else [("Target URL " ++ target_url oi
                ++ " may not have been properly accessed")%string])
     ++ (if (0 <? required sc) && (captured sc <? required sc)
         then ["Not all required screenshots were captured"] else [])
     ++ (if ok
         then (if accessed
               then ["Task appears to have completed successfully";
                     ("Target URL " ++ target_url oi ++ " was successfully accessed")%string]
               else [])
              ++ (if 0 <? captured sc
                  then [("Successfully captured " ++ Py.str_nat (captured sc)
                        ++ " screenshots")%string]
                  else [])
              ++ (if 0 <? steps
                  then [("Completed " ++ Py.str_nat steps ++ " execution steps")%string]
                  else [])
         else []))%list
  /\ (ok = true -> accessed = true -> captured sc = 5 -> required sc = 0 ->
      firstn 3 (recommendations r)
      = ["Task appears to have completed successfully";
         "Target URL " ++ target_url oi ++ " was successfully accessed";
         "Successfully captured 5 screenshots"]
      /\ ~ In "Task execution failed - check error logs" (recommendations r)
      /\ ~ In ("Target URL " ++ target_url oi ++ " may not have been properly accessed")
              (recommendations r)
      /\ ~ In "Not all required screenshots were captured" (recommendations r)).
Proof.
  intros H. apply analyze_ok_inv in H as (a & _ & Hc & Hs & Hr & _).
  rewrite Hc, Hs, Hr. cbn -[Nat.ltb Py.str_nat String.append er_success].
  split.
  - unfold build_recommendations, when.
    destruct (er_success er), a; reflexivity.
  - intros -> -> -> ->. unfold build_recommendations, when.
    destruct (length (er_execution_steps er)) as [|n];
      cbn -[String.append In Py.str_nat];
      (split; [reflexivity|]);
      repeat split; intros F; cbn -[String.append Py.str_nat] in F;
      repeat (destruct F as [F|F];
              [first [ exact (accessed_not_the_warning (target_url oi) F)
                     | symmetry in F; exact (accessed_not_the_warning (target_url oi) F)
                     | simpl in F; discriminate F ] | ]);
      exact F.
Qed.

Lemma recommendations_order_witness :
  exists r,
    analyze_results_direct plain_netloc Sample.env (Sample.visited 5)
                           (Sample.instructions "https://x.com" 0) = Ok r
    /\ recommendations r
       = ["Task appears to have completed successfully";
          "Target URL https://x.com was successfully accessed";
          "Successfully captured 5 screenshots";
          "Completed 1 execution steps"]
    /\ ~ In "Task execution failed - check error logs" (recommendations r).
Proof.
  eexists. split; [reflexivity|].
  pose proof (recommendations_order plain_netloc Sample.env (Sample.visited 5)
                (Sample.instructions "https://x.com" 0) _ eq_refl) as H.
  cbv zeta in H. destruct H as (Hall & Hd).
  split; [exact Hall|].
  exact (proj1 (proj2 (Hd eq_refl eq_refl eq_refl eq_refl))).
Defined.

(** C5 as stated fails: a successful run in which the target URL was not
    accessed gets no confirmation of success, only the warning. *)
Lemma success_without_confirmation :
  exists r,
    analyze_results_direct plain_netloc Sample.env Sample.no_steps
                           (Sample.instructions "https://x.com" 0) = Ok r
    /\ sum_success (execution_summary r) = true
    /\ recommendations r
       = ["Target URL https://x.com may not have been properly accessed"]
    /\ ~ In "Task appears to have completed successfully" (recommendations r).
Proof.
  eexists. split; [reflexivity|]. repeat split.
  intros [F|[]]. discriminate F.
Qed.




(** The analyser on what the normaliser gives for a step whose one
    result has no content: heuristic 3 raises, and the endpoint answers
    with its last fallback. *)
Example analysis_raises_on_own_output :
  let er := view_results
              (save_execution_results Sample.fs []
                 [AgentHistory [Sample.no_action]
                               [mkRawResult (Some None) None None None] None]
                 "task_1") in
  let oi := Sample.instructions "https://x.com" 0 in
  analyze_results_direct plain_netloc Sample.env er oi
  = Raise "'NoneType' object has no attribute 'lower'"
  /\ analysis_method
       (analyze_results_endpoint plain_netloc Sample.env "2025-08-23T02:41:00" "task_1"
                                 er oi (Ok (Some "All good.")))
     = "emergency_fallback".
Proof. cbv zeta. split; vm_compute; reflexivity. Qed.


(** ** Narrative fallback *)

Lemma contains_append_r (w a s : string) :
  Py.contains w s = true -> Py.contains w (a ++ s) = true.
Proof.
  intros H. induction a as [|c a IH]; simpl; [exact H|].
  rewrite IH. apply orb_true_r.
Qed.

Lemma prefix_append (w s : string) : String.prefix w (w ++ s) = true.
Proof.
  induction w as [|c w IH]; simpl; [apply prefix_empty|].
  destruct (ascii_dec c c); [exact IH | congruence].
Qed.

Lemma contains_prefix (w s : string) :
  String.prefix w s = true -> Py.contains w s = true.
Proof. intros H. destruct s; cbn [Py.contains]; rewrite H; reflexivity. Qed.

(** [w in a + w + b] *)
Lemma contains_middle (w a b : string) : Py.contains w (a ++ w ++ b) = true.
Proof. apply contains_append_r, contains_prefix, prefix_append. Qed.

Lemma contains_cons (w : string) (c : ascii) (s : string) :
  Py.contains w s = true -> Py.contains w (String c s) = true.
Proof. intros H. cbn [Py.contains]. rewrite H. apply orb_true_r. Qed.

Lemma prefix_common (a b c : string) :
  String.prefix b c = true -> String.prefix (a ++ b) (a ++ c) = true.
Proof.
  intros H. induction a as [|x a IH]; simpl; [exact H|].
  destruct (ascii_dec x x); [exact IH | congruence].
Qed.

(** Looks for the needle of a [contains] goal from left to right. *)
Ltac prefix_here :=
  cbn -[Py.str_nat];
  first [ reflexivity | apply prefix_common; reflexivity ].

Ltac locate :=
  repeat first [ solve [apply contains_prefix; prefix_here]
               | apply contains_cons
               | apply contains_append_r ].

Section EndpointFacts.

Variable urlparse_netloc : string -> Exc string.

Lemma in_del_name (name : string) (locals : Locals) :
  in_locals name (del_name name locals) = false.
Proof.
  unfold in_locals, del_name.
  induction locals as [|n l IH]; simpl; [reflexivity|].
  destruct (String.eqb n name) eqn:E; simpl; [exact IH|].
  now rewrite String.eqb_sym, E.
Qed.

(** Whatever the inner [try] meets, [portia_error] is not a bound
    name after it. *)
Lemma inner_try_unbinds portia fallback :
  in_locals "portia_error" (snd (inner_try portia fallback [])) = false.
Proof.
  unfold inner_try.
  match goal with |- context [match ?a with Ok _ => _ | Raise _ => _ end] =>
    destruct a end; reflexivity.
Qed.

(** When the model call raises, the narrative is the templated one. *)
Lemma inner_try_falls_back msg fallback :
  fst (inner_try (Raise msg) fallback []) = fallback.
Proof. reflexivity. Qed.

(** The templated narrative carries the three metrics. *)
Lemma fallback_narrative_metrics task_success steps_count screenshots_count accessed recs :
  let text := fallback_narrative task_success steps_count screenshots_count accessed recs in
  Py.truthy text = true
  /\ Py.contains ("Task Status: " ++ (if task_success then "Success" else "Failed")) text = true
  /\ Py.contains ("Execution Steps: " ++ Py.str_nat steps_count ++ " completed") text = true
  /\ Py.contains ("Visual Documentation: " ++ Py.str_nat screenshots_count
                  ++ " screenshots captured") text = true.
Proof.
  cbv zeta. unfold fallback_narrative. split; [reflexivity|].
  destruct task_success, accessed; cbn -[Py.str_nat Py.contains fallback_recommendations];
    repeat split; locate.
Qed.

(** When the model call raises, the endpoint answers with the
    templated narrative built from the report. *)
Lemma endpoint_fallback_content env clock task_id er oi msg r :
  analyze_results_direct urlparse_netloc env er oi = Ok r ->
  analysis_content
    (analyze_results_endpoint urlparse_netloc env clock task_id er oi (Raise msg))
  = fallback_narrative (er_success er) (length (er_execution_steps er))
                       (length (er_screenshots er))
                       (target_url_accessed (compliance_check r))
                       (recommendations r).
Proof.
  intros H. unfold analyze_results_endpoint. rewrite H. reflexivity.
Qed.

Lemma endpoint_method env clock task_id er oi portia :
  analysis_method
    (analyze_results_endpoint urlparse_netloc env clock task_id er oi portia)
  = match analyze_results_direct urlparse_netloc env er oi with
    | Ok _ => "portia"
    | Raise _ => "emergency_fallback"
    end.
Proof.
  unfold analyze_results_endpoint.
  destruct (analyze_results_direct urlparse_netloc env er oi) as [r|e]; [|reflexivity].
  match goal with |- context [inner_try ?p ?f []] =>
    pose proof (inner_try_unbinds p f) as U; destruct (inner_try p f []) as [a l]
  end.
  simpl in U |- *. now rewrite U.
Qed.

End EndpointFacts.

(** C6. What the endpoint does when the model call raises: the
    provenance tag is ["portia"], the tag of an analysis that came from
    the model, and never ["fallback"]. The handler binds [portia_error]
    for the time of its body only, so that the test
    ['portia_error' not in locals()] after the [try] statement holds on
    both paths. (When the analyser itself raises, the outer handler
    answers, with ["emergency_fallback"].) *)
Theorem fallback_tag_is_portia
    (urlparse_netloc : string -> Exc string) (env : AnalysisEnv) (clock task_id : string)
    (er : ExecutionResults) (oi : Instructions) (msg text : string) :
  let failed :=
    analyze_results_endpoint urlparse_netloc env clock task_id er oi (Raise msg) in
  let normal :=
    analyze_results_endpoint urlparse_netloc env clock task_id er oi (Ok (Some text)) in
  analysis_method failed = analysis_method normal
  /\ analysis_method failed
     = match analyze_results_direct urlparse_netloc env er oi with
       | Ok _ => "portia"
       | Raise _ => "emergency_fallback"
       end
  /\ analysis_method failed <> "fallback".
Proof.
  cbv zeta. rewrite !endpoint_method. repeat split.
  destruct (analyze_results_direct urlparse_netloc env er oi); discriminate.
Qed.

(** The same on a run of one step: the narrative is the templated one,
    the tag is that of the model. *)
Example fallback_run :
  let a := analyze_results_endpoint plain_netloc Sample.env "2025-08-23T02:41:00"
             "task_3" (Sample.visited 2) (Sample.instructions "https://x.com" 0)
             (Raise "connection refused") in
  analysis_method a = "portia"
  /\ Py.contains "generated using fallback mode" (analysis_content a) = true
  /\ Py.contains "Execution Steps: 1 completed" (analysis_content a) = true
  /\ Py.contains "Visual Documentation: 2 screenshots captured" (analysis_content a) = true.
Proof. cbv zeta. repeat split; vm_compute; reflexivity. Qed.


(** ** Thought correlation *)

Lemma thoughts_per_step_nonempty (ts : list Thought) (k : nat) :
  ts <> [] -> 1 <= k ->
  thoughts_per_step ts k = Nat.max 1 (length ts / k).
Proof.
  intros Hts Hk. unfold thoughts_per_step.
  destruct ts; [congruence|]. now rewrite (Nat.max_r 1 k Hk).
Qed.

Lemma slice_to_end {A : Type} (xs : list A) (a n : nat) :
  slice xs a (Nat.min (length xs) (a + n)) = firstn n (skipn a xs).
Proof.
  unfold slice.
  destruct (Nat.le_gt_cases (a + n) (length xs)) as [Hle|Hgt].
  - rewrite Nat.min_r by exact Hle. f_equal. lia.
  - rewrite Nat.min_l by lia.
    rewrite !firstn_all2; [reflexivity | |]; rewrite length_skipn; lia.
Qed.

Lemma thought_window_eq (ts : list Thought) (k : nat) :
  thought_window ts k
  = firstn (thoughts_per_step ts k + 2) (skipn ((k - 1) * thoughts_per_step ts k) ts).
Proof.
  unfold thought_window, end_idx, start_idx.
  rewrite <- Nat.add_assoc. apply slice_to_end.
Qed.

(** C8, as the code has it. Step [k] is given the window of the thought
    list that starts at [(k - 1) * p] and is [p + 2] long (less at the
    end of the list), where [p = max 1 (T div k)] is the thought count
    divided by the number of the step itself, not by the number of
    steps: the window is consecutive, and its size depends on the step
    number. The thoughts the step is left with are the messages of that
    window, by type. *)
Theorem thought_window_by_step_number
    (ts : list Thought) (k : nat) (step_info : StepInfo) (enhanced_step : EnhancedStep) :
  ts <> [] -> 1 <= k ->
  let p := Nat.max 1 (length ts / k) in
  let window := firstn (p + 2) (skipn ((k - 1) * p) ts) in
  thought_window ts k = window
  /\ length window = Nat.min (p + 2) (length ts - (k - 1) * p)
  /\ es_thoughts (snd (enhance_step_with_thoughts step_info enhanced_step k ts None))
     = Some (mkStepThoughts (messages_of "action" window)
                            (messages_of "observation" window)
                            (messages_of "decision" window)).
Proof.
  intros Hts Hk p window.
  assert (W : thought_window ts k = window).
  { rewrite thought_window_eq, (thoughts_per_step_nonempty ts k Hts Hk). reflexivity. }
  split; [exact W|]. split.
  - unfold window. rewrite length_firstn, length_skipn. reflexivity.
  - unfold enhance_step_with_thoughts. cbn [snd es_thoughts].
    rewrite W. cbn [logged flat_map]. now rewrite !app_nil_r.
Qed.

Lemma thought_window_by_step_number_witness :
  thought_window (Sample.thoughts 12) 3 = Sample.thoughts 4
  /\ es_thoughts (snd (enhance_step_with_thoughts (init_step_info 3) (init_enhanced_step 3) 3
                         (Sample.thoughts 12) None))
     = Some (mkStepThoughts (repeat "I am typing the query" 4) [] []).
Proof.
  assert (Hts : Sample.thoughts 12 <> []) by discriminate.
  assert (Hk : 1 <= 3) by lia.
  pose proof (thought_window_by_step_number (Sample.thoughts 12) 3
                (init_step_info 3) (init_enhanced_step 3) Hts Hk) as H.
  cbv zeta in H. destruct H as (Hw & _ & Ht).
  split.
  - rewrite Hw. reflexivity.
  - rewrite Ht. reflexivity.
Defined.

(** C8 as stated fails: with 12 thoughts and a trace of 3 steps the
    windows are 12, 6 and 4 thoughts long, not of one size, and the
    first is not a third of the thoughts. *)
Lemma window_sizes_differ :
  map (fun k => length (thought_window (Sample.thoughts 12) k)) [1; 2; 3] = [12; 6; 4]
  /\ map (fun es => option_map (fun t => length (th_actions t)) (es_thoughts es))
         (enhanced_steps (save_execution_results Sample.fs (Sample.thoughts 12)
                                                 (Sample.blank_steps 3) "task_1"))
     = [Some 12; Some 6; Some 4].
Proof. split; reflexivity. Qed.

(** ** Trace normalisation *)

(** *** What one step does to the results *)

Lemma shot_added_refl filename rs : shot_added filename rs rs.
Proof. unfold shot_added. intuition. Qed.

Lemma shot_added_lockstep filename rs rs' :
  shot_added filename rs rs' -> lockstep rs -> lockstep rs'.
Proof.
  unfold shot_added, lockstep.
  intros (_ & _ & _ & _ & [[-> ->]|[-> ->]]) H; [exact H|].
  rewrite !length_app. simpl. lia.
Qed.

Lemma produces_attach k filename si es rs0 rs :
  produces k filename rs0 (si, es, rs) ->
  screenshots rs = screenshots rs0 ->
  screenshot_urls rs = screenshot_urls rs0 ->
  produces k filename rs0 (attach_screenshot filename (si, es, rs)).
Proof.
  unfold produces, shot_added. cbn.
  intros (Hs & He & Ht & Hx & Hn & Hf & _) E1 E2.
  rewrite E1, E2. intuition.
Qed.

Lemma produces_add_error k filename msg si es rs0 rs :
  produces k filename rs0 (si, es, rs) ->
  produces k filename rs0 (add_error msg (si, es, rs)).
Proof. unfold produces. cbn. intuition. Qed.

Lemma tuple_screenshots_produces env k filename items w rs0 :
  produces k filename rs0 w ->
  screenshots (snd w) = screenshots rs0 ->
  screenshot_urls (snd w) = screenshot_urls rs0 ->
  produces k filename rs0 (tuple_screenshots env filename items w).
Proof.
  revert w. induction items as [|item rest IH]; intros w P E1 E2; simpl; [exact P|].
  destruct (item_screenshot item) as [shot|]; [|now apply IH].
  destruct (shot_truthy shot); [|now apply IH].
  destruct (save_item_screenshot env (screenshot_path filename) shot) as [e|].
  - destruct w as [[si es] rs]. apply IH; [now apply produces_add_error | exact E1 | exact E2].
  - destruct w as [[si es] rs]. now apply produces_attach.
Qed.

Lemma attr_screenshots_produces env k filename attrs w rs0 :
  produces k filename rs0 w ->
  screenshots (snd w) = screenshots rs0 ->
  screenshot_urls (snd w) = screenshot_urls rs0 ->
  produces k filename rs0 (attr_screenshots env filename attrs w).
Proof.
  revert w. induction attrs as [|attr rest IH]; intros w P E1 E2; simpl; [exact P|].
  destruct attr as [shot|]; [|now apply IH].
  destruct (shot_truthy shot); [|now apply IH].
  destruct (save_attr_screenshot env (screenshot_path filename) shot) as [e|].
  - destruct w as [[si es] rs]. apply IH; [now apply produces_add_error | exact E1 | exact E2].
  - destruct w as [[si es] rs]. now apply produces_attach.
Qed.

Lemma enhance_keeps_numbers si es k ts actions :
  si_step_number (fst (enhance_step_with_thoughts si es k ts actions)) = si_step_number si
  /\ es_step_number (snd (enhance_step_with_thoughts si es k ts actions)) = es_step_number es.
Proof. split; reflexivity. Qed.

Lemma enhance_keeps_errors si es k ts actions :
  es_errors (snd (enhance_step_with_thoughts si es k ts actions)) = es_errors es
  /\ es_screenshot_url (snd (enhance_step_with_thoughts si es k ts actions))
     = es_screenshot_url es
  /\ es_result_summary (snd (enhance_step_with_thoughts si es k ts actions))
     = es_result_summary es
  /\ es_result_details (snd (enhance_step_with_thoughts si es k ts actions))
     = es_result_details es.
Proof. repeat split; reflexivity. Qed.

Lemma process_tuple_produces env ts k items rs :
  produces k (screenshot_filename env (res_task_id rs) k) rs
           (process_tuple env ts k items rs).
Proof.
  unfold process_tuple.
  match goal with
  | |- context [let '(a, b) := ?x in _] => destruct x as [si es] eqn:E
  end.
  apply tuple_screenshots_produces; try reflexivity.
  assert (si_step_number si = k /\ es_step_number es = k) as [Hs He].
  { destruct items as [|i0 [|i1 rest]]; try (injection E as <- <-; split; reflexivity). }
  unfold produces. cbn. repeat split; auto using shot_added_refl.
Qed.

Lemma process_loose_produces env k o rs :
  produces k (screenshot_filename env (res_task_id rs) k) rs (process_loose env k o rs).
Proof.
  unfold process_loose.
  destruct (first_present (action_attrs o)), (first_present (result_attrs o));
    (apply attr_screenshots_produces; [|reflexivity|reflexivity]);
    unfold produces; cbn; auto using shot_added_refl.
Qed.

Lemma process_agent_history_produces env ts k raw_actions result shot rs w :
  process_agent_history env ts k raw_actions result shot rs = Ok w ->
  produces k (screenshot_filename env (res_task_id rs) k) rs w.
Proof.
  unfold process_agent_history.
  destruct (mapM extract_action raw_actions) as [actions|msg]; [|discriminate].
  cbn [bind].
  destruct shot as [shot|]; [destruct (shot_truthy shot)|];
    [destruct (save_state_screenshot env _ shot)| |];
    intros [= <-]; unfold produces, shot_added; cbn; intuition.
Qed.

Lemma process_agent_history_raises env ts k raw_actions result shot rs msg :
  process_agent_history env ts k raw_actions result shot rs = Raise msg <->
  mapM extract_action raw_actions = Raise msg.
Proof.
  unfold process_agent_history.
  destruct (mapM extract_action raw_actions) as [actions|m]; cbn [bind].
  - destruct shot as [shot|]; [destruct (shot_truthy shot)|];
      [destruct (save_state_screenshot env _ shot)| |]; split; discriminate.
  - split; intros [= ->]; reflexivity.
Qed.

(** The loop body raises exactly on the steps [step_raises] names. *)
Lemma process_step_raises env ts k step rs msg :
  process_step env ts k step rs = Raise msg <-> step_raises step = Some msg.
Proof.
  unfold process_step, step_raises. destruct step as [raw_actions result shot|items|o].
  - destruct (process_agent_history env ts k raw_actions result shot rs) as [w|m] eqn:E.
    + destruct w as [[si es] rs1]. cbn.
      destruct (mapM extract_action raw_actions) as [a|m] eqn:M.
      * split; discriminate.
      * apply process_agent_history_raises with (env := env) (ts := ts) (k := k)
          (result := result) (shot := shot) (rs := rs) in M. congruence.
    + apply process_agent_history_raises in E. rewrite E. cbn. split; congruence.
  - cbn. destruct (process_tuple env ts k items rs) as [[si es] rs1]. split; discriminate.
  - cbn. destruct (process_loose env k o rs) as [[si es] rs1]. split; discriminate.
Qed.

Lemma produces_stepped env ts k rs si es rs1 :
  produces k (screenshot_filename env (res_task_id rs) k) rs (si, es, rs1) ->
  stepped env k rs
    (let '(step_info, enhanced_step) := enhance_step_with_thoughts si es k ts None in
     mkResults (res_task_id rs1)
               (execution_steps rs1 ++ [step_info])%list
               (screenshots rs1) (screenshot_urls rs1)
               (res_success rs1) (res_error rs1)
               (enhanced_steps rs1 ++ [enhanced_step])%list
               (res_agent_thoughts rs1) (log_file rs1)
               (if String.eqb (si_action step_info) "N/A"
                then full_conversation rs1
                else (full_conversation rs1 ++ [(k, si_action step_info)])%list)).
Proof.
  intros (Hs & He & Hadd). cbn in Hs, He, Hadd.
  destruct (enhance_step_with_thoughts si es k ts None) as [si' es'] eqn:E.
  pose proof (enhance_keeps_numbers si es k ts None) as [Ns Ne]. rewrite E in Ns, Ne.
  cbn in Ns, Ne.
  exists si', es'. cbn.
  destruct Hadd as (Ht & Hx & Hn & Hf & Hshots).
  rewrite Hx, Hn. repeat split; try congruence.
  intros L. unfold lockstep in *. cbn.
  destruct Hshots as [[-> ->]|[-> ->]]; rewrite ?length_app; simpl; lia.
Qed.

(** A step that does not raise is one turn of the loop. *)
Lemma process_step_ok env ts k step rs :
  step_raises step = None ->
  exists rs', process_step env ts k step rs = Ok rs' /\ stepped env k rs rs'.
Proof.
  intros H. unfold process_step.
  destruct step as [raw_actions result shot|items|o].
  - destruct (process_agent_history env ts k raw_actions result shot rs) as [w|m] eqn:E.
    + destruct w as [[si es] rs1]. cbn [bind].
      eexists. split; [reflexivity|].
      apply process_agent_history_produces in E. now apply produces_stepped.
    + apply process_agent_history_raises in E. cbn in H. rewrite E in H. discriminate.
  - cbn [bind]. pose proof (process_tuple_produces env ts k items rs) as P.
    destruct (process_tuple env ts k items rs) as [[si es] rs1].
    eexists. split; [reflexivity|]. now apply produces_stepped.
  - cbn [bind]. pose proof (process_loose_produces env k o rs) as P.
    destruct (process_loose env k o rs) as [[si es] rs1].
    eexists. split; [reflexivity|]. now apply produces_stepped.
Qed.

(** *** The loop *)

Lemma process_steps_raise env ts k history rs :
  snd (process_steps env ts k history rs) = first_raise history.
Proof.
  revert k rs. induction history as [|step rest IH]; intros k rs; simpl; [reflexivity|].
  destruct (step_raises step) as [msg|] eqn:R.
  - apply process_step_raises with (env := env) (ts := ts) (k := k) (rs := rs) in R.
    now rewrite R.
  - destruct (process_step_ok env ts k step rs R) as (rs' & -> & _). apply IH.
Qed.


Lemma process_steps_app env ts k pre post rs :
  first_raise pre = None ->
  process_steps env ts k (pre ++ post) rs
  = process_steps env ts (k + length pre) post (fst (process_steps env ts k pre rs)).
Proof.
  revert k rs. induction pre as [|step rest IH]; intros k rs H; simpl.
  - now rewrite Nat.add_0_r.
  - simpl in H. destruct (step_raises step) as [msg|] eqn:R; [discriminate|].
    destruct (process_step_ok env ts k step rs R) as (rs' & -> & _).
    rewrite IH by exact H. f_equal. lia.
Qed.

(** What the loop appends: one step per step of the prefix, numbered
    from [k] on. *)
Lemma process_steps_appends env ts k history rs :
  let rs' := fst (process_steps env ts k history rs) in
  exists sis ess,
    execution_steps rs' = (execution_steps rs ++ sis)%list
    /\ enhanced_steps rs' = (enhanced_steps rs ++ ess)%list
    /\ map si_step_number sis = seq k (length (ok_prefix history))
    /\ map es_step_number ess = seq k (length (ok_prefix history))
    /\ res_task_id rs' = res_task_id rs
    /\ (lockstep rs -> lockstep rs').
Proof.
  revert k rs. induction history as [|step rest IH]; intros k rs; simpl.
  - exists [], []. rewrite !app_nil_r. repeat split; auto.
  - destruct (step_raises step) as [msg|] eqn:R.
    + apply process_step_raises with (env := env) (ts := ts) (k := k) (rs := rs) in R.
      rewrite R. simpl. exists [], []. rewrite !app_nil_r. repeat split; auto.
    + destruct (process_step_ok env ts k step rs R)
        as (rs1 & -> & si & es & Hx & Hn & Hs & He & Ht & Hl).
      destruct (IH (S k) rs1) as (sis & ess & Ix & In' & Is & Ie & It & Il).
      exists (si :: sis), (es :: ess). simpl.
      rewrite Ix, In', Hx, Hn, <- !app_assoc, Is, Ie, Hs, He, It, Ht.
      repeat split; auto.
Qed.

Lemma save_steps env ts history task_id :
  let rs := fst (process_steps env ts 1 history (new_results task_id ts)) in
  let r := save_execution_results env ts history task_id in
  execution_steps r = execution_steps rs
  /\ enhanced_steps r = enhanced_steps rs
  /\ screenshots r = screenshots rs
  /\ screenshot_urls r = screenshot_urls rs
  /\ res_success r = match first_raise history with
                     | None => negb (length history =? 0)
                     | Some _ => false
                     end
  /\ res_error r = match dump_log env with
                   | None => first_raise history
                   | Some e => Some ("Error saving results: " ++ e)
                   end.
Proof.
  cbv zeta. unfold save_execution_results.
  pose proof (process_steps_raise env ts 1 history (new_results task_id ts)) as R.
  destruct (process_steps env ts 1 history (new_results task_id ts)) as [rs raised].
  cbn in R. subst raised.
  destruct (dump_log env); cbn; repeat split; destruct history; cbn;
    try reflexivity; destruct (step_raises r); destruct (first_raise history);
    reflexivity.
Qed.

Lemma ok_prefix_length history : length (ok_prefix history) <= length history.
Proof.
  induction history as [|step rest IH]; simpl; [lia|].
  destruct (step_raises step); simpl; lia.
Qed.

Lemma ok_prefix_all history : first_raise history = None -> ok_prefix history = history.
Proof.
  induction history as [|step rest IH]; simpl; [reflexivity|].
  destruct (step_raises step); [discriminate|]. intros H. now rewrite IH.
Qed.

Lemma ok_prefix_raises history msg :
  first_raise history = Some msg -> length (ok_prefix history) < length history.
Proof.
  induction history as [|step rest IH]; simpl; [discriminate|].
  destruct (step_raises step); simpl; [lia|]. intros H. apply IH in H. lia.
Qed.

(** C2, as the code has it. The normaliser emits one step for every raw
    step before the first one whose processing raises, in order, and
    numbers the steps 1, 2, ... without a gap, in both step lists; when
    no step raises these are all [N] steps, when one does they are
    fewer. *)
Theorem step_numbers_contiguous
    (env : Env) (ts : list Thought) (history : list RawStep) (task_id : string) :
  let r := save_execution_results env ts history task_id in
  let m := length (ok_prefix history) in
  map es_step_number (enhanced_steps r) = seq 1 m
  /\ map si_step_number (execution_steps r) = seq 1 m
  /\ length (enhanced_steps r) = m
  /\ m <= length history
  /\ (first_raise history = None -> m = length history)
  /\ (forall msg, first_raise history = Some msg -> m < length history).
Proof.
  cbv zeta.
  destruct (save_steps env ts history task_id) as (Hx & Hn & _).
  destruct (process_steps_appends env ts 1 history (new_results task_id ts))
    as (sis & ess & Ix & In' & Is & Ie & _).
  cbn in Ix, In'. rewrite Hx, Hn, Ix, In'.
  repeat split; auto.
  - rewrite <- (length_map es_step_number), Ie. apply length_seq.
  - apply ok_prefix_length.
  - intros H. now rewrite ok_prefix_all.
  - apply ok_prefix_raises.
Qed.

Lemma step_numbers_contiguous_witness :
  map es_step_number
      (enhanced_steps (save_execution_results Sample.fs (Sample.thoughts 2)
                                              (Sample.blank_steps 3) "task_1"))
  = [1; 2; 3].
Proof.
  pose proof (step_numbers_contiguous Sample.fs (Sample.thoughts 2) (Sample.blank_steps 3)
                "task_1") as H.
  cbv zeta in H. destruct H as (Hn & _ & _ & _ & Hall & _).
  rewrite Hn, (Hall eq_refl). reflexivity.
Defined.

(** C2 as stated fails: of three raw steps the second has a [done]
    action without [success]; one step is emitted, not three. *)
Lemma fewer_steps_than_raw :
  let history := [LooseStep unrecognised;
                  AgentHistory [Sample.done_without_success] [] None;
                  LooseStep unrecognised] in
  length history = 3
  /\ map es_step_number
         (enhanced_steps (save_execution_results Sample.fs [] history "task_1")) = [1]
  /\ length (execution_steps (save_execution_results Sample.fs [] history "task_1")) = 1.
Proof. cbv zeta. repeat split; reflexivity. Qed.

Lemma first_raise_app pre post :
  first_raise (pre ++ post)
  = match first_raise pre with
    | Some msg => Some msg
    | None => first_raise post
    end.
Proof.
  induction pre as [|step rest IH]; simpl; [reflexivity|].
  destruct (step_raises step); [reflexivity | exact IH].
Qed.


Lemma new_results_lockstep task_id ts : lockstep (new_results task_id ts).
Proof. reflexivity. Qed.




(** *** The screenshots of one step *)

Lemma tuple_screenshots_shots env filename items si es rs :
  let a := attempts_of (save_item_screenshot env (screenshot_path filename))
                       (map item_screenshot items) in
  let w := tuple_screenshots env filename items (si, es, rs) in
  es_errors (snd (fst w))
  = (es_errors es ++ map (String.append "Screenshot save error: ") (failures a))%list
  /\ es_screenshot_url (snd (fst w))
     = (if saved a then Some (screenshot_url filename) else es_screenshot_url es)
  /\ screenshots (snd w)
     = (screenshots rs ++ if saved a then [screenshot_path filename] else [])%list
  /\ screenshot_urls (snd w)
     = (screenshot_urls rs ++ if saved a then [screenshot_url filename] else [])%list.
Proof.
  cbv zeta. revert si es rs.
  induction items as [|item rest IH]; intros si es rs.
  - cbn. now rewrite !app_nil_r.
  - cbn [map attempts_of flat_map tuple_screenshots].
    fold (attempts_of (save_item_screenshot env (screenshot_path filename))
                      (map item_screenshot rest)).
    destruct (item_screenshot item) as [shot|]; [|apply IH].
    destruct (shot_truthy shot); [|apply IH].
    destruct (save_item_screenshot env (screenshot_path filename) shot) as [e|].
    + cbn [app failures saved existsb orb map add_error].
      destruct (IH si
                  (mkEnhancedStep (es_step_number es) (es_action_summary es)
                     (es_action_details es) (es_result_summary es)
                     (es_result_details es) (es_action_type es)
                     (es_success_status es) (es_screenshot_url es)
                     (es_errors es ++ [("Screenshot save error: " ++ e)%string])%list
                     (es_thoughts es)) rs) as (E1 & E2 & E3 & E4).
      cbn [es_errors es_screenshot_url] in E1, E2.
      rewrite E1, E2, E3, E4, <- app_assoc. repeat split.
    + cbn. now rewrite app_nil_r.
Qed.

Lemma attr_screenshots_shots env filename attrs si es rs :
  let a := attempts_of (save_attr_screenshot env (screenshot_path filename)) attrs in
  let w := attr_screenshots env filename attrs (si, es, rs) in
  es_errors (snd (fst w))
  = (es_errors es ++ map (String.append "Screenshot processing error: ") (failures a))%list
  /\ es_screenshot_url (snd (fst w))
     = (if saved a then Some (screenshot_url filename) else es_screenshot_url es)
  /\ screenshots (snd w)
     = (screenshots rs ++ if saved a then [screenshot_path filename] else [])%list
  /\ screenshot_urls (snd w)
     = (screenshot_urls rs ++ if saved a then [screenshot_url filename] else [])%list.
Proof.
  cbv zeta. revert si es rs.
  induction attrs as [|attr rest IH]; intros si es rs.
  - cbn. now rewrite !app_nil_r.
  - cbn [attempts_of flat_map attr_screenshots].
    fold (attempts_of (save_attr_screenshot env (screenshot_path filename)) rest).
    destruct attr as [shot|]; [|apply IH].
    destruct (shot_truthy shot); [|apply IH].
    destruct (save_attr_screenshot env (screenshot_path filename) shot) as [e|].
    + cbn [app failures saved existsb orb map add_error].
      destruct (IH si
                  (mkEnhancedStep (es_step_number es) (es_action_summary es)
                     (es_action_details es) (es_result_summary es)
                     (es_result_details es) (es_action_type es)
                     (es_success_status es) (es_screenshot_url es)
                     (es_errors es ++ [("Screenshot processing error: " ++ e)%string])%list
                     (es_thoughts es)) rs) as (E1 & E2 & E3 & E4).
      cbn [es_errors es_screenshot_url] in E1, E2.
      rewrite E1, E2, E3, E4, <- app_assoc. repeat split.
    + cbn. now rewrite app_nil_r.
Qed.

(** The piece of work of a step, in terms of the attempts the raw step
    gives: the errors noted are the failures before the first attempt
    that raises nothing, and the step carries the screenshot, and the
    two lists the file, exactly when there is such an attempt. *)
Lemma work_shots env ts k step rs si es rs1 :
  match step with
  | AgentHistory raw_actions result state_screenshot =>
      process_agent_history env ts k raw_actions result state_screenshot rs
  | TupleStep items => Ok (process_tuple env ts k items rs)
  | LooseStep o => Ok (process_loose env k o rs)
  end = Ok (si, es, rs1) ->
  let filename := screenshot_filename env (res_task_id rs) k in
  let a := step_attempts env (screenshot_path filename) step in
  es_errors es = map (String.append (error_label step)) (failures a)
  /\ es_screenshot_url es = (if saved a then Some (screenshot_url filename) else None)
  /\ screenshots rs1
     = (screenshots rs ++ if saved a then [screenshot_path filename] else [])%list
  /\ screenshot_urls rs1
     = (screenshot_urls rs ++ if saved a then [screenshot_url filename] else [])%list.
Proof.
  cbv zeta. destruct step as [raw_actions result shot|items|o].
  - unfold process_agent_history.
    destruct (mapM extract_action raw_actions) as [actions|m]; [|discriminate].
    cbn [bind step_attempts attempts_of flat_map error_label].
    destruct shot as [shot|]; [destruct (shot_truthy shot)|];
      [destruct (save_state_screenshot env _ shot)| |];
      intros [= <- <- <-]; cbn; rewrite ?app_nil_r; repeat split.
  - intros [= H]. unfold process_tuple in H.
    match type of H with
    | context [let '(a, b) := ?x in _] => destruct x as [si0 es0] eqn:E
    end.
    assert (es_errors es0 = [] /\ es_screenshot_url es0 = None) as [Z1 Z2].
    { destruct items as [|i0 [|i1 rest]]; injection E as <- <-; split; reflexivity. }
    destruct (tuple_screenshots_shots env (screenshot_filename env (res_task_id rs) k)
                items si0 es0 rs) as (E1 & E2 & E3 & E4).
    rewrite H in E1, E2, E3, E4. cbn [fst snd] in E1, E2, E3, E4.
    rewrite Z1 in E1. rewrite Z2 in E2. cbn [step_attempts error_label]. auto.
  - intros [= H]. unfold process_loose in H.
    destruct (first_present (action_attrs o)), (first_present (result_attrs o));
      cbv beta iota zeta in H;
      match type of H with
      | attr_screenshots _ _ _ (?x, ?y, _) = _ =>
          destruct (attr_screenshots_shots env
                      (screenshot_filename env (res_task_id rs) k)
                      (screenshot_attrs o) x y rs) as (E1 & E2 & E3 & E4)
      end;
      rewrite H in E1, E2, E3, E4; cbn [fst snd] in E1, E2, E3, E4;
      cbn [step_attempts error_label]; auto.
Qed.

(** One turn of the loop and the screenshots of its step. *)
Lemma process_step_shots env ts k step rs rs' :
  process_step env ts k step rs = Ok rs' ->
  let filename := screenshot_filename env (res_task_id rs) k in
  let a := step_attempts env (screenshot_path filename) step in
  exists es,
    enhanced_steps rs' = (enhanced_steps rs ++ [es])%list
    /\ es_step_number es = k
    /\ es_errors es = map (String.append (error_label step)) (failures a)
    /\ es_screenshot_url es = (if saved a then Some (screenshot_url filename) else None)
    /\ screenshots rs'
       = (screenshots rs ++ if saved a then [screenshot_path filename] else [])%list
    /\ screenshot_urls rs'
       = (screenshot_urls rs ++ if saved a then [screenshot_url filename] else [])%list.
Proof.
  intros H. cbv zeta. unfold process_step in H.
  match type of H with
  | bind ?b _ = _ => destruct b as [[[si0 es0] rs1]|m] eqn:E; [|discriminate H]
  end.
  destruct (work_shots env ts k step rs si0 es0 rs1 E) as (W1 & W2 & W3 & W4).
  assert (P : produces k (screenshot_filename env (res_task_id rs) k) rs (si0, es0, rs1)).
  { destruct step as [raw_actions result shot|items|o].
    - now apply process_agent_history_produces in E.
    - injection E as E. rewrite <- E. apply process_tuple_produces.
    - injection E as E. rewrite <- E. apply process_loose_produces. }
  destruct P as (_ & Pk & _ & _ & Pn & _). cbn [fst snd] in Pk, Pn.
  cbn [bind] in H. cbv beta iota in H.
  destruct (enhance_keeps_errors si0 es0 k ts None) as (K1 & K2 & _).
  destruct (enhance_keeps_numbers si0 es0 k ts None) as (_ & K3).
  destruct (enhance_step_with_thoughts si0 es0 k ts None) as [si es].
  cbn [snd] in K1, K2, K3.
  injection H as <-. cbn [enhanced_steps screenshots screenshot_urls].
  exists es. rewrite Pn, K1, K2, K3, W1, W2, W3, W4, Pk. repeat split.
Qed.

(** The two lists after the loop: the files of the steps of which a
    screenshot was saved. *)
Lemma process_steps_shots env ts k history rs :
  let rs' := fst (process_steps env ts k history rs) in
  let files := saved_files env (res_task_id rs) k (ok_prefix history) in
  screenshots rs' = (screenshots rs ++ map screenshot_path files)%list
  /\ screenshot_urls rs' = (screenshot_urls rs ++ map screenshot_url files)%list.
Proof.
  cbv zeta. revert k rs. induction history as [|step rest IH]; intros k rs.
  - cbn. now rewrite !app_nil_r.
  - cbn [process_steps ok_prefix].
    destruct (step_raises step) as [msg|] eqn:R.
    + apply process_step_raises with (env := env) (ts := ts) (k := k) (rs := rs) in R.
      rewrite R. cbn. now rewrite !app_nil_r.
    + destruct (process_step_ok env ts k step rs R)
        as (rs1 & Hstep & _ & _ & _ & _ & _ & _ & Ht & _).
      rewrite Hstep.
      destruct (process_step_shots env ts k step rs rs1 Hstep) as (_ & _ & _ & _ & _ & S1 & S2).
      destruct (IH (S k) rs1) as (I1 & I2).
      rewrite I1, I2, S1, S2, Ht. cbn [saved_files]. rewrite !map_app, <- !app_assoc.
      destruct (saved (step_attempts env
                         (screenshot_path (screenshot_filename env (res_task_id rs) k))
                         step)); split; reflexivity.
Qed.

(** *** Failures *)




(** *** The two screenshot lists *)

Lemma add_manual_lockstep shot rs : lockstep rs -> lockstep (add_manual shot rs).
Proof.
  unfold lockstep, add_manual. intros H.
  destruct shot as [[path url]|]; [|exact H].
  destruct (Py.truthy path); [|exact H].
  cbn. rewrite !length_app. simpl. lia.
Qed.

Lemma add_manual_shots shot rs :
  screenshots (add_manual shot rs) = (screenshots rs ++ manual_path shot)%list
  /\ screenshot_urls (add_manual shot rs) = (screenshot_urls rs ++ manual_url shot)%list.
Proof.
  unfold add_manual, manual_path, manual_url.
  destruct shot as [[path url]|]; [destruct (Py.truthy path)|]; cbn;
    rewrite ?app_nil_r; split; reflexivity.
Qed.

(** C10. The two screenshot lists have the same length after every
    prefix of the history has gone through the loop, in what
    [save_execution_results] returns, after [execute_task] has added
    the initial and the final screenshot, and in the result of a run
    that raised. They grow together: a turn of the loop appends the path
    of the file of its step to the one and its URL to the other when a
    screenshot of the step is saved without an exception, and nothing to
    either when there is none or every attempt raises; a manual
    screenshot appends its path and its URL when it was taken, nothing
    when it was not. *)
Theorem screenshot_lists_lockstep
    (env : Env) (ts : list Thought) (history : list RawStep) (task_id : string)
    (initial_screenshot final_screenshot : option (string * string))
    (n : nat) (e : string) :
  let rs := fst (process_steps env ts 1 (firstn n history) (new_results task_id ts)) in
  let r := save_execution_results env ts history task_id in
  let x := execute_task_results env ts history task_id
                                initial_screenshot final_screenshot in
  (lockstep rs
   /\ screenshots rs
      = map screenshot_path (saved_files env task_id 1 (ok_prefix (firstn n history)))
   /\ screenshot_urls rs
      = map screenshot_url (saved_files env task_id 1 (ok_prefix (firstn n history))))
  /\ (lockstep r
      /\ screenshots r = map screenshot_path (saved_files env task_id 1 (ok_prefix history))
      /\ screenshot_urls r
         = map screenshot_url (saved_files env task_id 1 (ok_prefix history)))
  /\ (lockstep x
      /\ screenshots x
         = (screenshots r ++ manual_path initial_screenshot
            ++ manual_path final_screenshot)%list
      /\ screenshot_urls x
         = (screenshot_urls r ++ manual_url initial_screenshot
            ++ manual_url final_screenshot)%list)
  /\ lockstep (error_result task_id e).
Proof.
  cbv zeta.
  assert (L : forall h, lockstep (fst (process_steps env ts 1 h (new_results task_id ts)))).
  { intros h.
    destruct (process_steps_appends env ts 1 h (new_results task_id ts))
      as (_ & _ & _ & _ & _ & _ & _ & Hl).
    apply Hl, new_results_lockstep. }
  assert (F : forall h,
             screenshots (fst (process_steps env ts 1 h (new_results task_id ts)))
             = map screenshot_path (saved_files env task_id 1 (ok_prefix h))
             /\ screenshot_urls (fst (process_steps env ts 1 h (new_results task_id ts)))
                = map screenshot_url (saved_files env task_id 1 (ok_prefix h))).
  { intros h. apply (process_steps_shots env ts 1 h (new_results task_id ts)). }
  destruct (save_steps env ts history task_id) as (_ & _ & Hs & Hu & _).
  assert (S : lockstep (save_execution_results env ts history task_id)).
  { unfold lockstep. rewrite Hs, Hu. apply L. }
  split; [split; [apply L | apply F]|].
  split; [split; [exact S | rewrite Hs, Hu; apply F]|].
  split; [|reflexivity].
  split; [unfold execute_task_results; now apply add_manual_lockstep, add_manual_lockstep|].
  unfold execute_task_results.
  destruct (add_manual_shots final_screenshot
              (add_manual initial_screenshot
                 (save_execution_results env ts history task_id))) as (A1 & A2).
  destruct (add_manual_shots initial_screenshot
              (save_execution_results env ts history task_id)) as (B1 & B2).
  rewrite A1, A2, B1, B2, <- !app_assoc. split; reflexivity.
Qed.

(** A run of three steps of the three shapes, two of which carry a
    screenshot. *)
Example lockstep_run :
  let r := execute_task_results Sample.fs []
             [AgentHistory [Sample.navigate "https://x.com/"]
                           [Sample.navigated "https://x.com/"] (Some (ShotStr "iVBOR"));
              LooseStep unrecognised;
              TupleStep [mkTupleItem true "click(5)" None;
                         mkTupleItem true "element not found" (Some (ShotBytes "abc"))]]
             "t1"
             (Some ("operation_logs/screenshots/t1_initial_20250823_024030.png",
                    "/screenshots/t1_initial_20250823_024030.png"))
             None in
  screenshots r
  = ["operation_logs/screenshots/t1_step_1_20250823_024037.png";
     "operation_logs/screenshots/t1_step_3_20250823_024037.png";
     "operation_logs/screenshots/t1_initial_20250823_024030.png"]
  /\ screenshot_urls r
     = ["/screenshots/t1_step_1_20250823_024037.png";
        "/screenshots/t1_step_3_20250823_024037.png";
        "/screenshots/t1_initial_20250823_024030.png"]
  /\ map es_action_summary (enhanced_steps r) = ["Step 1: navigate"; "N/A"; "click(5)"]
  /\ map es_success_status (enhanced_steps r) = ["success"; "unknown"; "success"].
Proof. cbv zeta. repeat split; reflexivity. Qed.

(** ** The classifiers on examples *)

Example dss_failed : determine_success_status "Timeout while waiting" = "failed".
Proof. reflexivity. Qed.
Example dss_empty : determine_success_status "[]" = "empty".
Proof. reflexivity. Qed.
Example dss_completed : determine_success_status "ok" = "completed".
Proof. reflexivity. Qed.
Example dss_blank : determine_success_status "   " = "unknown".
Proof. reflexivity. Qed.
Example dss_absent : determine_success_status "N/A" = "unknown".
Proof. reflexivity. Qed.
Example str_nat_120 : Py.str_nat 120 = "120" /\ Py.str_nat 0 = "0".
Proof. split; reflexivity. Qed.
Example rstrip_slash_url : Py.rstrip_slash "https://x.com//" = "https://x.com".
Proof. reflexivity. Qed.

(** Length, slices and [strip] go by code point: 61 letters of two
    bytes each are cut to 60 letters, and a no-break space and a thin
    space are white space. *)
Example code_points :
  Py.len "né" = 2
  /\ Py.take 1 "éa" = "é"
  /\ Py.drop 1 "é]" = "]"
  /\ Py.strip (Py.bytes [194; 160] ++ "ok" ++ Py.bytes [226; 128; 137; 10]) = "ok"
  /\ truncate60 (String.concat "" (repeat "é" 61))
     = String.concat "" (repeat "é" 60) ++ "..."
  /\ truncate60 (String.concat "" (repeat "é" 60)) = String.concat "" (repeat "é" 60).
Proof. repeat split; vm_compute; reflexivity. Qed.

Example netloc_examples :
  plain_netloc "https://x.com/shop?q=1" = Ok "x.com"
  /\ plain_netloc "//x.com/shop" = Ok "x.com"
  /\ plain_netloc "x.com/shop" = Ok ""
  /\ plain_netloc "a+b://c" = Ok "c"
  /\ plain_netloc "1ab://c" = Ok "".
Proof. repeat split; reflexivity. Qed.

(** Scenarios A, B and C of the specification. *)
Example scenario_navigate_action :
  url_accessed plain_netloc
    (mkExecutionResults (Some "a") (Some true) []
       [mkStepView (Some [mkAction "navigate"
                            (mkDetails (Some "https://x.com/") None None None None None None)])
                   None None None]
       [] None 0)
    (Sample.instructions "https://x.com" 0) = Ok true.
Proof. reflexivity. Qed.

Example scenario_result_content :
  method_results "https://x.com/"
    [mkStepView None (Some [mkActionResult (Some "Navigated to https://x.com/") (Some false) None None])
                None None] = Ok true.
Proof. reflexivity. Qed.

Example scenario_no_steps :
  exists r,
    analyze_results_direct plain_netloc Sample.env Sample.no_steps
                           (Sample.instructions "https://x.com/" 0) = Ok r
    /\ target_url_accessed (compliance_check r) = false
    /\ In "Target URL https://x.com/ may not have been properly accessed"
          (recommendations r).
Proof. eexists. split; [reflexivity|]. split; [reflexivity|]. left. reflexivity. Qed.

(** * Further properties *)

(** ** Substrings *)

Lemma contains_step (w : string) (c : ascii) (s : string) :
  Py.contains w (String c s) = String.prefix w (String c s) || Py.contains w s.
Proof. reflexivity. Qed.

(** A needle cannot start at a character that is not its first. *)
Lemma contains_cons_ne (x : ascii) (w : string) (c : ascii) (s : string) :
  c <> x -> Py.contains (String x w) (String c s) = Py.contains (String x w) s.
Proof.
  intros N. rewrite contains_step. cbn [String.prefix].
  destruct (ascii_dec x c) as [E|_]; [congruence | reflexivity].
Qed.

Lemma contains_char_cons (x c : ascii) (s : string) :
  Py.contains (String x "") (String c s) = false ->
  c <> x /\ Py.contains (String x "") s = false.
Proof.
  rewrite contains_step. cbn [String.prefix]. intros H.
  apply orb_false_elim in H as (H1 & H2). split; [|exact H2].
  intros ->. destruct (ascii_dec x x); [|congruence].
  now rewrite prefix_empty in H1.
Qed.

(** Nor inside a text in which its first character does not occur. *)
Lemma contains_skip (x : ascii) (w a s : string) :
  Py.contains (String x "") a = false ->
  Py.contains (String x w) (a ++ s) = Py.contains (String x w) s.
Proof.
  induction a as [|c a IH]; intros H; [reflexivity|].
  apply contains_char_cons in H as (N & H).
  cbn [String.append]. rewrite contains_cons_ne by exact N. auto.
Qed.

Lemma prefix_absent_char (x : ascii) (w s : string) :
  Py.contains (String x "") w = false ->
  String.prefix w (s ++ String x "") = String.prefix w s.
Proof.
  revert s. induction w as [|a w IH]; intros s H.
  - now rewrite !prefix_empty.
  - apply contains_char_cons in H as (N & H).
    destruct s as [|c s]; cbn [String.append String.prefix].
    + destruct (ascii_dec a x); [congruence | reflexivity].
    + destruct (ascii_dec a c); [apply IH, H | reflexivity].
Qed.

(** A character that is not in the needle can be dropped from the end of
    the text. *)
Lemma contains_absent_char (x : ascii) (w s : string) :
  Py.contains (String x "") w = false ->
  w <> "" ->
  Py.contains w (s ++ String x "") = Py.contains w s.
Proof.
  intros H Hw. induction s as [|c s IH].
  - pose proof (prefix_absent_char x w "" H) as P.
    cbn [String.append] in *. rewrite contains_step, P.
    cbn [Py.contains]. now destruct (String.prefix w "").
  - pose proof (prefix_absent_char x w (String c s) H) as P.
    cbn [String.append] in *. rewrite !contains_step, P. now rewrite IH.
Qed.

Lemma prefix_append_l (w a t : string) :
  String.prefix w a = true -> String.prefix w (a ++ t) = true.
Proof.
  revert a. induction w as [|c w IH]; intros a H; [apply prefix_empty|].
  destruct a as [|d a]; [discriminate H|].
  cbn [String.append String.prefix] in *.
  destruct (ascii_dec c d); [now apply IH | discriminate H].
Qed.

Lemma contains_append_l (w a t : string) :
  Py.contains w a = true -> Py.contains w (a ++ t) = true.
Proof.
  induction a as [|c a IH]; intros H.
  - cbn [Py.contains] in H. rewrite orb_false_r in H.
    apply contains_prefix. now apply (prefix_append_l w "" t).
  - cbn [String.append]. rewrite contains_step in *.
    apply orb_true_iff in H as [H|H]; apply orb_true_iff.
    + left. now apply (prefix_append_l w (String c a) t).
    + right. auto.
Qed.

Lemma rstrip_is_prefix (p : ascii -> bool) (s : string) :
  exists t, s = Py.rstrip_by p s ++ t.
Proof.
  induction s as [|c s (t & IH)]; [now exists ""|].
  cbn [Py.rstrip_by]. destruct (Py.rstrip_by p s) as [|d r] eqn:E.
  - destruct (p c).
    + now exists (String c s).
    + exists s. reflexivity.
  - exists t. change (String c s = String c (String d r ++ t)). now f_equal.
Qed.

Lemma string_app_assoc (a b c : string) : (a ++ b) ++ c = a ++ b ++ c.
Proof. induction a as [|x a IH]; cbn; [reflexivity | now rewrite IH]. Qed.

Lemma flatten_app (l1 l2 : list string) :
  Py.flatten (l1 ++ l2) = Py.flatten l1 ++ Py.flatten l2.
Proof.
  induction l1 as [|x l1 IH]; [reflexivity|].
  cbn [app Py.flatten fold_right]. fold (Py.flatten (l1 ++ l2)). fold (Py.flatten l1).
  now rewrite IH, string_app_assoc.
Qed.

(** The code points of a text, put together again, are the text. *)
Lemma flatten_chars (s : string) : Py.flatten (Py.chars s) = s.
Proof.
  induction s as [|c s IH]; [reflexivity|].
  cbn [Py.chars]. destruct (Py.chars s) as [|[|d t] rest].
  - cbn in IH |- *. now rewrite <- IH.
  - cbn in IH |- *. now rewrite <- IH.
  - destruct (Py.is_cont d); cbn in IH |- *; now rewrite <- IH.
Qed.

Lemma lstrip_list_tail {A : Type} (p : A -> bool) (l : list A) :
  exists a, l = (a ++ Py.lstrip_list p l)%list.
Proof.
  induction l as [|x l (a & IH)]; [now exists []|].
  cbn [Py.lstrip_list]. destruct (p x).
  - exists (x :: a). cbn [app]. now f_equal.
  - now exists [].
Qed.

Lemma rstrip_list_head {A : Type} (p : A -> bool) (l : list A) :
  exists b, l = (Py.rstrip_list p l ++ b)%list.
Proof.
  induction l as [|x l (b & IH)]; [now exists []|].
  cbn [Py.rstrip_list]. destruct (Py.rstrip_list p l) as [|y r] eqn:E.
  - destruct (p x).
    + now exists (x :: l).
    + exists l. reflexivity.
  - exists b. cbn [app] in IH |- *. now f_equal.
Qed.

(** [strip()] cuts a piece out of the text. *)
Lemma strip_middle (s : string) : exists a b, s = a ++ Py.strip s ++ b.
Proof.
  unfold Py.strip.
  destruct (lstrip_list_tail Py.is_space (Py.chars s)) as (l1 & E1).
  destruct (rstrip_list_head Py.is_space (Py.lstrip_list Py.is_space (Py.chars s)))
    as (l2 & E2).
  exists (Py.flatten l1), (Py.flatten l2).
  rewrite <- !flatten_app, <- E2, <- E1. symmetry. apply flatten_chars.
Qed.

(** What [strip()] leaves was in the text. *)
Lemma contains_strip (w s : string) :
  Py.contains w (Py.strip s) = true -> Py.contains w s = true.
Proof.
  intros H. destruct (strip_middle s) as (a & b & E). rewrite E.
  now apply contains_append_r, contains_append_l.
Qed.

Lemma rstrip_drops (p : ascii -> bool) (x : ascii) (s : string) :
  p x = true -> Py.rstrip_by p (s ++ String x "") = Py.rstrip_by p s.
Proof.
  intros Hx. induction s as [|c s IH].
  - cbn. now rewrite Hx.
  - cbn [String.append Py.rstrip_by]. now rewrite IH.
Qed.

(** ** The thought log *)

Lemma split_once_skip (x : ascii) (w a rest : string) :
  Py.contains (String x "") a = false ->
  split_once (String x w) (a ++ String x w ++ rest) = Some (a, rest).
Proof.
  induction a as [|c a IH]; intros H.
  - cbn [String.append split_once].
    assert (P : String.prefix (String x w) (String x (w ++ rest)) = true)
      by apply (prefix_append (String x w) rest).
    rewrite P. f_equal. f_equal. cbn [String.length drop_chars].
    clear. induction w as [|c w IH]; [reflexivity | exact IH].
  - apply contains_char_cons in H as (N & H).
    cbn [String.append split_once String.prefix].
    destruct (ascii_dec x c) as [E|_]; [congruence|].
    cbn [String.append] in IH. now rewrite IH.
Qed.

Lemma marker_found (ts w rest : string) :
  String.prefix w rest = true -> Py.contains w (String "[" (ts ++ rest)) = true.
Proof. intros H. now apply contains_cons, contains_append_r, contains_prefix. Qed.

(** The reader on the format it expects. A line that, stripped, reads
    [[timestamp] TYPE: message], with one of the three types and a
    timestamp without a closing bracket, is read as that timestamp, the
    type in lower case and that message, whatever the message is. *)
Theorem thought_line_read_back (line ts ty msg : string) :
  Py.strip line = "[" ++ ts ++ "] " ++ ty ++ ": " ++ msg ->
  In ty ["ACTION"; "OBSERVATION"; "DECISION"] ->
  Py.contains "]" ts = false ->
  parse_thought_line line = Some (mkThought ts (Py.lower ty) msg).
Proof.
  intros Hl Hty Hts. unfold parse_thought_line. rewrite Hl.
  change ("[" ++ ts ++ "] " ++ ty ++ ": " ++ msg)
    with (String "[" (ts ++ "] " ++ ty ++ ": " ++ msg)).
  assert (M : Py.any_in thought_markers (String "[" (ts ++ "] " ++ ty ++ ": " ++ msg)) = true).
  { unfold Py.any_in, thought_markers. cbn [existsb].
    destruct Hty as [<-|[<-|[<-|[]]]].
    - now rewrite (marker_found ts "] ACTION:" ("] " ++ "ACTION" ++ ": " ++ msg) eq_refl).
    - rewrite (marker_found ts "] OBSERVATION:" ("] " ++ "OBSERVATION" ++ ": " ++ msg)
                 eq_refl).
      now rewrite orb_true_r.
    - rewrite (marker_found ts "] DECISION:" ("] " ++ "DECISION" ++ ": " ++ msg) eq_refl).
      now rewrite !orb_true_r. }
  cbn [Py.truthy andb]. rewrite M.
  change (String "[" (ts ++ "] " ++ ty ++ ": " ++ msg))
    with (String "[" ts ++ "] " ++ ty ++ ": " ++ msg).
  rewrite (split_once_skip "]" " " (String "[" ts) (ty ++ ": " ++ msg)).
  - change (Py.drop 1 (String "[" ts)) with ts.
    assert (S : split_once ": " (ty ++ ": " ++ msg) = Some (ty, msg)).
    { destruct Hty as [<-|[<-|[<-|[]]]];
        apply (split_once_skip ":" " "); reflexivity. }
    now rewrite S.
  - rewrite contains_cons_ne by discriminate. exact Hts.
Qed.

(** A line as the file gives it, with its line feed and a no-break
    space before it. *)
Lemma thought_line_read_back_witness :
  parse_thought_line ("[2025-08-23 02:40:37] OBSERVATION: the page shows a search box"
                      ++ Py.bytes [194; 160; 10])
  = Some (mkThought "2025-08-23 02:40:37" "observation" "the page shows a search box").
Proof.
  apply (thought_line_read_back _ "2025-08-23 02:40:37" "OBSERVATION"
           "the page shows a search box").
  - vm_compute. reflexivity.
  - right. left. reflexivity.
  - reflexivity.
Defined.

Lemma any_in_false_inv (w : string) (ws : list string) (s : string) :
  Py.any_in ws s = false -> In w ws -> Py.contains w s = false.
Proof.
  unfold Py.any_in. intros H Hin.
  destruct (Py.contains w s) eqn:E; [|reflexivity].
  assert (T : existsb (fun w0 => Py.contains w0 s) ws = true)
    by (apply existsb_exists; eauto).
  congruence.
Qed.

(** No marker of the reader occurs in a line of the writer: the icon
    stands between the bracket and the keyword. *)
Lemma marker_not_in_entry (w ts message : string) :
  In w thought_markers ->
  Py.contains "]" ts = false ->
  Py.contains w message = false ->
  Py.contains w (log_entry ts message) = false.
Proof.
  intros Hw Hts Hm. unfold log_entry.
  assert (Hnl : Py.contains w (message ++ "
") = false).
  { rewrite contains_absent_char; [exact Hm | |].
    - destruct Hw as [<-|[<-|[<-|[]]]]; reflexivity.
    - destruct Hw as [<-|[<-|[<-|[]]]]; discriminate. }
  assert (Hw' : exists w', w = String "]" (String " " w')
                           /\ (w' = "ACTION:" \/ w' = "OBSERVATION:" \/ w' = "DECISION:")).
  { destruct Hw as [<-|[<-|[<-|[]]]]; eexists; split; try reflexivity; auto. }
  destruct Hw' as (w' & -> & Hw').
  cbn [String.append]. rewrite contains_cons_ne by discriminate.
  rewrite contains_skip by exact Hts.
  unfold icon_of.
  repeat match goal with
         | |- context [if ?b then _ else _] => destruct b
         end;
    cbn [String.append]; rewrite contains_step;
    (replace (String.prefix _ _) with false
      by (destruct Hw' as [->|[->| ->]]; reflexivity));
    cbn [orb];
    repeat (rewrite contains_cons_ne by discriminate);
    exact Hnl.
Qed.

(** Writer and reader do not meet. A line written by [log_thought] is
    skipped by [load_agent_thoughts], whatever the message, as long as
    the message does not itself contain one of the reader's markers:
    the writer puts an icon between the bracket and the keyword. *)
Theorem logger_lines_not_read (ts message : string) :
  Py.contains "]" ts = false ->
  Py.any_in thought_markers message = false ->
  parse_thought_line (log_entry ts message) = None.
Proof.
  intros Hts Hm. unfold parse_thought_line.
  assert (F : Py.any_in thought_markers (Py.strip (log_entry ts message)) = false).
  { unfold Py.any_in. apply not_true_is_false. intros T.
    apply existsb_exists in T as (w & Hin & Hc).
    apply contains_strip in Hc.
    rewrite (marker_not_in_entry w ts message Hin Hts) in Hc; [discriminate|].
    now apply (any_in_false_inv w thought_markers). }
  rewrite F. now rewrite andb_false_r.
Qed.

Lemma logger_lines_not_read_witness :
  parse_thought_line (log_entry "2025-08-23 02:40:37" "ACTION: I am typing the query")
  = None.
Proof.
  apply (logger_lines_not_read "2025-08-23 02:40:37" "ACTION: I am typing the query");
    reflexivity.
Defined.

Lemma interaction_is_action (rest : string) :
  Py.contains "ACTION:" ("INTERACTION: " ++ rest) = true.
Proof. cbn [String.append]. do 5 apply contains_cons. now apply contains_prefix. Qed.

Lemma extraction_is_action (rest : string) :
  Py.contains "ACTION:" ("EXTRACTION: " ++ rest) = true.
Proof. cbn [String.append]. do 4 apply contains_cons. now apply contains_prefix. Qed.

(** The counters of the logger go by substring: [INTERACTION:] and
    [EXTRACTION:] end in [ACTION:], so every logged interaction and
    every logged extraction counts as an action, whether it succeeded or
    not, and never as a success or an error. *)
Theorem interactions_count_as_actions
    (ts element action data_type content : string) (ok : bool) (lg : AgentLogger) :
  let li := log_interaction ts element action ok lg in
  let le := log_extraction ts data_type content ok lg in
  action_count li = S (action_count lg)
  /\ success_count li = success_count lg
  /\ error_count li = error_count lg
  /\ action_count le = S (action_count lg)
  /\ success_count le = success_count lg
  /\ error_count le = error_count lg
  /\ length (written li) = S (length (written lg))
  /\ length (written le) = S (length (written lg)).
Proof.
  cbv zeta. unfold log_interaction, log_extraction, log_thought.
  rewrite interaction_is_action, extraction_is_action. cbn.
  rewrite !length_app. cbn. repeat split; lia.
Qed.

(** ** Compliance analysis, further *)

Lemma rstrip_slash_prefix (t suffix : string) :
  Py.startswith (t ++ suffix) (Py.rstrip_slash t) = true.
Proof.
  unfold Py.startswith, Py.rstrip_slash.
  destruct (rstrip_is_prefix Py.is_slash t) as (rest & E).
  remember (Py.rstrip_by Py.is_slash t) as p eqn:Hp. clear Hp.
  rewrite E, string_app_assoc. apply prefix_append.
Qed.

Lemma existsb_in {A : Type} (f : A -> bool) (l : list A) (x : A) :
  In x l -> f x = true -> existsb f l = true.
Proof. intros Hin Hf. apply existsb_exists. eauto. Qed.

Lemma navigation_found (target : string) (steps : list StepView) step actions a u :
  In step steps -> sv_actions step = Some actions -> In a actions ->
  a_type a = "navigate" -> d_url (a_details a) = Some u ->
  Py.startswith u (Py.rstrip_slash target) = true ->
  method_actions target steps = true.
Proof.
  intros Hs Ha Hin Ht Hu Hp. unfold method_actions.
  apply (existsb_in _ _ step Hs). unfold has_navigation. rewrite Ha.
  apply (existsb_in _ _ a Hin). unfold navigates_to. now rewrite Ht, Hu.
Qed.

(** A [navigate] action is enough. If some step, in either step list,
    lists a [navigate] action whose URL starts with the target URL
    (trailing slashes of the target dropped), the target counts as
    accessed, whatever the other steps and heuristics say; the target
    URL itself, with anything after it, is such a URL. *)
Theorem navigate_action_detected
    (urlparse_netloc : string -> Exc string) (env : AnalysisEnv)
    (er : ExecutionResults) (oi : Instructions) (r : ReviewReport)
    (step : StepView) (actions : list Action) (a : Action) (u : string) :
  analyze_results_direct urlparse_netloc env er oi = Ok r ->
  In step (er_enhanced_steps er ++ er_execution_steps er) ->
  sv_actions step = Some actions ->
  In a actions ->
  a_type a = "navigate" ->
  d_url (a_details a) = Some u ->
  (Py.startswith u (Py.rstrip_slash (target_url oi)) = true
   \/ exists suffix, u = target_url oi ++ suffix) ->
  target_url_accessed (compliance_check r) = true.
Proof.
  intros H Hs Ha Hin Ht Hu Hp.
  apply analyze_ok_inv in H as (accessed & Hacc & Hc & _). rewrite Hc. cbn.
  assert (P : Py.startswith u (Py.rstrip_slash (target_url oi)) = true).
  { destruct Hp as [P|(suffix & ->)]; [exact P | apply rstrip_slash_prefix]. }
  rewrite url_accessed_by_actions in Hacc; [congruence|].
  apply in_app_or in Hs as [Hs|Hs].
  - now rewrite (navigation_found _ _ step actions a u Hs Ha Hin Ht Hu P).
  - rewrite (navigation_found _ (er_execution_steps er) step actions a u Hs Ha Hin Ht Hu P).
    now rewrite orb_true_r.
Qed.

Lemma navigate_action_detected_witness :
  exists r,
    analyze_results_direct plain_netloc Sample.env
      (mkExecutionResults (Some "a") (Some true)
         [mkStepView (Some [mkAction "navigate"
                              (mkDetails (Some "https://x.com/") None None None None
                                         None None)])
                     None None None]
         [] [] None 0)
      (Sample.instructions "https://x.com" 0) = Ok r
    /\ target_url_accessed (compliance_check r) = true.
Proof.
  eexists. split; [reflexivity|].
  eapply (navigate_action_detected plain_netloc Sample.env
            (mkExecutionResults (Some "a") (Some true)
               [mkStepView (Some [mkAction "navigate"
                                    (mkDetails (Some "https://x.com/") None None None None
                                               None None)])
                           None None None]
               [] [] None 0)
            (Sample.instructions "https://x.com" 0) _ _ _ _ "https://x.com/" eq_refl).
  - left. reflexivity.
  - reflexivity.
  - left. reflexivity.
  - reflexivity.
  - reflexivity.
  - right. exists "/". reflexivity.
Defined.

(** Heuristics 1 and 2 do not see a trailing slash of the target. *)
Theorem trailing_slash_ignored (target : string) (steps : list StepView) :
  method_actions (target ++ "/") steps = method_actions target steps.
Proof.
  unfold method_actions. apply existsb_pointwise. intros step.
  unfold has_navigation. destruct (sv_actions step); [|reflexivity].
  apply existsb_pointwise. intros a. unfold navigates_to, Py.rstrip_slash.
  now rewrite rstrip_drops.
Qed.

(** Heuristic 4 looks for the words alone. A step whose action text
    contains [navigate] or [goto], in any letter case, makes every
    target URL count as accessed. *)
Theorem navigation_word_suffices
    (urlparse_netloc : string -> Exc string) (env : AnalysisEnv)
    (er : ExecutionResults) (oi : Instructions) (r : ReviewReport) (step : StepView) :
  analyze_results_direct urlparse_netloc env er oi = Ok r ->
  In step (er_execution_steps er) ->
  Py.any_in ["navigate"; "goto"] (Py.lower (get_text (sv_action step))) = true ->
  target_url_accessed (compliance_check r) = true.
Proof.
  intros H Hs Hw. apply analyze_ok_inv in H as (accessed & Hacc & Hc & _).
  rewrite Hc. cbn.
  assert (M : method_text (target_url oi) (er_execution_steps er) = true).
  { unfold method_text. apply (existsb_in _ _ step Hs).
    unfold Py.any_in in Hw. cbn [existsb] in Hw. rewrite orb_false_r in Hw.
    apply orb_true_iff in Hw as [-> | ->]; [reflexivity|].
    now rewrite orb_true_r. }
  apply url_accessed_inv in Hacc as [(_ & ->)|(_ & found & _ & ->)]; [reflexivity|].
  rewrite M. now rewrite !orb_true_r.
Qed.

Lemma navigation_word_suffices_witness :
  exists r,
    analyze_results_direct plain_netloc Sample.env
      (mkExecutionResults (Some "a") (Some true)
         [Sample.text_step "Could not NAVIGATE anywhere" "error"] [] [] None 0)
      (Sample.instructions "https://never-visited.example" 0) = Ok r
    /\ target_url_accessed (compliance_check r) = true.
Proof.
  eexists. split; [reflexivity|].
  eapply (navigation_word_suffices plain_netloc Sample.env
            (mkExecutionResults (Some "a") (Some true)
               [Sample.text_step "Could not NAVIGATE anywhere" "error"] [] [] None 0)
            (Sample.instructions "https://never-visited.example" 0) _ _ eq_refl).
  - left. reflexivity.
  - reflexivity.
Defined.

(** A target without a scheme has an empty host: the domain fallback
    then looks for the empty string, which any step contains. *)
Theorem empty_host_matches_any_step
    (urlparse_netloc : string -> Exc string) (env : AnalysisEnv)
    (er : ExecutionResults) (oi : Instructions) (r : ReviewReport) :
  analyze_results_direct urlparse_netloc env er oi = Ok r ->
  target_url oi <> "" ->
  urlparse_netloc (target_url oi) = Ok "" ->
  er_execution_steps er <> [] ->
  target_url_accessed (compliance_check r) = true.
Proof.
  intros H Ht Hn Hs. apply analyze_ok_inv in H as (accessed & Hacc & Hc & _).
  rewrite Hc. cbn.
  apply url_accessed_inv in Hacc as [(_ & ->)|(_ & found & _ & ->)]; [reflexivity|].
  unfold method_domain. rewrite Hn.
  destruct (target_url oi) as [|c t]; [congruence|].
  destruct (er_execution_steps er) as [|s rest]; [congruence|].
  cbn [Py.truthy andb existsb Py.lower]. rewrite contains_empty.
  now rewrite !orb_true_r.
Qed.

Lemma empty_host_matches_any_step_witness :
  exists r,
    analyze_results_direct plain_netloc Sample.env Sample.one_click
                           (Sample.instructions "never-visited.example" 0) = Ok r
    /\ target_url_accessed (compliance_check r) = true.
Proof.
  eexists. split; [reflexivity|].
  apply (empty_host_matches_any_step plain_netloc Sample.env Sample.one_click
           (Sample.instructions "never-visited.example" 0) _ eq_refl);
    [discriminate | reflexivity | discriminate].
Defined.

(** Without steps nothing is detected, whatever the target and whatever
    parsing it gives, and the report says so. *)
Theorem no_steps_not_accessed
    (urlparse_netloc : string -> Exc string) (env : AnalysisEnv)
    (er : ExecutionResults) (oi : Instructions) (r : ReviewReport) :
  analyze_results_direct urlparse_netloc env er oi = Ok r ->
  er_execution_steps er = [] ->
  er_enhanced_steps er = [] ->
  target_url_accessed (compliance_check r) = false
  /\ In ("Target URL " ++ target_url oi ++ " may not have been properly accessed")
        (recommendations r).
Proof.
  intros H Hx Hn. apply analyze_ok_inv in H as (accessed & Hacc & Hc & _ & Hr & _).
  assert (A : accessed = false).
  { unfold url_accessed, method_domain in Hacc. rewrite Hx, Hn in Hacc. cbn in Hacc.
    destruct (urlparse_netloc (target_url oi)); rewrite andb_false_r in Hacc;
      congruence. }
  rewrite Hc, Hr, A. cbn. split; [reflexivity|].
  unfold build_recommendations, when. cbn [negb].
  destruct (er_success er); cbn [negb app]; [left | right; left]; reflexivity.
Qed.

Lemma no_steps_not_accessed_witness :
  exists r,
    analyze_results_direct plain_netloc Sample.env Sample.no_steps
                           (Sample.instructions "https://x.com/" 0) = Ok r
    /\ target_url_accessed (compliance_check r) = false.
Proof.
  run_analysis r E.
  apply (no_steps_not_accessed plain_netloc Sample.env Sample.no_steps
           (Sample.instructions "https://x.com/" 0) r E eq_refl eq_refl).
Defined.

(** Decides whether one of the messages is in an explicit list of them. *)
Ltac message_in :=
  cbn -[String.append Py.str_nat];
  split;
  [ intros F;
    repeat (destruct F as [F|F];
            [first [ reflexivity
                   | exfalso; exact (accessed_not_the_warning _ F)
                   | exfalso; symmetry in F; exact (accessed_not_the_warning _ F)
                   | exfalso; simpl in F; discriminate F ] | ]);
    first [ contradiction | reflexivity ]
  | intros F; first [ discriminate F | tauto ] ].

Lemma meets_iff_not_missing (oi : Instructions) (er : ExecutionResults) :
  meets_requirements (check_screenshots er oi)
  = negb ((0 <? length (screenshot_instructions oi))
          && (length (er_screenshots er) <? length (screenshot_instructions oi))).
Proof.
  unfold check_screenshots. cbn [meets_requirements].
  destruct (screenshot_instructions oi) as [|i l]; [reflexivity|].
  change (0 <? length (i :: l)) with true. cbn [andb].
  now rewrite Nat.ltb_antisym, negb_involutive.
Qed.

(** The three warnings say what the verdict says: the failure message
    is in the list exactly when the run did not succeed, the URL warning
    exactly when the target does not count as accessed, the screenshot
    warning exactly when the screenshot requirement is not met. *)
Theorem warnings_match_verdict
    (urlparse_netloc : string -> Exc string) (env : AnalysisEnv)
    (er : ExecutionResults) (oi : Instructions) (r : ReviewReport) :
  analyze_results_direct urlparse_netloc env er oi = Ok r ->
  (In "Task execution failed - check error logs" (recommendations r)
   <-> sum_success (execution_summary r) = false)
  /\ (In ("Target URL " ++ target_url oi ++ " may not have been properly accessed")
         (recommendations r)
      <-> target_url_accessed (compliance_check r) = false)
  /\ (In "Not all required screenshots were captured" (recommendations r)
      <-> meets_requirements (screenshots_captured (compliance_check r)) = false).
Proof.
  intros H. apply analyze_ok_inv in H as (accessed & _ & Hc & Hs & Hr & _).
  rewrite Hc, Hs, Hr. cbn [sum_success target_url_accessed screenshots_captured].
  rewrite meets_iff_not_missing.
  unfold build_recommendations, when, rec_failed, rec_not_accessed,
    rec_missing_screenshots, rec_completed, rec_accessed, rec_captured, rec_steps.
  destruct (er_success er), accessed,
    ((0 <? length (screenshot_instructions oi))
     && (length (er_screenshots er) <? length (screenshot_instructions oi))),
    (0 <? length (er_screenshots er)), (0 <? length (er_execution_steps er));
    (split; [|split]); message_in.
Qed.

Lemma warnings_match_verdict_witness :
  exists r,
    analyze_results_direct plain_netloc Sample.env (Sample.visited 2)
                           (Sample.instructions "https://x.com" 3) = Ok r
    /\ In "Not all required screenshots were captured" (recommendations r).
Proof.
  eexists. split; [reflexivity|].
  apply (proj2 (proj2 (warnings_match_verdict plain_netloc Sample.env (Sample.visited 2)
                         (Sample.instructions "https://x.com" 3) _ eq_refl))).
  reflexivity.
Defined.

(** A report always recommends something, and never more than five
    things: a run is either not successful (failure message), or
    successful without the URL (warning), or successful with it
    (confirmation). *)
Theorem recommendations_bounds
    (urlparse_netloc : string -> Exc string) (env : AnalysisEnv)
    (er : ExecutionResults) (oi : Instructions) (r : ReviewReport) :
  analyze_results_direct urlparse_netloc env er oi = Ok r ->
  1 <= length (recommendations r) <= 5.
Proof.
  intros H. apply analyze_ok_inv in H as (accessed & _ & _ & _ & Hr & _). rewrite Hr.
  unfold build_recommendations, when.
  destruct (er_success er), accessed,
    ((0 <? length (screenshot_instructions oi))
     && (length (er_screenshots er) <? length (screenshot_instructions oi))),
    (0 <? length (er_screenshots er)), (0 <? length (er_execution_steps er));
    cbn [negb app length]; lia.
Qed.

Lemma recommendations_bounds_witness :
  exists r,
    analyze_results_direct plain_netloc Sample.env (Sample.visited 2)
                           (Sample.instructions "https://x.com" 3) = Ok r
    /\ 1 <= length (recommendations r) <= 5.
Proof.
  eexists. split; [reflexivity|].
  apply (recommendations_bounds plain_netloc Sample.env (Sample.visited 2)
           (Sample.instructions "https://x.com" 3) _ eq_refl).
Defined.

(** ** The endpoint, further *)


(** ** Trace normalisation, further *)

Lemma tuple_screenshots_tidy env filename items w :
  tidy w -> tidy (tuple_screenshots env filename items w).
Proof.
  revert w. induction items as [|item rest IH]; intros w T; simpl; [exact T|].
  destruct (item_screenshot item) as [shot|]; [|now apply IH].
  destruct (shot_truthy shot); [|now apply IH].
  destruct (save_item_screenshot env (screenshot_path filename) shot) as [e|];
    destruct w as [[si es] rs]; [apply IH; exact T | reflexivity].
Qed.

Lemma attr_screenshots_tidy env filename attrs w :
  tidy w -> tidy (attr_screenshots env filename attrs w).
Proof.
  revert w. induction attrs as [|attr rest IH]; intros w T; simpl; [exact T|].
  destruct attr as [shot|]; [|now apply IH].
  destruct (shot_truthy shot); [|now apply IH].
  destruct (save_attr_screenshot env (screenshot_path filename) shot) as [e|];
    destruct w as [[si es] rs]; [apply IH; exact T | reflexivity].
Qed.

Lemma process_tuple_tidy env ts k items rs : tidy (process_tuple env ts k items rs).
Proof.
  unfold process_tuple.
  match goal with
  | |- context [let '(a, b) := ?x in _] => destruct x as [si es] eqn:E
  end.
  apply tuple_screenshots_tidy. unfold tidy. cbn.
  destruct items as [|i0 [|i1 rest]]; injection E as <- <-; reflexivity.
Qed.

Lemma process_loose_tidy env k o rs : tidy (process_loose env k o rs).
Proof.
  unfold process_loose.
  destruct (first_present (action_attrs o)), (first_present (result_attrs o));
    apply attr_screenshots_tidy; reflexivity.
Qed.

Lemma process_agent_history_tidy env ts k raw_actions result shot rs w :
  process_agent_history env ts k raw_actions result shot rs = Ok w -> tidy w.
Proof.
  unfold process_agent_history.
  destruct (mapM extract_action raw_actions) as [actions|msg]; [|discriminate].
  cbn [bind].
  destruct shot as [shot|]; [destruct (shot_truthy shot)|];
    [destruct (save_state_screenshot env _ shot)| |];
    intros [= <-]; reflexivity.
Qed.

Lemma enhance_facts si es k ts actions :
  let e := enhance_step_with_thoughts si es k ts actions in
  si_step_number (fst e) = si_step_number si
  /\ es_step_number (snd e) = es_step_number es
  /\ si_action (fst e) = es_action_summary (snd e)
  /\ si_thoughts (fst e) = es_thoughts (snd e)
  /\ si_screenshot_url (fst e) = si_screenshot_url si
  /\ es_screenshot_url (snd e) = es_screenshot_url es.
Proof. cbv zeta. repeat split; reflexivity. Qed.

(** One turn of the loop, in full: the two records appended agree, the
    conversation grows by the entry of the step, and the screenshot
    lists grow by the file of the step or not at all. *)
Lemma process_step_inv env ts k step rs rs' :
  process_step env ts k step rs = Ok rs' ->
  exists si es,
    execution_steps rs' = (execution_steps rs ++ [si])%list
    /\ enhanced_steps rs' = (enhanced_steps rs ++ [es])%list
    /\ agree si es
    /\ si_step_number si = k
    /\ res_task_id rs' = res_task_id rs
    /\ full_conversation rs' = (full_conversation rs ++ conversation_of [si])%list
    /\ ((screenshots rs' = screenshots rs /\ screenshot_urls rs' = screenshot_urls rs)
        \/ (screenshots rs'
            = (screenshots rs
               ++ [screenshot_path (step_file env (res_task_id rs) k)])%list
            /\ screenshot_urls rs'
               = (screenshot_urls rs
                  ++ [screenshot_url (step_file env (res_task_id rs) k)])%list)).
Proof.
  intros H. unfold process_step in H.
  assert (W : exists si0 es0 rs1,
             produces k (screenshot_filename env (res_task_id rs) k) rs (si0, es0, rs1)
             /\ tidy (si0, es0, rs1)
             /\ rs' = (let '(step_info, enhanced_step) :=
                         enhance_step_with_thoughts si0 es0 k ts None in
                       mkResults (res_task_id rs1)
                         (execution_steps rs1 ++ [step_info])%list
                         (screenshots rs1) (screenshot_urls rs1)
                         (res_success rs1) (res_error rs1)
                         (enhanced_steps rs1 ++ [enhanced_step])%list
                         (res_agent_thoughts rs1) (log_file rs1)
                         (if String.eqb (si_action step_info) "N/A"
                          then full_conversation rs1
                          else (full_conversation rs1
                                ++ [(k, si_action step_info)])%list))).
  { destruct step as [raw_actions result shot|items|o].
    - destruct (process_agent_history env ts k raw_actions result shot rs)
        as [[[si0 es0] rs1]|m] eqn:E; [|discriminate H].
      cbn [bind] in H. exists si0, es0, rs1.
      split; [now apply process_agent_history_produces in E|].
      split; [now apply process_agent_history_tidy in E|].
      cbv beta iota in H. injection H as H. symmetry. exact H.
    - cbn [bind] in H.
      pose proof (process_tuple_produces env ts k items rs) as P.
      pose proof (process_tuple_tidy env ts k items rs) as T.
      destruct (process_tuple env ts k items rs) as [[si0 es0] rs1].
      exists si0, es0, rs1. split; [exact P|]. split; [exact T|].
      cbv beta iota in H. injection H as H. symmetry. exact H.
    - cbn [bind] in H.
      pose proof (process_loose_produces env k o rs) as P.
      pose proof (process_loose_tidy env k o rs) as T.
      destruct (process_loose env k o rs) as [[si0 es0] rs1].
      exists si0, es0, rs1. split; [exact P|]. split; [exact T|].
      cbv beta iota in H. injection H as H. symmetry. exact H. }
  destruct W as (si0 & es0 & rs1 & (Hs & He & Ht & Hx & Hn & Hf & Hshots) & T & ->).
  cbn in Hs, He, Ht, Hx, Hn, Hf, Hshots. unfold tidy in T. cbn in T.
  pose proof (enhance_facts si0 es0 k ts None) as (F1 & F2 & F3 & F4 & F5 & F6).
  destruct (enhance_step_with_thoughts si0 es0 k ts None) as [si es].
  cbn [fst snd] in *.
  exists si, es.
  cbn [execution_steps enhanced_steps res_task_id full_conversation screenshots
       screenshot_urls].
  rewrite Hx, Hn, Hf. unfold step_file, agree, conversation_of. cbn [flat_map].
  repeat split; try congruence.
  - destruct (String.eqb (si_action si) "N/A"); [now rewrite app_nil_r|].
    now rewrite F1, Hs.
  - exact Hshots.
Qed.

Lemma filter_seq_from (f g : nat -> bool) (k m : nat) :
  (forall n, k <= n -> f n = g n) -> filter f (seq k m) = filter g (seq k m).
Proof.
  intros E. apply filter_ext_in. intros n Hn. apply in_seq in Hn. apply E. lia.
Qed.

(** What the loop leaves, from step [k] on. *)
Lemma process_steps_inv env ts k history rs :
  let rs' := fst (process_steps env ts k history rs) in
  let m := length (ok_prefix history) in
  exists sis ess f,
    execution_steps rs' = (execution_steps rs ++ sis)%list
    /\ enhanced_steps rs' = (enhanced_steps rs ++ ess)%list
    /\ Forall2 agree sis ess
    /\ full_conversation rs' = (full_conversation rs ++ conversation_of sis)%list
    /\ screenshots rs'
       = (screenshots rs
          ++ map (fun n => screenshot_path (step_file env (res_task_id rs) n))
                 (filter f (seq k m)))%list
    /\ screenshot_urls rs'
       = (screenshot_urls rs
          ++ map (fun n => screenshot_url (step_file env (res_task_id rs) n))
                 (filter f (seq k m)))%list.
Proof.
  revert k rs. induction history as [|step rest IH]; intros k rs; cbv zeta.
  - exists [], [], (fun _ => false). cbn. rewrite !app_nil_r. repeat split; constructor.
  - cbn [process_steps ok_prefix].
    destruct (step_raises step) as [msg|] eqn:R.
    + apply process_step_raises with (env := env) (ts := ts) (k := k) (rs := rs) in R.
      rewrite R. exists [], [], (fun _ => false). cbn. rewrite !app_nil_r.
      repeat split; constructor.
    + destruct (process_step_ok env ts k step rs R) as (rs1 & Hstep & _).
      rewrite Hstep.
      destruct (process_step_inv env ts k step rs rs1 Hstep)
        as (si & es & Hx & Hn & Ha & Hk & Ht & Hf & Hshots).
      destruct (IH (S k) rs1) as (sis & ess & f & Ix & In' & Ia & If & Is & Iu).
      cbv zeta in Ix, In', Ia, If, Is, Iu. rewrite Ht in Is, Iu.
      destruct Hshots as [[S0 U0]|[S1 U1]].
      * exists (si :: sis), (es :: ess), (fun n => if n =? k then false else f n).
        rewrite Ix, In', If, Is, Iu, Hx, Hn, Hf, S0, U0, <- !app_assoc.
        cbn [length seq filter]. rewrite Nat.eqb_refl.
        rewrite (filter_seq_from (fun n => if n =? k then false else f n) f (S k)
                   (length (ok_prefix rest))).
        -- unfold conversation_of. cbn [flat_map]. rewrite app_nil_r.
           repeat split; try reflexivity. constructor; assumption.
        -- intros n Hle. destruct (Nat.eqb_spec n k); [lia | reflexivity].
      * exists (si :: sis), (es :: ess), (fun n => if n =? k then true else f n).
        rewrite Ix, In', If, Is, Iu, Hx, Hn, Hf, S1, U1, <- !app_assoc.
        cbn [length seq filter]. rewrite Nat.eqb_refl.
        rewrite (filter_seq_from (fun n => if n =? k then true else f n) f (S k)
                   (length (ok_prefix rest))).
        -- unfold conversation_of. cbn [flat_map]. rewrite app_nil_r.
           repeat split; try reflexivity. constructor; assumption.
        -- intros n Hle. destruct (Nat.eqb_spec n k); [lia | reflexivity].
Qed.

(** The two step lists of a result tell one story: at every position the
    two records have the same step number, the same summary, the same
    screenshot URL and the same thoughts. *)
Theorem step_lists_agree
    (env : Env) (ts : list Thought) (history : list RawStep) (task_id : string) :
  Forall2 agree
          (execution_steps (save_execution_results env ts history task_id))
          (enhanced_steps (save_execution_results env ts history task_id)).
Proof.
  destruct (save_steps env ts history task_id) as (Hx & Hn & _).
  destruct (process_steps_inv env ts 1 history (new_results task_id ts))
    as (sis & ess & f & Ix & In' & Ia & _).
  rewrite Hx, Hn, Ix, In'. exact Ia.
Qed.

(** The conversation of a result has one entry for each emitted step
    whose final action text is not ["N/A"], in order, with the number
    and the text of that step. *)
Theorem conversation_follows_steps
    (env : Env) (ts : list Thought) (history : list RawStep) (task_id : string) :
  let r := save_execution_results env ts history task_id in
  full_conversation r = conversation_of (execution_steps r).
Proof.
  cbv zeta.
  destruct (save_steps env ts history task_id) as (Hx & _).
  destruct (process_steps_inv env ts 1 history (new_results task_id ts))
    as (sis & ess & f & Ix & _ & _ & If & _).
  assert (Hf : full_conversation (save_execution_results env ts history task_id)
               = full_conversation
                   (fst (process_steps env ts 1 history (new_results task_id ts)))).
  { unfold save_execution_results.
    destruct (process_steps env ts 1 history (new_results task_id ts)) as [rs raised].
    destruct (dump_log env); reflexivity. }
  rewrite Hf, Hx, If, Ix. reflexivity.
Qed.

(** The screenshots of a result are files of its steps: there are step
    numbers [ks], increasing and among those of the emitted steps, such
    that the paths are [operation_logs/screenshots/F] and the URLs
    [/screenshots/F] for the files [F] of these steps, in the same
    order. So there is at most one screenshot per emitted step. *)
Theorem screenshots_are_step_files
    (env : Env) (ts : list Thought) (history : list RawStep) (task_id : string) :
  let r := save_execution_results env ts history task_id in
  exists f : nat -> bool,
    let ks := filter f (seq 1 (length (enhanced_steps r))) in
    screenshots r
    = map (fun k => "operation_logs/screenshots/" ++ step_file env task_id k) ks
    /\ screenshot_urls r = map (fun k => "/screenshots/" ++ step_file env task_id k) ks
    /\ length (screenshots r) <= length (enhanced_steps r).
Proof.
  cbv zeta.
  destruct (save_steps env ts history task_id) as (_ & Hn & Hs & Hu & _).
  destruct (process_steps_inv env ts 1 history (new_results task_id ts))
    as (sis & ess & f & _ & _ & _ & _ & Is & Iu).
  destruct (process_steps_appends env ts 1 history (new_results task_id ts))
    as (_ & ess' & _ & In' & _ & Ie & _).
  assert (L : length (enhanced_steps (save_execution_results env ts history task_id))
              = length (ok_prefix history)).
  { rewrite Hn, In'. cbn. now rewrite <- (length_map es_step_number), Ie, length_seq. }
  exists f. cbv zeta. rewrite L, Hs, Hu, Is, Iu. cbn [new_results screenshots
    screenshot_urls res_task_id app].
  repeat split.
  rewrite length_map.
  etransitivity; [apply filter_length_le | now rewrite length_seq].
Qed.

(** *** The file system and the steps *)












(** The branch of the cascade a step takes. *)
Lemma process_step_work env ts k step rs rs' :
  process_step env ts k step rs = Ok rs' ->
  exists si0 es0 rs1,
    match step with
    | AgentHistory raw_actions result state_screenshot =>
        process_agent_history env ts k raw_actions result state_screenshot rs
    | TupleStep items => Ok (process_tuple env ts k items rs)
    | LooseStep o => Ok (process_loose env k o rs)
    end = Ok (si0, es0, rs1)
    /\ execution_steps rs'
       = (execution_steps rs
          ++ [fst (enhance_step_with_thoughts si0 es0 k ts None)])%list
    /\ enhanced_steps rs'
       = (enhanced_steps rs
          ++ [snd (enhance_step_with_thoughts si0 es0 k ts None)])%list.
Proof.
  unfold process_step. intros H.
  match type of H with
  | bind ?b _ = _ => destruct b as [[[si0 es0] rs1]|m] eqn:E; [|discriminate H]
  end.
  exists si0, es0, rs1. split; [reflexivity|].
  assert (P : produces k (screenshot_filename env (res_task_id rs) k) rs (si0, es0, rs1)).
  { destruct step as [raw_actions result shot|items|o].
    - now apply process_agent_history_produces in E.
    - injection E as E. rewrite <- E. apply process_tuple_produces.
    - injection E as E. rewrite <- E. apply process_loose_produces. }
  destruct P as (_ & _ & _ & Hx & Hn & _). cbn in Hx, Hn.
  cbn [bind] in H. cbv beta iota in H.
  destruct (enhance_step_with_thoughts si0 es0 k ts None) as [si es].
  injection H as <-. cbn. now rewrite Hx, Hn.
Qed.




(** *** Steps of the first shape *)

Lemma enhance_keeps_content si es k ts actions :
  let e := enhance_step_with_thoughts si es k ts actions in
  si_actions (fst e) = si_actions si
  /\ si_results (fst e) = si_results si
  /\ si_success (fst e) = si_success si
  /\ es_success_status (snd e) = es_success_status es
  /\ es_action_type (snd e) = es_action_type es.
Proof. cbv zeta. repeat split; reflexivity. Qed.

Lemma agent_history_work env ts k raw_actions result shot rs si0 es0 w :
  process_agent_history env ts k raw_actions result shot rs = Ok (si0, es0, w) ->
  exists actions,
    mapM extract_action raw_actions = Ok actions
    /\ si_actions si0 = Some actions
    /\ si_results si0 = Some (extract_results result)
    /\ si_success si0 = all_success (extract_results result)
    /\ es_success_status es0
       = (if all_success (extract_results result) then "success" else "failed").
Proof.
  unfold process_agent_history.
  destruct (mapM extract_action raw_actions) as [actions|msg]; [|discriminate].
  cbn [bind]. intros H. exists actions. split; [reflexivity|].
  destruct shot as [shot|]; [destruct (shot_truthy shot)|];
    [destruct (save_state_screenshot env _ shot)| |];
    injection H as <- <- _; repeat split.
Qed.

(** The two records emitted at position [length pre] of a history in
    which no step raises, in terms of the branch the step takes. *)
Lemma loop_at_both env ts task_id pre step post :
  first_raise (pre ++ step :: post) = None ->
  let rs1 := fst (process_steps env ts 1 pre (new_results task_id ts)) in
  let k := S (length pre) in
  let r := save_execution_results env ts (pre ++ step :: post) task_id in
  exists si0 es0 w,
    match step with
    | AgentHistory raw_actions result state_screenshot =>
        process_agent_history env ts k raw_actions result state_screenshot rs1
    | TupleStep items => Ok (process_tuple env ts k items rs1)
    | LooseStep o => Ok (process_loose env k o rs1)
    end = Ok (si0, es0, w)
    /\ nth_error (execution_steps r) (length pre)
       = Some (fst (enhance_step_with_thoughts si0 es0 k ts None))
    /\ nth_error (enhanced_steps r) (length pre)
       = Some (snd (enhance_step_with_thoughts si0 es0 k ts None)).
Proof.
  intros F rs1 k r.
  rewrite first_raise_app in F.
  destruct (first_raise pre) eqn:Hpre; [discriminate|].
  cbn [first_raise] in F.
  destruct (step_raises step) eqn:Hs; [discriminate|].
  destruct (process_step_ok env ts k step rs1 Hs) as (rs2 & Hstep & _).
  destruct (process_step_work env ts k step rs1 rs2 Hstep) as (si0 & es0 & w & B & X & N).
  exists si0, es0, w. split; [exact B|].
  destruct (save_steps env ts (pre ++ step :: post) task_id) as (Hx & Hn & _).
  fold r in Hx, Hn.
  rewrite process_steps_app in Hx, Hn by exact Hpre. fold rs1 in Hx, Hn.
  cbn [process_steps Nat.add] in Hx, Hn. fold k in Hx, Hn. rewrite Hstep in Hx, Hn.
  destruct (process_steps_appends env ts (S k) post rs2)
    as (sis & ess & Ix & In' & _).
  destruct (process_steps_appends env ts 1 pre (new_results task_id ts))
    as (sis1 & ess1 & Px & Pn & Ps & Pe & _).
  fold rs1 in Px, Pn. cbn [new_results execution_steps enhanced_steps app] in Px, Pn.
  rewrite (ok_prefix_all pre Hpre) in Ps, Pe.
  assert (L1 : length sis1 = length pre)
    by (rewrite <- (length_map si_step_number), Ps; apply length_seq).
  assert (L2 : length ess1 = length pre)
    by (rewrite <- (length_map es_step_number), Pe; apply length_seq).
  split.
  - rewrite Hx, Ix, X, Px, <- app_assoc, nth_error_app2 by lia.
    now rewrite L1, Nat.sub_diag.
  - rewrite Hn, In', N, Pn, <- app_assoc, nth_error_app2 by lia.
    now rewrite L2, Nat.sub_diag.
Qed.

Lemma all_success_results (result : list RawResult) :
  all_success (extract_results result)
  = forallb (fun rr => match extracted_content rr with
                       | Some _ => match result_success rr with
                                   | Some b => b
                                   | None => false
                                   end
                       | None => true
                       end)
            result.
Proof.
  unfold all_success, extract_results.
  induction result as [|rr rest IH]; [reflexivity|].
  cbn [flat_map forallb]. destruct (extracted_content rr); cbn; now rewrite IH.
Qed.

(** Success of a step of the first shape has to be said. In a history
    in which no step raises, such a step is a ["success"] exactly when
    every result it keeps (one with an [extracted_content] attribute)
    reports [success = True]; a kept result whose [success] is missing
    or [None] makes it ["failed"]. *)
Theorem step_success_has_to_be_said
    (env : Env) (ts : list Thought) (task_id : string)
    (pre : list RawStep) (raw_actions : list RawAction) (result : list RawResult)
    (shot : option Shot) (post : list RawStep) :
  let history := (pre ++ AgentHistory raw_actions result shot :: post)%list in
  let r := save_execution_results env ts history task_id in
  first_raise history = None ->
  exists si es,
    nth_error (execution_steps r) (length pre) = Some si
    /\ nth_error (enhanced_steps r) (length pre) = Some es
    /\ si_success si
       = forallb (fun rr => match extracted_content rr with
                            | Some _ => match result_success rr with
                                        | Some b => b
                                        | None => false
                                        end
                            | None => true
                            end)
                 result
    /\ es_success_status es = (if si_success si then "success" else "failed").
Proof.
  intros history r F.
  destruct (loop_at_both env ts task_id pre _ post F) as (si0 & es0 & w & B & X & N).
  apply agent_history_work in B as (actions & _ & _ & _ & Hs & Hst).
  do 2 eexists. split; [exact X|]. split; [exact N|].
  destruct (enhance_keeps_content si0 es0 (S (length pre)) ts None)
    as (_ & _ & E1 & E2 & _).
  cbv zeta in E1, E2. rewrite E1, E2, Hst, Hs. split; [apply all_success_results|].
  reflexivity.
Qed.

Lemma step_success_has_to_be_said_witness :
  exists es,
    nth_error (enhanced_steps
                 (save_execution_results Sample.fs []
                    [AgentHistory [Sample.navigate "https://x.com/"]
                                  [mkRawResult (Some (Some "Navigated to https://x.com/")) None
                                               None None]
                                  None] "task_1")) 0 = Some es
    /\ es_success_status es = "failed".
Proof.
  destruct (step_success_has_to_be_said Sample.fs [] "task_1" []
              [Sample.navigate "https://x.com/"]
              [mkRawResult (Some (Some "Navigated to https://x.com/")) None None None]
              None [] eq_refl) as (si & es & _ & Hn & Hs & Hst).
  exists es. split; [exact Hn|]. rewrite Hst, Hs. reflexivity.
Defined.

Lemma mapM_in {A B : Type} (f : A -> Exc B) (xs : list A) (ys : list B) (x : A) :
  mapM f xs = Ok ys -> In x xs -> exists y, f x = Ok y /\ In y ys.
Proof.
  revert ys. induction xs as [|a rest IH]; intros ys H Hin; [destruct Hin|].
  cbn [mapM] in H. destruct (f a) as [b|] eqn:Fa; [|discriminate].
  cbn [bind] in H. destruct (mapM f rest) as [bs|]; [|discriminate].
  cbn [bind] in H. injection H as <-.
  destruct Hin as [<-|Hin].
  - exists b. split; [exact Fa | now left].
  - destruct (IH bs eq_refl Hin) as (y & Hy & Hin'). exists y. split; [exact Hy | now right].
Qed.

(** From the agent's history to the verdict. If no step of the history
    raises and some step of the first shape has a [go_to_url] action
    whose URL starts with the target URL (trailing slashes dropped), then
    the analyser, given the normaliser's results, reports the target URL
    as accessed. *)
Theorem visit_found_from_history
    (urlparse_netloc : string -> Exc string) (aenv : AnalysisEnv)
    (env : Env) (ts : list Thought) (task_id : string)
    (pre : list RawStep) (raw_actions : list RawAction) (result : list RawResult)
    (shot : option Shot) (post : list RawStep)
    (raw : RawAction) (p : Params) (u : string)
    (oi : Instructions) (r : ReviewReport) :
  let history := (pre ++ AgentHistory raw_actions result shot :: post)%list in
  first_raise history = None ->
  In raw raw_actions -> go_to_url raw = Some p -> url p = Some u ->
  Py.startswith u (Py.rstrip_slash (target_url oi)) = true ->
  analyze_results_direct urlparse_netloc aenv
    (view_results (save_execution_results env ts history task_id)) oi = Ok r ->
  target_url_accessed (compliance_check r) = true.
Proof.
  intros history F Hin Hg Hu Hp Hr.
  apply analyze_ok_inv in Hr as (accessed & Hacc & -> & _). cbn [target_url_accessed].
  destruct (loop_at_both env ts task_id pre _ post F) as (si0 & es0 & w & B & X & _).
  apply agent_history_work in B as (actions & Hm & Ha & _).
  destruct (mapM_in _ _ _ raw Hm Hin) as (a & Hx & Hina).
  unfold extract_action in Hx. rewrite Hg, Hu in Hx. cbn in Hx. injection Hx as <-.
  assert (M : method_actions (target_url oi)
                (er_execution_steps
                   (view_results (save_execution_results env ts history task_id))) = true).
  { eapply (navigation_found (target_url oi) _
              (view_step_info
                 (fst (enhance_step_with_thoughts si0 es0 (S (length pre)) ts None)))
              actions _ u).
    - cbn [view_results er_execution_steps]. apply in_map.
      eapply nth_error_In. exact X.
    - cbn [view_step_info sv_actions].
      destruct (enhance_keeps_content si0 es0 (S (length pre)) ts None) as (E & _).
      cbv zeta in E. now rewrite E.
    - exact Hina.
    - reflexivity.
    - reflexivity.
    - exact Hp. }
  rewrite url_accessed_by_actions in Hacc; [congruence|].
  rewrite M. now rewrite orb_true_r.
Qed.

Lemma visit_found_from_history_witness :
  exists r,
    analyze_results_direct plain_netloc Sample.env
      (view_results (save_execution_results Sample.fs []
                       [AgentHistory [Sample.navigate "https://x.com/shop"] [] None] "task_1"))
      (Sample.instructions "https://x.com/" 0) = Ok r
    /\ target_url_accessed (compliance_check r) = true.
Proof.
  run_analysis r E.
  eapply (visit_found_from_history plain_netloc Sample.env Sample.fs [] "task_1" []
            [Sample.navigate "https://x.com/shop"] [] None []
            (Sample.navigate "https://x.com/shop") _ "https://x.com/shop"
            (Sample.instructions "https://x.com/" 0) r eq_refl).
  - now left.
  - reflexivity.
  - reflexivity.
  - reflexivity.
  - exact E.
Defined.

(** *** Which thoughts a step is given *)

Lemma thought_window_first (ts : list Thought) : thought_window ts 1 = ts.
Proof.
  rewrite thought_window_eq. cbn [Nat.sub Nat.mul skipn].
  apply firstn_all2. unfold thoughts_per_step.
  destruct ts as [|t ts]; [cbn; lia|].
  change (Nat.max 1 1) with 1. rewrite Nat.div_1_r. lia.
Qed.

Lemma thought_window_beyond (ts : list Thought) (k : nat) :
  length ts < k -> thought_window ts k = [].
Proof.
  intros Hk. rewrite thought_window_eq.
  destruct ts as [|t ts]; [now destruct ((k - 1) * thoughts_per_step [] k)|].
  rewrite thoughts_per_step_nonempty by (try discriminate; lia).
  rewrite Nat.div_small by exact Hk. change (Nat.max 1 0) with 1.
  rewrite skipn_all2 by lia. reflexivity.
Qed.

Lemma enhance_thoughts_window si es k ts :
  es_thoughts (snd (enhance_step_with_thoughts si es k ts None))
  = Some (mkStepThoughts (messages_of "action" (thought_window ts k))
                         (messages_of "observation" (thought_window ts k))
                         (messages_of "decision" (thought_window ts k))).
Proof.
  unfold enhance_step_with_thoughts. cbn [snd es_thoughts logged flat_map].
  now rewrite !app_nil_r.
Qed.

Lemma step_thoughts_at env ts task_id history k es :
  first_raise history = None ->
  nth_error (enhanced_steps (save_execution_results env ts history task_id)) k = Some es ->
  es_thoughts es
  = Some (mkStepThoughts (messages_of "action" (thought_window ts (S k)))
                         (messages_of "observation" (thought_window ts (S k)))
                         (messages_of "decision" (thought_window ts (S k)))).
Proof.
  intros F Hn.
  assert (Hk : k < length history).
  { assert (Hn' : nth_error (enhanced_steps
                                (save_execution_results env ts history task_id)) k <> None)
      by congruence.
    apply nth_error_Some in Hn'. clear Hn. rename Hn' into Hn.
    destruct (save_steps env ts history task_id) as (_ & Hx & _). rewrite Hx in Hn.
    destruct (process_steps_appends env ts 1 history (new_results task_id ts))
      as (sis & ess & _ & Pn & _ & Pe & _).
    rewrite Pn in Hn. cbn [new_results enhanced_steps app] in Hn.
    rewrite (ok_prefix_all history F) in Pe.
    rewrite <- (length_map es_step_number), Pe, length_seq in Hn. exact Hn. }
  destruct (nth_error history k) as [step|] eqn:Hs;
    [|apply nth_error_None in Hs; lia].
  apply nth_error_split in Hs as (pre & post & -> & <-).
  destruct (loop_at_both env ts task_id pre step post F) as (si0 & es0 & w & _ & _ & N).
  rewrite N in Hn. injection Hn as <-. apply enhance_thoughts_window.
Qed.

(** The first step is given every thought of the run: in a history in
    which no step raises, the thoughts of step 1 are all the thoughts
    loaded, by type. *)
Theorem first_step_given_every_thought
    (env : Env) (ts : list Thought) (task_id : string)
    (history : list RawStep) (es : EnhancedStep) :
  first_raise history = None ->
  nth_error (enhanced_steps (save_execution_results env ts history task_id)) 0 = Some es ->
  es_thoughts es = Some (mkStepThoughts (messages_of "action" ts)
                                        (messages_of "observation" ts)
                                        (messages_of "decision" ts)).
Proof.
  intros F Hn. rewrite (step_thoughts_at env ts task_id history 0 es F Hn).
  now rewrite thought_window_first.
Qed.

Lemma first_step_given_every_thought_witness :
  exists es,
    nth_error (enhanced_steps
                 (save_execution_results Sample.fs (Sample.thoughts 7)
                    (Sample.blank_steps 3) "task_1")) 0 = Some es
    /\ es_thoughts es
       = Some (mkStepThoughts (messages_of "action" (Sample.thoughts 7))
                              (messages_of "observation" (Sample.thoughts 7))
                              (messages_of "decision" (Sample.thoughts 7))).
Proof.
  eexists. split; [reflexivity|].
  apply (first_step_given_every_thought Sample.fs (Sample.thoughts 7) "task_1"
           (Sample.blank_steps 3) _ eq_refl eq_refl).
Defined.

(** Steps beyond the thoughts get none: in a history in which no step
    raises, a step whose number is greater than the number of thoughts
    loaded has three empty thought lists. *)
Theorem late_steps_get_no_thoughts
    (env : Env) (ts : list Thought) (task_id : string)
    (history : list RawStep) (k : nat) (es : EnhancedStep) :
  first_raise history = None ->
  nth_error (enhanced_steps (save_execution_results env ts history task_id)) k = Some es ->
  length ts <= k ->
  es_thoughts es = Some (mkStepThoughts [] [] []).
Proof.
  intros F Hn Hk. rewrite (step_thoughts_at env ts task_id history k es F Hn).
  rewrite thought_window_beyond by lia. reflexivity.
Qed.

Lemma late_steps_get_no_thoughts_witness :
  exists es,
    nth_error (enhanced_steps
                 (save_execution_results Sample.fs (Sample.thoughts 2)
                    (Sample.blank_steps 4) "task_1")) 2 = Some es
    /\ es_thoughts es = Some (mkStepThoughts [] [] []).
Proof.
  eexists. split; [reflexivity|].
  apply (late_steps_get_no_thoughts Sample.fs (Sample.thoughts 2) "task_1"
           (Sample.blank_steps 4) 2 _ eq_refl eq_refl).
  cbn. lia.
Defined.

Lemma enhance_summary_fallback si es k ts :
  thought_window ts k = [] ->
  es_action_summary (snd (enhance_step_with_thoughts si es k ts None)) = si_action si.
Proof. intros W. unfold enhance_step_with_thoughts. rewrite W. reflexivity. Qed.

Lemma agent_history_logged env ts k raw_actions result shot rs si0 es0 w actions m rest :
  process_agent_history env ts k raw_actions result shot rs = Ok (si0, es0, w) ->
  mapM extract_action raw_actions = Ok actions ->
  thought_window ts k = [] ->
  logged "log_action" actions = m :: rest ->
  si_action si0 = m.
Proof.
  unfold process_agent_history. intros H Hm W L. rewrite Hm in H. cbn [bind] in H.
  destruct shot as [shot|]; [destruct (shot_truthy shot)|];
    [destruct (save_state_screenshot env _ shot)| |];
    injection H as <- _ _; unfold enhance_step_with_thoughts; rewrite W;
    cbn [messages_of filter map app]; rewrite L; reflexivity.
Qed.

(** What a step logs about itself. A step of the first shape whose
    number is greater than the number of thoughts loaded, and whose own
    actions log a message with [log_action], keeps the first such
    message as its summary and loses it from its thoughts: the second
    call of [enhance_step_with_thoughts], made without the actions,
    rebuilds the thoughts from the thought list alone. *)
Theorem logged_action_kept_as_summary_only
    (env : Env) (ts : list Thought) (task_id : string)
    (pre : list RawStep) (raw_actions : list RawAction) (result : list RawResult)
    (shot : option Shot) (post : list RawStep)
    (actions : list Action) (m : string) (rest : list string) :
  let history := (pre ++ AgentHistory raw_actions result shot :: post)%list in
  let r := save_execution_results env ts history task_id in
  first_raise history = None ->
  length ts <= length pre ->
  mapM extract_action raw_actions = Ok actions ->
  logged "log_action" actions = m :: rest ->
  exists es,
    nth_error (enhanced_steps r) (length pre) = Some es
    /\ es_action_summary es = m
    /\ es_thoughts es = Some (mkStepThoughts [] [] []).
Proof.
  intros history r F Hk Hm L.
  destruct (loop_at_both env ts task_id pre _ post F) as (si0 & es0 & w & B & _ & N).
  assert (W : thought_window ts (S (length pre)) = [])
    by (apply thought_window_beyond; lia).
  eexists. split; [exact N|]. split.
  - rewrite (enhance_summary_fallback _ _ _ _ W).
    exact (agent_history_logged _ _ _ _ _ _ _ _ _ _ _ _ _ B Hm W L).
  - rewrite enhance_thoughts_window, W. reflexivity.
Qed.

Lemma logged_action_kept_as_summary_only_witness :
  exists es,
    nth_error (enhanced_steps
                 (save_execution_results Sample.fs []
                    [AgentHistory
                       [mkRawAction None None None
                          (Some (mkParams "LogAction" None None None (Some "Opening the cart") None
                                          None None))
                          None None None None None]
                       [] None] "task_1")) 0 = Some es
    /\ es_action_summary es = "Opening the cart"
    /\ es_thoughts es = Some (mkStepThoughts [] [] []).
Proof.
  apply (logged_action_kept_as_summary_only Sample.fs [] "task_1" []
           [mkRawAction None None None
              (Some (mkParams "LogAction" None None None (Some "Opening the cart") None None None))
              None None None None None]
           [] None []
           [mkAction "log_action"
                     (mkDetails None None None (Some "Opening the cart") None None None)]
           "Opening the cart" []).
  - reflexivity.
  - cbn. lia.
  - reflexivity.
  - reflexivity.
Defined.

(** *** The text classifiers together *)

Lemma prefix_drop_head (a b s : string) :
  String.prefix (a ++ b) s = true -> Py.contains b s = true.
Proof.
  revert s. induction a as [|c a IH]; intros s H.
  - now apply contains_prefix.
  - destruct s as [|d s]; [discriminate|].
    cbn [String.append String.prefix] in H.
    destruct (ascii_dec c d); [|discriminate].
    apply contains_cons, IH, H.
Qed.

(** A text that holds [a ++ b] holds [b]. *)
Lemma contains_drop_head (a b s : string) :
  Py.contains (a ++ b) s = true -> Py.contains b s = true.
Proof.
  induction s as [|c s IH]; intros H.
  - cbn [Py.contains] in H. rewrite orb_false_r in H. now apply (prefix_drop_head a).
  - rewrite contains_step in H. apply orb_true_iff in H as [H|H].
    + now apply (prefix_drop_head a).
    + apply contains_cons, IH, H.
Qed.

(** The two readings of one result agree on failure: a result that
    [determine_success_status] classes as ["failed"] is one that
    [parse_result_details] flags as containing errors. *)
Theorem failed_status_flags_errors (result_data : string) :
  determine_success_status result_data = "failed" ->
  rd_contains_errors (parse_result_details result_data) = Some true.
Proof.
  unfold determine_success_status, parse_result_details.
  destruct (absent result_data); [discriminate|]. cbv zeta.
  destruct (Py.any_in success_words (Py.lower result_data)) eqn:S; [discriminate|].
  destruct (Py.any_in failure_words (Py.lower result_data)) eqn:F.
  - intros _. cbn [rd_contains_errors]. f_equal.
    unfold Py.any_in, success_words in S. cbn [existsb] in S.
    apply orb_false_iff in S as (_ & S). apply orb_false_iff in S as (_ & S).
    apply orb_false_iff in S as (_ & S). apply orb_false_iff in S as (S & _).
    unfold Py.any_in, failure_words, error_words in *. cbn [existsb] in *.
    destruct (Py.contains "failed" (Py.lower result_data)); [now rewrite orb_true_r|].
    destruct (Py.contains "error" (Py.lower result_data)); [reflexivity|].
    destruct (Py.contains "exception" (Py.lower result_data)); [reflexivity|].
    destruct (Py.contains "timeout" (Py.lower result_data)); [reflexivity|].
    cbn [orb] in F. rewrite orb_false_r in F.
    apply (contains_drop_head "not " "found") in F. congruence.
  - repeat match goal with
           | |- context [if ?b then _ else _] => destruct b
           end; discriminate.
Qed.

Lemma failed_status_flags_errors_witness :
  rd_contains_errors (parse_result_details "Timeout while loading the page") = Some true.
Proof.
  apply (failed_status_flags_errors "Timeout while loading the page"). reflexivity.
Defined.

Lemma take_len (n : nat) (s : string) : Py.len (Py.take n s) <= n.
Proof.
  revert n. induction s as [|c s IH]; intros n; cbn [Py.take Py.len]; [lia|].
  destruct (Py.is_cont c) eqn:C.
  - cbn [Py.len]. rewrite C. apply IH.
  - destruct n as [|n]; cbn [Py.len]; [lia|]. rewrite C. specialize (IH n). lia.
Qed.

Lemma len_app (a b : string) : Py.len (a ++ b) = Py.len a + Py.len b.
Proof.
  induction a as [|c a IH]; cbn [String.append Py.len]; [reflexivity|].
  destruct (Py.is_cont c); lia.
Qed.

Lemma truncate60_len (s : string) : Py.len (truncate60 s) <= 63.
Proof.
  unfold truncate60. destruct (60 <? Py.len s) eqn:E.
  - rewrite len_app. pose proof (take_len 60 s). change (Py.len "...") with 3. lia.
  - apply Nat.ltb_ge in E. lia.
Qed.

(** The summaries are short: whatever the text, neither summary has
    more than 63 characters (60 of the first line, and the dots), the
    characters counted as [len] counts them. *)
Theorem summaries_are_short (data : string) :
  Py.len (extract_action_summary data) <= 63
  /\ Py.len (extract_result_summary data) <= 63.
Proof.
  pose proof (truncate60_len (Py.strip (Py.first_line data))) as T.
  unfold extract_action_summary, extract_result_summary. cbv zeta.
  split;
    repeat match goal with
           | |- context [if ?b then _ else _] => destruct b
           end; try exact T; vm_compute; lia.
Qed.

Lemma lower_app (a b : string) : Py.lower (a ++ b) = Py.lower a ++ Py.lower b.
Proof. induction a as [|c a IH]; cbn; [reflexivity | now rewrite IH]. Qed.

Lemma first_line_is_prefix (s : string) : exists t, s = Py.first_line s ++ t.
Proof.
  induction s as [|c s (t & IH)]; [now exists ""|].
  cbn [Py.first_line]. destruct (Ascii.eqb c "010"%char).
  - now exists (String c s).
  - exists t. cbn [String.append]. now f_equal.
Qed.

(** What the lowered, stripped first line holds, the lowered text holds. *)
Lemma first_line_in_text (w s : string) :
  Py.contains w (Py.lower (Py.strip (Py.first_line s))) = true ->
  Py.contains w (Py.lower s) = true.
Proof.
  intros H.
  destruct (first_line_is_prefix s) as (t & Es).
  destruct (strip_middle (Py.first_line s)) as (a & b & Ea).
  rewrite Es, Ea, !lower_app.
  apply contains_append_l, contains_append_r, contains_append_l, H.
Qed.

(** Summary and type agree on navigation: a text whose first line
    mentions [navigate] or [goto], in any case, is summarised as
    ["Navigating to webpage"] and typed ["navigation"]. *)
Theorem navigation_summary_and_type (action_data : string) :
  let l := Py.lower (Py.strip (Py.first_line action_data)) in
  Py.contains "navigate" l || Py.contains "goto" l = true ->
  extract_action_summary action_data = "Navigating to webpage"
  /\ classify_action_type action_data = "navigation".
Proof.
  intros l H.
  assert (A : absent action_data = false).
  { unfold absent. destruct action_data as [|c s]; [discriminate H|].
    cbn [Py.truthy negb orb].
    destruct (String.eqb (String c s) "N/A") eqn:E; [|reflexivity].
    apply String.eqb_eq in E. subst l. rewrite E in H. discriminate H. }
  unfold extract_action_summary, classify_action_type. rewrite A. cbv zeta.
  fold l. rewrite H. split; [reflexivity|].
  assert (N : Py.any_in ["navigate"; "goto"; "visit"] (Py.lower action_data) = true).
  { unfold Py.any_in. cbn [existsb].
    apply orb_true_iff in H as [H|H]; apply first_line_in_text in H; rewrite H;
      [reflexivity | now rewrite orb_true_r]. }
  now rewrite N.
Qed.

Lemma navigation_summary_and_type_witness :
  extract_action_summary "GoTo https://x.com, then click on Sign in" = "Navigating to webpage"
  /\ classify_action_type "GoTo https://x.com, then click on Sign in" = "navigation".
Proof.
  apply (navigation_summary_and_type "GoTo https://x.com, then click on Sign in").
  reflexivity.
Defined.

(** *** From the run to the screenshot verdict *)

Lemma saved_screenshots_bound env ts history task_id :
  length (screenshots (save_execution_results env ts history task_id)) <= length history.
Proof.
  destruct (save_steps env ts history task_id) as (_ & _ & Hs & _).
  destruct (process_steps_inv env ts 1 history (new_results task_id ts))
    as (sis & ess & f & _ & _ & _ & _ & Is & _).
  rewrite Hs, Is. cbn [new_results screenshots app]. rewrite length_map.
  etransitivity; [apply filter_length_le|]. rewrite length_seq. apply ok_prefix_length.
Qed.

Lemma add_manual_length shot rs :
  length (screenshots (add_manual shot rs)) <= S (length (screenshots rs)).
Proof.
  unfold add_manual. destruct shot as [[path u]|]; [destruct (Py.truthy path)|];
    cbn [screenshots]; rewrite ?length_app; cbn [length]; lia.
Qed.

(** A task that asks for more screenshots than the run has steps, plus
    the two manual ones, is never found compliant: whatever was saved,
    the analysis of what [execute_task] returns says that the
    screenshot requirements are not met, and recommends accordingly. *)
Theorem too_many_screenshots_required
    (urlparse_netloc : string -> Exc string) (aenv : AnalysisEnv)
    (env : Env) (ts : list Thought) (history : list RawStep) (task_id : string)
    (initial_screenshot final_screenshot : option (string * string))
    (oi : Instructions) (r : ReviewReport) :
  length history + 2 < length (screenshot_instructions oi) ->
  analyze_results_direct urlparse_netloc aenv
    (view_results (execute_task_results env ts history task_id
                                        initial_screenshot final_screenshot)) oi = Ok r ->
  meets_requirements (screenshots_captured (compliance_check r)) = false
  /\ In rec_missing_screenshots (recommendations r).
Proof.
  intros Hreq Hr. apply analyze_ok_inv in Hr as (accessed & _ & Hc & _ & Hrec & _).
  set (rs := execute_task_results env ts history task_id initial_screenshot
                                  final_screenshot) in *.
  assert (B : length (screenshots rs) <= length history + 2).
  { subst rs. unfold execute_task_results.
    pose proof (add_manual_length final_screenshot
                  (add_manual initial_screenshot
                     (save_execution_results env ts history task_id))).
    pose proof (add_manual_length initial_screenshot
                  (save_execution_results env ts history task_id)).
    pose proof (saved_screenshots_bound env ts history task_id). lia. }
  assert (M : (length (screenshot_instructions oi) <=? length (screenshots rs)) = false)
    by (apply Nat.leb_gt; lia).
  split.
  - rewrite Hc. cbn [screenshots_captured check_screenshots meets_requirements
                     view_results er_screenshots].
    destruct (screenshot_instructions oi); [cbn in Hreq; lia | exact M].
  - rewrite Hrec. unfold build_recommendations.
    cbn [view_results er_screenshots er_success er_execution_steps].
    assert (P : (0 <? length (screenshot_instructions oi)) = true)
      by (apply Nat.ltb_lt; lia).
    assert (Q : (length (screenshots rs) <? length (screenshot_instructions oi)) = true)
      by (apply Nat.ltb_lt; lia).
    rewrite P, Q. cbn [andb when].
    apply in_or_app; right. apply in_or_app; right. now left.
Qed.

Lemma too_many_screenshots_required_witness :
  exists r,
    analyze_results_direct plain_netloc Sample.env
      (view_results (execute_task_results Sample.fs [] (Sample.blank_steps 1) "task_1"
                       (Some ("operation_logs/screenshots/task_1_initial.png",
                              "/screenshots/task_1_initial.png"))
                       (Some ("operation_logs/screenshots/task_1_final.png",
                              "/screenshots/task_1_final.png"))))
      (Sample.instructions "https://x.com" 4) = Ok r
    /\ meets_requirements (screenshots_captured (compliance_check r)) = false
    /\ In rec_missing_screenshots (recommendations r).
Proof.
  run_analysis r E.
  apply (too_many_screenshots_required plain_netloc Sample.env Sample.fs []
           (Sample.blank_steps 1) "task_1"
           (Some ("operation_logs/screenshots/task_1_initial.png",
                  "/screenshots/task_1_initial.png"))
           (Some ("operation_logs/screenshots/task_1_final.png",
                  "/screenshots/task_1_final.png"))
           (Sample.instructions "https://x.com" 4) r).
  - cbn. lia.
  - exact E.
Defined.
